(** * mexgdal: the MATLAB gateway to the GDAL raster library

    A shallow embedding of [mexgdal.c].  The gateway has one entry point,
    [mexFunction], which either reads a window of one raster band and hands
    it to MATLAB transposed into column-major order, or builds a nested
    structure describing the data set.

    Conventions of the embedding:
    - a C [int] is a [Z]; arithmetic that the C code performs on [int]s is
      written with the 32-bit two's-complement wrap-around of [Int];
    - a C [double] is a binary64 [float];
    - [mexErrMsgTxt] leaves the gateway at once: it is the [Abort] outcome;
      [mexWarnMsgTxt], [mexPrintf] and the calls into GDAL that matter for
      the order of events are recorded in a trace;
    - behaviour the C standard leaves undefined (reading element 0 of an
      empty array, using a NULL band handle, a negative allocation size,
      a [sprintf] that writes past the end of its buffer, a read or a
      [memcpy] of more than a buffer holds) is the [Undefined] outcome;
    - GDAL itself is a collaborator: its answers are the fields of the
      records in [Module GDAL]. *)

From Stdlib Require Import ZArith Lia String Ascii List.
From Stdlib.Strings Require Import Byte.
From Stdlib Require Import PrimFloat SpecFloat FloatOps.
From stdpp Require Import base list.
Import ListNotations.

Open Scope Z_scope.

Set Warnings "-register-all".

(** ** Machine integers *)

Module Int.

Definition min_signed : Z := -2147483648.
Definition max_signed : Z := 2147483647.
Definition modulus : Z := 4294967296.

(** Reduction of a mathematical integer to the [int] it wraps to. *)
Definition wrap (z : Z) : Z := (z - min_signed) mod modulus + min_signed.

Definition add (a b : Z) : Z := wrap (a + b).
Definition sub (a b : Z) : Z := wrap (a - b).
Definition mul (a b : Z) : Z := wrap (a * b).

Definition in_range (z : Z) : Prop := min_signed <= z <= max_signed.

(** [(int)d] for a double [d]: truncation toward zero.  A value that does
    not fit (or a NaN) has no defined conversion in C; the x86 conversion
    instruction yields [INT_MIN], which is what is taken here. *)
Definition of_double (d : float) : Z :=
  match Prim2SF d with
  | S754_zero _ => 0
  | S754_finite s m e =>
      let mag := if 0 <=? e then Z.pos m * 2 ^ e else Z.pos m / 2 ^ (- e) in
      let v := if s then - mag else mag in
      if (min_signed <=? v) && (v <=? max_signed) then v else min_signed
  | _ => min_signed
  end.

(** [(double)i] for an [int] [i]; exact, an [int] has at most 32 bits. *)
Definition to_double (i : Z) : float :=
  SF2Prim (binary_normalize prec emax i 0 false).

End Int.

(** ** C control flow *)

(** [for (k = lo; k < hi; ++k) s = body k s]. *)
Definition for_loop {S : Type} (lo hi : Z) (body : Z -> S -> S) (s : S) : S :=
  fold_left (fun s k => body (lo + Z.of_nat k) s) (seq 0 (Z.to_nat (hi - lo))) s.

(** ** Buffers

    A buffer of [n] elements obtained from [mxCalloc] is a list of length
    [n]; [load] and [store] are the C subscript on it.  An index outside the
    buffer has no defined meaning in C: [load] gives [None] and [store]
    leaves the buffer alone. *)

Definition load {A : Type} (buf : list A) (index : Z) : option A :=
  if index <? 0 then None else buf !! Z.to_nat index.

Definition store {A : Type} (buf : list A) (index : Z) (v : A) : list A :=
  if index <? 0 then buf else <[Z.to_nat index := v]> buf.

(** The transposition loops of [mexFunction] (the same text for the byte
    and for the double buffer):
<<
    for (i = 0; i < yout; ++i) {
        for (j = 0; j < xout; ++j) {
            index = i * xout + j;
            t_index = j * yout + i;
            transpose_buffer[t_index] = void_buffer[index];
        }
    }
>> *)
Definition transpose_loops {A : Type} (xout yout : Z)
    (void_buffer transpose_buffer : list A) : list A :=
  for_loop 0 yout (fun i tb =>
    for_loop 0 xout (fun j tb =>
      let index := Int.add (Int.mul i xout) j in
      let t_index := Int.add (Int.mul j yout) i in
      match load void_buffer index with
      | Some v => store tb t_index v
      | None => tb
      end) tb) transpose_buffer.

(** ** Messages, events and outcomes *)

Inductive printf_arg : Type :=
| ArgInt (i : Z)
| ArgString (s : string)
| ArgDouble (d : float).

(** A formatted message: the format string as it is spelled in the source
    (escapes included) and the arguments it is formatted with. *)
Record message : Type := sprintf { format : string; arguments : list printf_arg }.

(** What a call of the gateway does that can be observed from outside:
    what it prints, the warnings it raises, and its calls into GDAL (those
    whose order or presence matters; the arguments are those of the C
    call). *)
Inductive event : Type :=
| EvPrintf (m : message)
| EvWarning (m : message)
| EvGDALAllRegister
| EvGDALOpen (filename : string)
| EvGDALClose
| EvGDALGetGeoTransform
| EvGDALReadWorldFile (basename : string) (extension : option string)
| EvGDALComputeRasterMinMax
| EvGDALRasterIO (nXOff nYOff nXSize nYSize nBufXSize nBufYSize eBufType : Z).

(** How a computation ends: it returns ([Done]), it is cut short by
    [mexErrMsgTxt] ([Abort], with the message), or it did something C gives
    no meaning to ([Undefined]). *)
Inductive outcome (A : Type) : Type :=
| Done (a : A)
| Abort (m : message)
| Undefined.

Arguments Done {A} a.
Arguments Abort {A} m.
Arguments Undefined {A}.

(** A computation of the gateway: how it ends and what it did on the way. *)
Definition M (A : Type) : Type := (outcome A * list event)%type.

Definition ret {A : Type} (a : A) : M A := (Done a, []).

Definition bind {A B : Type} (m : M A) (k : A -> M B) : M B :=
  match m with
  | (Done a, evs) => let (o, evs') := k a in (o, evs ++ evs')
  | (Abort msg, evs) => (Abort msg, evs)
  | (Undefined, evs) => (Undefined, evs)
  end.

Notation "'let*' x := m 'in' k" := (bind m (fun x => k))
  (at level 10, x name, m at level 100, k at level 200).
Notation "m ;> k" := (bind m (fun _ => k))
  (at level 100, k at level 200, right associativity).

Definition emit (e : event) : M unit := (Done tt, [e]).
Definition mexPrintf (fmt : string) (args : list printf_arg) : M unit :=
  emit (EvPrintf (sprintf fmt args)).
Definition mexWarnMsgTxt (msg : message) : M unit := emit (EvWarning msg).
Definition mexErrMsgTxt {A : Type} (msg : message) : M A := (Abort msg, []).
Definition undefined {A : Type} : M A := (Undefined, []).

Definition when (c : bool) (m : M unit) : M unit := if c then m else ret tt.

(** The characters a format contributes to what [sprintf] writes, its
    conversions [%s] left out.  The formats are spelled as in the source,
    so that an escape such as [\n] is two characters here and one in C. *)
Fixpoint literal_length (fmt : string) : Z :=
  match fmt with
  | EmptyString => 0
  | String "\"%char (String _ rest) => 1 + literal_length rest
  | String "%"%char (String "s"%char rest) => literal_length rest
  | String _ rest => 1 + literal_length rest
  end.

(** Whether [sprintf(buffer, fmt, s)], for a format with one [%s], stays
    inside a [char buffer[capacity]]: the characters written and the
    terminating zero must fit. *)
Definition fits (capacity : Z) (fmt : string) (s : string) : bool :=
  literal_length fmt + Z.of_nat (String.length s) <? capacity.

(** [sprintf(buffer, fmt, s)] into a [char buffer[capacity]].  Writing
    past the end of the buffer has no defined meaning.  (The other
    messages of the file are formatted with [%d] only: the longest has 72
    characters and two conversions of at most 11 characters each, and the
    buffers have 500.) *)
Definition sprintf_into (capacity : Z) (fmt : string) (s : string) : M message :=
  if fits capacity fmt s then ret (sprintf fmt [ArgString s]) else undefined.

(** [for (k = lo; k < hi; ++k) body] for a body with effects. *)
Definition for_loopM {S : Type} (lo hi : Z) (body : Z -> S -> M S) (s : S) : M S :=
  fold_left (fun acc k => let* st := acc in body (lo + Z.of_nat k) st)
            (seq 0 (Z.to_nat (hi - lo))) (ret s).

(** ** MATLAB arrays

    An [mxArray] with its number of rows [m] and columns [n] as [mxGetM]
    and [mxGetN] report them, and its data in column-major order.  A
    structure array has a list of field names and, for each element, the
    value of each field in that order; [None] is a field that was never
    set (a NULL pointer, which MATLAB displays as an empty array).
    [mxOther] stands for the classes the gateway has no use for. *)

Inductive mxArray : Type :=
| mxDouble (m n : Z) (pr : list float)
| mxUint8 (m n : Z) (data : list byte)
| mxChar (m n : Z) (s : string)
| mxStruct (m n : Z) (fieldnames : list string)
           (elements : list (list (option mxArray)))
| mxOther (m n : Z).

Definition mxGetM (a : mxArray) : Z :=
  match a with
  | mxDouble m _ _ | mxUint8 m _ _ | mxChar m _ _ | mxStruct m _ _ _ | mxOther m _ => m
  end.

Definition mxGetN (a : mxArray) : Z :=
  match a with
  | mxDouble _ n _ | mxUint8 _ n _ | mxChar _ n _ | mxStruct _ n _ _ | mxOther _ n => n
  end.

Definition mxIsChar (a : mxArray) : Z := match a with mxChar _ _ _ => 1 | _ => 0 end.
Definition mxIsStruct (a : mxArray) : Z := match a with mxStruct _ _ _ _ => 1 | _ => 0 end.
Definition mxIsDouble (a : mxArray) : Z := match a with mxDouble _ _ _ => 1 | _ => 0 end.

(** The doubles [mxGetPr] points to; an array of another class has none. *)
Definition mxGetPr (a : mxArray) : list float :=
  match a with mxDouble _ _ pr => pr | _ => [] end.

(** [pr[0]]: there is nothing to read in an empty array. *)
Definition first_element (pr : list float) : M float :=
  match pr with
  | d :: _ => ret d
  | [] => undefined
  end.

(** [mxGetString(a, buf, buflen)]: the status and the C string copied into
    [buf].  The status is 1 when [a] is not a character array or when its
    characters and the terminating zero do not fit in [buflen]; the string
    is then cut to what fits. *)
Definition mxGetString (a : mxArray) (buflen : Z) : Z * string :=
  match a with
  | mxChar _ _ s =>
      if Z.of_nat (String.length s) <? buflen then (0, s)
      else (1, String.substring 0 (Z.to_nat (buflen - 1)) s)
  | _ => (1, EmptyString)
  end.

Definition mxGetNumberOfFields (a : mxArray) : Z :=
  match a with mxStruct _ _ names _ => Z.of_nat (length names) | _ => 0 end.

Definition mxGetFieldNameByNumber (a : mxArray) (number : Z) : option string :=
  match a with
  | mxStruct _ _ names _ => if number <? 0 then None else names !! Z.to_nat number
  | _ => None
  end.

Definition mxGetFieldByNumber (a : mxArray) (index number : Z) : option mxArray :=
  match a with
  | mxStruct _ _ _ elements =>
      if (index <? 0) || (number <? 0) then None
      else
        match elements !! Z.to_nat index with
        | Some fields =>
            match fields !! Z.to_nat number with
            | Some field => field
            | None => None
            end
        | None => None
        end
  | _ => None
  end.

(** Position of a field name in the list of field names. *)
Fixpoint field_number (names : list string) (name : string) : option nat :=
  match names with
  | [] => None
  | n :: rest =>
      if String.eqb n name then Some 0%nat
      else option_map Datatypes.S (field_number rest name)
  end.

Definition mxGetField (a : mxArray) (index : Z) (name : string) : option mxArray :=
  match a with
  | mxStruct _ _ names _ =>
      match field_number names name with
      | Some k => mxGetFieldByNumber a index (Z.of_nat k)
      | None => None
      end
  | _ => None
  end.

Definition mxCreateStructMatrix (m n : Z) (names : list string) : mxArray :=
  mxStruct m n names (replicate (Z.to_nat (m * n)) (replicate (length names) None)).

Definition mxSetField (a : mxArray) (index : Z) (name : string) (v : mxArray) : mxArray :=
  match a with
  | mxStruct m n names elements =>
      match field_number names name with
      | Some k =>
          if index <? 0 then a
          else mxStruct m n names (alter (fun fields => <[k := Some v]> fields)
                                         (Z.to_nat index) elements)
      | None => a
      end
  | _ => a
  end.

Definition mxCreateString (s : string) : mxArray :=
  mxChar 1 (Z.of_nat (String.length s)) s.

Definition mxCreateDoubleScalar (d : float) : mxArray := mxDouble 1 1 [d].

Definition mxCreateDoubleMatrix (m n : Z) : mxArray :=
  mxDouble m n (replicate (Z.to_nat (m * n)) 0%float).

Definition mxCreateUint8Matrix (m n : Z) : mxArray :=
  mxUint8 m n (replicate (Z.to_nat (m * n)) x00).

(** [mxCalloc(n, size)]: [n] zeroed elements.  A negative count is not a
    size the allocator can be asked for. *)
Definition mxCalloc {A : Type} (n : Z) (zero : A) : M (list A) :=
  if n <? 0 then undefined else ret (replicate (Z.to_nat n) zero).

(** [memcpy] of [count] elements. *)
Definition memcpy {A : Type} (dst src : list A) (count : Z) : list A :=
  take (Z.to_nat count) src ++ drop (Z.to_nat count) dst.

(** ** The GDAL library, as the gateway sees it

    GDAL is a library the gateway links against ([gdal.h]); what is
    modelled is what its functions answer.  A handle is the record of what
    GDAL answers about the object; a NULL handle is [None].  The
    enumerators have the values [gdal.h] gives them. *)

Module GDAL.

(** [GDALDataType] is a C enumeration; the gateway switches on its
    integer value. *)
Definition GDT_Unknown : Z := 0.
Definition GDT_Byte : Z := 1.
Definition GDT_UInt16 : Z := 2.
Definition GDT_Int16 : Z := 3.
Definition GDT_UInt32 : Z := 4.
Definition GDT_Int32 : Z := 5.
Definition GDT_Float32 : Z := 6.
Definition GDT_Float64 : Z := 7.

Definition CE_None : Z := 0.

Record Driver : Type := {
  DriverShortName : string;
  DriverLongName : string
}.

(** A raster band, or an overview of one (an overview is a band too).
    [RasterMinimum] and [RasterMaximum] come with the flag that says
    whether the value is known; [ComputedMinMax] is what
    [GDALComputeRasterMinMax] finds.
    [RasterIO_Byte x y w h bw bh] and [RasterIO_Float64 x y w h bw bh] are
    what a read of the window [(x, y, w, h)] resampled to [bw] by [bh]
    samples leaves in the caller's buffer: the error code and the sample
    at each position of the buffer. *)
Inductive RasterBand : Type := {
  BandXSize : Z;
  BandYSize : Z;
  RasterDataType : Z;
  NoDataValue : float;
  Overviews : list RasterBand;
  ColorInterpretationName : string;
  RasterMinimum : float * Z;
  RasterMaximum : float * Z;
  ComputedMinMax : float * float;
  RasterIO_Byte : Z -> Z -> Z -> Z -> Z -> Z -> Z * (nat -> byte);
  RasterIO_Float64 : Z -> Z -> Z -> Z -> Z -> Z -> Z * (nat -> float)
}.

(** [GeoTransform]: the error code of [GDALGetGeoTransform] and the six
    coefficients it writes (it writes a default transform on failure). *)
Record Dataset : Type := {
  RasterXSize : Z;
  RasterYSize : Z;
  Bands : list RasterBand;
  ProjectionRef : string;
  DatasetDriver : Driver;
  GeoTransform : Z * list float
}.

(** The library: its driver registry, the files it can open, the world
    files it can read ([Some] coefficients when [GDALReadWorldFile]
    returns TRUE, for a base name and an extension or NULL), the names of
    its data types and its version number. *)
Record Library : Type := {
  Drivers : list Driver;
  Open : string -> option Dataset;
  ReadWorldFile : string -> option string -> option (list float);
  DataTypeName : Z -> string;
  VERSION_NUM : Z
}.

Definition GetDriverCount (lib : Library) : Z := Z.of_nat (length (Drivers lib)).

Definition GetDriver (lib : Library) (j : Z) : option Driver :=
  if j <? 0 then None else Drivers lib !! Z.to_nat j.

Definition GetRasterCount (ds : Dataset) : Z := Z.of_nat (length (Bands ds)).

(** Bands are numbered from 1; NULL outside the range. *)
Definition GetRasterBand (ds : Dataset) (nBand : Z) : option RasterBand :=
  if nBand <? 1 then None else Bands ds !! Z.to_nat (nBand - 1).

Definition GetOverviewCount (b : RasterBand) : Z := Z.of_nat (length (Overviews b)).

(** Overviews are numbered from 0; NULL outside the range. *)
Definition GetOverview (b : RasterBand) (i : Z) : option RasterBand :=
  if i <? 0 then None else Overviews b !! Z.to_nat i.

(** Size of a data type in bits. *)
Definition GetDataTypeSize (t : Z) : Z :=
  if t =? GDT_Byte then 8
  else if (t =? GDT_UInt16) || (t =? GDT_Int16) then 16
  else if (t =? GDT_UInt32) || (t =? GDT_Int32) || (t =? GDT_Float32) then 32
  else if t =? GDT_Float64 then 64
  else 0.

End GDAL.

(** ** The gateway: [mexgdal.c] *)

Import GDAL.

Open Scope string_scope.
Open Scope list_scope.
Open Scope Z_scope.

(** The local variables of [mexFunction] that the options structure can
    set, and the global flag [mexgdal_verbose]. *)
Record options : Type := {
  requested_band : Z;
  requested_overview : Z;
  gdal_dump : Z;
  mexgdal_verbose : Z;
  xorigin : Z;
  yorigin : Z;
  xextend : Z;
  yextend : Z;
  xout : Z;
  yout : Z
}.

Definition set_requested_band (v : Z) (o : options) : options :=
  {| requested_band := v; requested_overview := requested_overview o;
     gdal_dump := gdal_dump o; mexgdal_verbose := mexgdal_verbose o;
     xorigin := xorigin o; yorigin := yorigin o; xextend := xextend o;
     yextend := yextend o; xout := xout o; yout := yout o |}.

Definition set_requested_overview (v : Z) (o : options) : options :=
  {| requested_band := requested_band o; requested_overview := v;
     gdal_dump := gdal_dump o; mexgdal_verbose := mexgdal_verbose o;
     xorigin := xorigin o; yorigin := yorigin o; xextend := xextend o;
     yextend := yextend o; xout := xout o; yout := yout o |}.

Definition set_gdal_dump (v : Z) (o : options) : options :=
  {| requested_band := requested_band o; requested_overview := requested_overview o;
     gdal_dump := v; mexgdal_verbose := mexgdal_verbose o;
     xorigin := xorigin o; yorigin := yorigin o; xextend := xextend o;
     yextend := yextend o; xout := xout o; yout := yout o |}.

Definition set_mexgdal_verbose (v : Z) (o : options) : options :=
  {| requested_band := requested_band o; requested_overview := requested_overview o;
     gdal_dump := gdal_dump o; mexgdal_verbose := v;
     xorigin := xorigin o; yorigin := yorigin o; xextend := xextend o;
     yextend := yextend o; xout := xout o; yout := yout o |}.

Definition set_xorigin (v : Z) (o : options) : options :=
  {| requested_band := requested_band o; requested_overview := requested_overview o;
     gdal_dump := gdal_dump o; mexgdal_verbose := mexgdal_verbose o;
     xorigin := v; yorigin := yorigin o; xextend := xextend o;
     yextend := yextend o; xout := xout o; yout := yout o |}.

Definition set_yorigin (v : Z) (o : options) : options :=
  {| requested_band := requested_band o; requested_overview := requested_overview o;
     gdal_dump := gdal_dump o; mexgdal_verbose := mexgdal_verbose o;
     xorigin := xorigin o; yorigin := v; xextend := xextend o;
     yextend := yextend o; xout := xout o; yout := yout o |}.

Definition set_xextend (v : Z) (o : options) : options :=
  {| requested_band := requested_band o; requested_overview := requested_overview o;
     gdal_dump := gdal_dump o; mexgdal_verbose := mexgdal_verbose o;
     xorigin := xorigin o; yorigin := yorigin o; xextend := v;
     yextend := yextend o; xout := xout o; yout := yout o |}.

Definition set_yextend (v : Z) (o : options) : options :=
  {| requested_band := requested_band o; requested_overview := requested_overview o;
     gdal_dump := gdal_dump o; mexgdal_verbose := mexgdal_verbose o;
     xorigin := xorigin o; yorigin := yorigin o; xextend := xextend o;
     yextend := v; xout := xout o; yout := yout o |}.

Definition set_xout (v : Z) (o : options) : options :=
  {| requested_band := requested_band o; requested_overview := requested_overview o;
     gdal_dump := gdal_dump o; mexgdal_verbose := mexgdal_verbose o;
     xorigin := xorigin o; yorigin := yorigin o; xextend := xextend o;
     yextend := yextend o; xout := v; yout := yout o |}.

Definition set_yout (v : Z) (o : options) : options :=
  {| requested_band := requested_band o; requested_overview := requested_overview o;
     gdal_dump := gdal_dump o; mexgdal_verbose := mexgdal_verbose o;
     xorigin := xorigin o; yorigin := yorigin o; xextend := xextend o;
     yextend := yextend o; xout := xout o; yout := v |}.

(** The initial values [mexFunction] gives them. *)
Definition default_options : options :=
  {| requested_band := 1; requested_overview := -1; gdal_dump := 0;
     mexgdal_verbose := 1; xorigin := 0; yorigin := 0;
     xextend := -1; yextend := -1; xout := -1; yout := -1 |}.

(** *** Unpacking the options *)

Definition unpack_gdal_dump (field : mxArray) : M Z :=
  when (negb (mxIsDouble field =? 1))
       (mexWarnMsgTxt (sprintf "unpack_gdal_dump:  gdal_dump field must be a double.\n" [])) ;>
  let m := mxGetM field in
  let n := mxGetN field in
  when (negb (m =? 1))
       (mexWarnMsgTxt (sprintf "unpack_gdal_dump:  gdal_dump field must be mx1 rather than %dx%d.\n"
                               [ArgInt m; ArgInt n])) ;>
  let* d := first_element (mxGetPr field) in
  ret (Int.of_double d).

Definition unpack_band (field : mxArray) : M Z :=
  let m := mxGetM field in
  let n := mxGetN field in
  when (negb (m =? 1) || negb (n =? 1))
       (mexWarnMsgTxt (sprintf "unpack_band:  band field must be 1x1 rather than %dx%d.\n"
                               [ArgInt m; ArgInt n])) ;>
  let* d := first_element (mxGetPr field) in
  ret (Int.of_double d).

Definition unpack_xextend (field : mxArray) : M Z :=
  let m := mxGetM field in
  let n := mxGetN field in
  when (negb (m =? 1) || negb (n =? 1))
       (mexErrMsgTxt (sprintf "unpack_xExtend:  xExtend field must be 1x1 rather than %dx%d.\n"
                              [ArgInt m; ArgInt n])) ;>
  let* d := first_element (mxGetPr field) in
  ret (Int.of_double d).

Definition unpack_yextend (field : mxArray) : M Z :=
  let m := mxGetM field in
  let n := mxGetN field in
  when (negb (m =? 1) || negb (n =? 1))
       (mexErrMsgTxt (sprintf "unpack_yExtend:  yExtend field must be 1x1 rather than %dx%d.\n"
                              [ArgInt m; ArgInt n])) ;>
  let* d := first_element (mxGetPr field) in
  ret (Int.of_double d).

Definition unpack_xout (field : mxArray) : M Z :=
  let m := mxGetM field in
  let n := mxGetN field in
  when (negb (m =? 1) || negb (n =? 1))
       (mexErrMsgTxt (sprintf "unpack_xout:  xout field must be 1x1 rather than %dx%d.\n"
                              [ArgInt m; ArgInt n])) ;>
  let* d := first_element (mxGetPr field) in
  ret (Int.of_double d).

Definition unpack_yout (field : mxArray) : M Z :=
  let m := mxGetM field in
  let n := mxGetN field in
  when (negb (m =? 1) || negb (n =? 1))
       (mexErrMsgTxt (sprintf "unpack_yout:  yout field must be 1x1 rather than %dx%d.\n"
                              [ArgInt m; ArgInt n])) ;>
  let* d := first_element (mxGetPr field) in
  ret (Int.of_double d).

Definition unpack_overview (field : mxArray) : M Z :=
  let m := mxGetM field in
  let n := mxGetN field in
  when (negb (m =? 1))
       (mexWarnMsgTxt (sprintf "unpack_overview:  overview field must be 1x1 rather than %dx%d.\n"
                               [ArgInt m; ArgInt n])) ;>
  let* d := first_element (mxGetPr field) in
  ret (Int.of_double d).

Definition unpack_verbose (field : mxArray) : M Z :=
  let m := mxGetM field in
  let n := mxGetN field in
  when (negb (m =? 1))
       (mexWarnMsgTxt (sprintf "unpack_verbose:  overview field must be 1x1 rather than %dx%d.\n"
                               [ArgInt m; ArgInt n])) ;>
  let* d := first_element (mxGetPr field) in
  ret (Int.of_double d).

(** One [if (strcmp(fieldname, name) == 0) *var = unpack(mxField);] of
    [unpack_input_options]. *)
Definition if_field (fieldname name : string) (unpack : mxArray -> M Z)
    (set : Z -> options -> options) (mxField : mxArray) (o : options) : M options :=
  if String.eqb fieldname name
  then let* v := unpack mxField in ret (set v o)
  else ret o.

(** The body of the loop of [unpack_input_options], once the field and its
    name are in hand. *)
Definition unpack_field (fieldname : string) (mxField : mxArray) (o : options) : M options :=
  let* o := if_field fieldname "band" unpack_band set_requested_band mxField o in
  let* o := if_field fieldname "overview" unpack_overview set_requested_overview mxField o in
  let* o := if_field fieldname "gdal_dump" unpack_gdal_dump set_gdal_dump mxField o in
  let* o := if_field fieldname "verbose" unpack_verbose set_mexgdal_verbose mxField o in
  let* o := if_field fieldname "xorigin" unpack_band set_xorigin mxField o in
  let* o := if_field fieldname "yorigin" unpack_band set_yorigin mxField o in
  let* o := if_field fieldname "xextend" unpack_xextend set_xextend mxField o in
  let* o := if_field fieldname "yextend" unpack_yextend set_yextend mxField o in
  let* o := if_field fieldname "xout" unpack_xout set_xout mxField o in
  if_field fieldname "yout" unpack_yout set_yout mxField o.

Definition unpack_input_options (mx_struct : mxArray) (o : options) : M options :=
  let nfields := mxGetNumberOfFields mx_struct in
  for_loopM 0 nfields (fun ifield o =>
    match mxGetFieldByNumber mx_struct 0 ifield with
    | None =>
        mexErrMsgTxt (sprintf "mxGetFieldByNumber returned NULL on field %d.\n" [ArgInt ifield])
    | Some mxField =>
        match mxGetFieldNameByNumber mx_struct ifield with
        | None =>
            mexErrMsgTxt (sprintf "mxGetFieldNameByNumber returned NULL on field %d.\n"
                                  [ArgInt ifield])
        | Some fieldname => unpack_field fieldname mxField o
        end
    end) o.

(** *** Georeferencing *)

(** [record_geotransform]: the status it returns and the contents of
    [adfGeoTransform] when it does. *)
Definition record_geotransform (lib : Library) (gdal_filename : string)
    (hDataset : Dataset) : M (Z * list float) :=
  emit EvGDALGetGeoTransform ;>
  let (err, adfGeoTransform) := GeoTransform hDataset in
  if err =? CE_None then ret (0, adfGeoTransform)
  else
    emit (EvGDALReadWorldFile gdal_filename (Some "wld")) ;>
    match ReadWorldFile lib gdal_filename (Some "wld") with
    | Some coefficients => ret (0, coefficients)
    | None =>
        (* char generic_buffer[5000]; sprintf(generic_buffer, "%s.xxx", gdal_filename) *)
        if negb (fits 5000 "%s.xxx" gdal_filename) then undefined else
        let generic_buffer := String.append gdal_filename ".xxx" in
        emit (EvGDALReadWorldFile generic_buffer (Some "wld")) ;>
        let (status, adfGeoTransform) :=
          match ReadWorldFile lib generic_buffer (Some "wld") with
          | Some coefficients => (1, coefficients)
          | None => (0, adfGeoTransform)
          end in
        if status =? 1 then ret (0, adfGeoTransform)
        else if 1210 <=? VERSION_NUM lib then
          emit (EvGDALReadWorldFile gdal_filename None) ;>
          match ReadWorldFile lib gdal_filename None with
          | Some coefficients => ret (0, coefficients)
          | None => ret (-1, adfGeoTransform)
          end
        else ret (-1, adfGeoTransform)
    end.

(** *** The metadata structure *)

Definition handle_overviews (hBand : RasterBand) (band_struct : mxArray) : M mxArray :=
  let overview_fieldnames := ["XSize"; "YSize"] in
  let num_overviews := GetOverviewCount hBand in
  if 0 <? num_overviews then
    let overview_struct := mxCreateStructMatrix num_overviews 1 overview_fieldnames in
    let* overview_struct :=
      for_loopM 0 num_overviews (fun overview overview_struct =>
        match GetOverview hBand overview with
        | None => undefined
        | Some overview_hBand =>
            let xSize := BandXSize overview_hBand in
            let mxtmp := mxCreateDoubleScalar (Int.to_double xSize) in
            let overview_struct := mxSetField overview_struct overview "XSize" mxtmp in
            let ySize := BandYSize overview_hBand in
            let mxtmp := mxCreateDoubleScalar (Int.to_double ySize) in
            ret (mxSetField overview_struct overview "YSize" mxtmp)
        end) overview_struct in
    ret (mxSetField band_struct 0 "Overview" overview_struct)
  else ret band_struct.

Definition populate_metadata_struct (lib : Library) (gdal_filename : string) : M mxArray :=
  let driverCount := GetDriverCount lib in
  emit (EvGDALOpen gdal_filename) ;>
  match Open lib gdal_filename with
  | None =>
      let* error_msg := sprintf_into 500 "Unable to open %s.\n" gdal_filename in
      mexErrMsgTxt error_msg
  | Some hDataset =>
      let fieldnames := ["ProjectionRef"; "GeoTransform"; "DriverShortName";
                         "DriverLongName"; "RasterXSize"; "RasterYSize";
                         "RasterCount"; "Driver"; "Band"] in
      let metadata_struct := mxCreateStructMatrix 1 1 fieldnames in
      let driver_fieldnames := ["DriverLongName"; "DriverShortName"] in
      let driver_struct := mxCreateStructMatrix driverCount 1 driver_fieldnames in
      let* driver_struct :=
        for_loopM 0 driverCount (fun j driver_struct =>
          match GetDriver lib j with
          | None => undefined
          | Some hDriver =>
              let mxtmp := mxCreateString (DriverLongName hDriver) in
              let driver_struct := mxSetField driver_struct j "DriverLongName" mxtmp in
              let mxtmp := mxCreateString (DriverShortName hDriver) in
              ret (mxSetField driver_struct j "DriverShortName" mxtmp)
          end) driver_struct in
      let metadata_struct := mxSetField metadata_struct 0 "Driver" driver_struct in
      let mxProjectionRef := mxCreateString (ProjectionRef hDataset) in
      let metadata_struct := mxSetField metadata_struct 0 "ProjectionRef" mxProjectionRef in
      let* geo := record_geotransform lib gdal_filename hDataset in
      let (status, adfGeoTransform) := geo in
      let* metadata_struct :=
        if status =? 0 then
          let mxGeoTransform :=
            mxDouble 6 1 (map (fun k => nth k adfGeoTransform 0%float)
                              [0; 1; 2; 3; 4; 5]%nat) in
          ret (mxSetField metadata_struct 0 "GeoTransform" mxGeoTransform)
        else
          let* error_msg :=
            sprintf_into 500 "No internal georeferencing exists for %s, and could not find a suitable world file either.\n"
                         gdal_filename in
          mexWarnMsgTxt error_msg ;>
          ret metadata_struct in
      let hDriver := DatasetDriver hDataset in
      let mxGDALDriverShortName := mxCreateString (DriverShortName hDriver) in
      let metadata_struct :=
        mxSetField metadata_struct 0 "DriverShortName" mxGDALDriverShortName in
      let mxGDALDriverLongName := mxCreateString (DriverLongName hDriver) in
      let metadata_struct :=
        mxSetField metadata_struct 0 "DriverLongName" mxGDALDriverLongName in
      let xSize := RasterXSize hDataset in
      let metadata_struct :=
        mxSetField metadata_struct 0 "RasterXSize" (mxCreateDoubleScalar (Int.to_double xSize)) in
      let ySize := RasterYSize hDataset in
      let metadata_struct :=
        mxSetField metadata_struct 0 "RasterYSize" (mxCreateDoubleScalar (Int.to_double ySize)) in
      let raster_count := GetRasterCount hDataset in
      let metadata_struct :=
        mxSetField metadata_struct 0 "RasterCount"
                   (mxCreateDoubleScalar (Int.to_double raster_count)) in
      let band_fieldnames := ["XSize"; "YSize"; "Overview"; "NoDataValue"; "DataType"] in
      let band_struct := mxCreateStructMatrix raster_count 1 band_fieldnames in
      let* band_struct :=
        for_loopM 1 (raster_count + 1) (fun band_number band_struct =>
          match GetRasterBand hDataset band_number with
          | None => undefined
          | Some hBand =>
              let mxtmp := mxCreateDoubleScalar (Int.to_double (BandXSize hBand)) in
              let band_struct := mxSetField band_struct 0 "XSize" mxtmp in
              let mxtmp := mxCreateDoubleScalar (Int.to_double (BandYSize hBand)) in
              let band_struct := mxSetField band_struct 0 "YSize" mxtmp in
              let gdal_type := RasterDataType hBand in
              let mxtmp := mxCreateString (DataTypeName lib gdal_type) in
              let band_struct := mxSetField band_struct 0 "DataType" mxtmp in
              let mxtmp := mxCreateDoubleScalar (NoDataValue hBand) in
              let band_struct := mxSetField band_struct 0 "NoDataValue" mxtmp in
              handle_overviews hBand band_struct
          end) band_struct in
      let metadata_struct := mxSetField metadata_struct 0 "Band" band_struct in
      emit EvGDALClose ;>
      ret metadata_struct
  end.

(** *** Reading the raster *)

(** Resolution of the window, once the size of the band (or overview) is
    known: the lines of [mexFunction] that replace the impossible initial
    values of [xextend], [yextend], [xout] and [yout]. *)
Definition resolve_window (RasterXSize RasterYSize : Z) (o : options) : options :=
  let o := if xextend o =? -1 then set_xextend RasterXSize o else o in
  let o := if yextend o =? -1 then set_yextend RasterYSize o else o in
  let o := if xout o =? -1 then set_xout (Int.sub (xextend o) (xorigin o)) o else o in
  let o := if yout o =? -1 then set_yout (Int.sub (yextend o) (yorigin o)) o else o in
  o.

(** The block guarded by the first [if (mexgdal_verbose)]. *)
Definition print_band_summary (lib : Library) (hBand : RasterBand)
    (gdal_type RasterXSize RasterYSize : Z) (o : options) : M unit :=
  mexPrintf "data type is %d\n" [ArgInt gdal_type] ;>
  mexPrintf "Block=%dx%d Type=%s, ColorInterp=%s\n"
            [ArgInt (xextend o); ArgInt (yextend o);
             ArgString (DataTypeName lib (RasterDataType hBand));
             ArgString (ColorInterpretationName hBand)] ;>
  let (minimum, bGotMin) := RasterMinimum hBand in
  let (maximum, bGotMax) := RasterMaximum hBand in
  let* adfMinMax :=
    if negb (negb (bGotMin =? 0) && negb (bGotMax =? 0))
    then emit EvGDALComputeRasterMinMax ;> ret (ComputedMinMax hBand)
    else ret (minimum, maximum) in
  mexPrintf "Min=%.3fd, Max=%.3f\n" [ArgDouble (fst adfMinMax); ArgDouble (snd adfMinMax)] ;>
  mexPrintf "xOrigin = %d\n" [ArgInt (xorigin o)] ;>
  mexPrintf "yOrigin = %d\n" [ArgInt (yorigin o)] ;>
  mexPrintf "RasterXSize = %d\n" [ArgInt RasterXSize] ;>
  mexPrintf "RasterYSize = %d\n" [ArgInt RasterYSize] ;>
  mexPrintf "xExtend = %d\n" [ArgInt (xextend o)] ;>
  mexPrintf "yExtend = %d\n" [ArgInt (yextend o)] ;>
  mexPrintf "xOut = %d\n" [ArgInt (xout o)] ;>
  mexPrintf "yOut = %d\n" [ArgInt (yout o)].

(** What [transpose_void_buffer] points to after the [switch]. *)
Inductive transposed : Type :=
| TransposedByte (transpose_buffer_byte : list byte)
| TransposedFloat64 (transpose_buffer_float64 : list float).

(** [mxCreateNumericArray(2, rasterDims, class, mxREAL)]; a negative
    extent is not a dimension. *)
Definition mxCreateNumericArray (rasterDims : Z * Z) (create : Z -> Z -> mxArray) : M mxArray :=
  let (rows, columns) := rasterDims in
  if (rows <? 0) || (columns <? 0) then undefined else ret (create rows columns).

(** The buffer [GDALRasterIO] leaves behind: [count] elements, the one at
    position [k] being [samples k]. *)
Definition filled_buffer {A : Type} (count : nat) (samples : nat -> A) : list A :=
  map samples (seq 0 count).

(** The [switch (gdal_type)]: allocation, the windowed read, the
    transposition and the creation of the MATLAB array.  It yields the
    new array, the transposed buffer and [out_type_size]. *)
Definition read_and_transpose (hBand : RasterBand) (gdal_type : Z) (o : options)
    : M (mxArray * transposed * Z) :=
  if gdal_type =? GDT_Byte then
    let out_type_size := GetDataTypeSize GDT_Byte / 8 in
    let* void_buffer := mxCalloc (Int.mul (xout o) (yout o)) x00 in
    let* transpose_void_buffer := mxCalloc (Int.mul (xout o) (yout o)) x00 in
    emit (EvGDALRasterIO (xorigin o) (yorigin o) (xextend o) (yextend o)
                         (xout o) (yout o) GDT_Byte) ;>
    (* GDAL writes [xout * yout] samples into [void_buffer] *)
    if negb (xout o * yout o <=? Z.of_nat (length void_buffer)) then undefined else
    let (err, samples) :=
      RasterIO_Byte hBand (xorigin o) (yorigin o) (xextend o) (yextend o) (xout o) (yout o) in
    let void_buffer := filled_buffer (length void_buffer) samples in
    let transpose_buffer_byte :=
      transpose_loops (xout o) (yout o) void_buffer transpose_void_buffer in
    let rasterDims := (yout o, xout o) in
    let* mxGDALraster := mxCreateNumericArray rasterDims mxCreateUint8Matrix in
    ret (mxGDALraster, TransposedByte transpose_buffer_byte, out_type_size)
  else if (gdal_type =? GDT_UInt16) || (gdal_type =? GDT_Int16) ||
          (gdal_type =? GDT_UInt32) || (gdal_type =? GDT_Int32) ||
          (gdal_type =? GDT_Float32) || (gdal_type =? GDT_Float64) then
    let out_type_size := GetDataTypeSize GDT_Float64 / 8 in
    let* void_buffer := mxCalloc (Int.mul (xout o) (yout o)) 0%float in
    let* transpose_void_buffer := mxCalloc (Int.mul (xout o) (yout o)) 0%float in
    emit (EvGDALRasterIO (xorigin o) (yorigin o) (xextend o) (yextend o)
                         (xout o) (yout o) GDT_Float64) ;>
    (* GDAL writes [xout * yout] samples into [void_buffer] *)
    if negb (xout o * yout o <=? Z.of_nat (length void_buffer)) then undefined else
    let (err, samples) :=
      RasterIO_Float64 hBand (xorigin o) (yorigin o) (xextend o) (yextend o) (xout o) (yout o) in
    let void_buffer := filled_buffer (length void_buffer) samples in
    let transpose_buffer_float64 :=
      transpose_loops (xout o) (yout o) void_buffer transpose_void_buffer in
    let rasterDims := (yout o, xout o) in
    let* mxGDALraster := mxCreateNumericArray rasterDims mxCreateDoubleMatrix in
    ret (mxGDALraster, TransposedFloat64 transpose_buffer_float64, out_type_size)
  else
    mexErrMsgTxt (sprintf "Unhandled GDALDataType %d.\n" [ArgInt gdal_type]).

(** [memcpy(dst, src, bytes)] for buffers of elements of [size] bytes.
    The byte count is an [int] that is converted to [size_t]: a negative
    one becomes a count that no buffer holds.  Copying more than either
    buffer holds has no defined meaning. *)
Definition memcpy_bytes {A : Type} (dst src : list A) (bytes size : Z) : M (list A) :=
  let count := bytes / size in
  if (bytes <? 0) || (Z.of_nat (length dst) <? count) || (Z.of_nat (length src) <? count)
  then undefined
  else ret (memcpy dst src count).

(** The [memcpy] of [out_type_size * xout * yout] bytes, a product
    computed in [int], from [transpose_void_buffer] to the data of the new
    array. *)
Definition copy_into_matlab_array (mxGDALraster : mxArray) (transpose_void_buffer : transposed)
    (out_type_size : Z) (o : options) : M mxArray :=
  let bytes := Int.mul (Int.mul out_type_size (xout o)) (yout o) in
  match mxGDALraster, transpose_void_buffer with
  | mxUint8 m n data, TransposedByte buf =>
      let* data := memcpy_bytes data buf bytes out_type_size in
      ret (mxUint8 m n data)
  | mxDouble m n pr, TransposedFloat64 buf =>
      let* pr := memcpy_bytes pr buf bytes out_type_size in
      ret (mxDouble m n pr)
  | _, _ => ret mxGDALraster
  end.

(** The band handle [mexFunction] works on: the requested band, or the
    requested overview of it; [None] is a NULL handle. *)
Definition select_band (hDataset : Dataset) (o : options) : option RasterBand :=
  let hBand := GetRasterBand hDataset (requested_band o) in
  if 0 <=? requested_overview o then
    match hBand with
    | Some band => GetOverview band (requested_overview o)
    | None => None
    end
  else hBand.

(** [mexFunction] from [GDALOpen] to its end: the path that returns the
    raster. *)
Definition read_raster (lib : Library) (gdal_filename : string) (o : options) : M mxArray :=
  emit (EvGDALOpen gdal_filename) ;>
  match Open lib gdal_filename with
  | None =>
      let* error_msg := sprintf_into 500 "Unable to open %s.\n" gdal_filename in
      mexErrMsgTxt error_msg
  | Some hDataset =>
      match select_band hDataset o with
      | None =>
          (* a NULL band handle is passed on to GDAL unchecked; what GDAL
             makes of it is outside this file *)
          undefined
      | Some hBand =>
          (* The source asks [GDALGetRasterXSize] and [GDALGetRasterYSize],
             which are functions of a data set, about the band handle; the
             comments there say the size of the band (or overview) is
             meant, and that is what is taken.  [RasterCount] is computed
             the same way and never used. *)
          let RasterXSize := BandXSize hBand in
          let RasterYSize := BandYSize hBand in
          let o := resolve_window RasterXSize RasterYSize o in
          let gdal_type := RasterDataType hBand in
          when (negb (mexgdal_verbose o =? 0))
               (print_band_summary lib hBand gdal_type RasterXSize RasterYSize o) ;>
          when (negb (mexgdal_verbose o =? 0))
               (mexPrintf "Now reading into buffer...\n" []) ;>
          let* r := read_and_transpose hBand gdal_type o in
          let '(mxGDALraster, transpose_void_buffer, out_type_size) := r in
          when (negb (mexgdal_verbose o =? 0))
               (mexPrintf "Now copying into matlab array...\n" []) ;>
          let* mxGDALraster :=
            copy_into_matlab_array mxGDALraster transpose_void_buffer out_type_size o in
          when (negb (mexgdal_verbose o =? 0))
               (mexPrintf "Finished copying into matlab array...\n" []) ;>
          emit EvGDALClose ;>
          ret mxGDALraster
      end
  end.

(** *** The entry point *)

(** [mexFunction] up to and including [GDALAllRegister]: the checks on the
    arguments and the unpacking of the options.  It yields the file name
    and the options in force.  ([defaults_are_invoked] is set and never
    read; it is left out.) *)
Definition read_arguments (nlhs : Z) (prhs : list mxArray) : M (string * options) :=
  let nrhs := Z.of_nat (length prhs) in
  let o := default_options in
  when (negb (nlhs =? 1))
       (mexErrMsgTxt (sprintf "Only one output argument is allowed." [])) ;>
  when (nrhs <? 1)
       (mexErrMsgTxt (sprintf "At least one input argument is required." [])) ;>
  when (2 <? nrhs)
       (mexErrMsgTxt (sprintf "No more than two input arguments are allowed." [])) ;>
  match prhs with
  | [] => undefined
  | mx_input_gdal_file :: rest =>
      when (negb (mxIsChar mx_input_gdal_file =? 1))
           (mexErrMsgTxt (sprintf "Input file name must be a string\n" [])) ;>
      when (negb (mxGetM mx_input_gdal_file =? 1))
           (mexErrMsgTxt (sprintf "Input file name must be a row vector, not a column string\n" [])) ;>
      let buflen := mxGetN mx_input_gdal_file + 1 in
      let (status, gdal_filename) := mxGetString mx_input_gdal_file buflen in
      when (negb (status =? 0))
           (mexErrMsgTxt (sprintf "Not enough space for input file argument.\n" [])) ;>
      let* o :=
        match rest with
        | [] => ret o
        | mx_options :: _ =>
            when (negb (mxIsStruct mx_options =? 1))
                 (mexErrMsgTxt (sprintf "2nd input argument must be a structure.\n" [])) ;>
            unpack_input_options mx_options o
        end in
      emit EvGDALAllRegister ;>
      ret (gdal_filename, o)
  end.

Definition mexFunction (lib : Library) (nlhs : Z) (prhs : list mxArray) : M mxArray :=
  let* arguments := read_arguments nlhs prhs in
  let (gdal_filename, o) := arguments in
  if negb (gdal_dump o =? 0) then populate_metadata_struct lib gdal_filename
  else read_raster lib gdal_filename o.

(** ** The specification's vocabulary *)

(** The resolved window of the specification. *)
Record Window : Type := {
  xOrigin : Z;
  yOrigin : Z;
  xExtent : Z;
  yExtent : Z;
  xOut : Z;
  yOut : Z
}.

(** The window the gateway hands to [GDALRasterIO]. *)
Definition window_of (o : options) : Window :=
  {| xOrigin := xorigin o; yOrigin := yorigin o;
     xExtent := xextend o; yExtent := yextend o;
     xOut := xout o; yOut := yout o |}.

(** An extent or output size of the request: supplied, or still the
    sentinel -1. *)
Definition supplied (v : Z) : option Z := if v =? -1 then None else Some v.

(** The planner's rule as the specification words it: the extent is the
    supplied value, else the size of the band; the output size is the
    supplied value, else extent minus origin; origins pass through. *)
Definition plan_spec (xorigin yorigin : Z) (xextent yextent xout yout : option Z)
    (bandWidth bandHeight : Z) : Window :=
  let xExtent := default bandWidth xextent in
  let yExtent := default bandHeight yextent in
  {| xOrigin := xorigin; yOrigin := yorigin;
     xExtent := xExtent; yExtent := yExtent;
     xOut := default (xExtent - xorigin) xout;
     yOut := default (yExtent - yorigin) yout |}.

(** One georeferencing strategy: the call it makes into GDAL and the
    transform it finds, if any. *)
Definition strategy : Type := (event * option (list float))%type.

(** Ordered fallback as the specification words it: consult the
    strategies in order and stop at the first that succeeds. *)
Fixpoint first_success (strategies : list strategy) : option (list float) * list event :=
  match strategies with
  | [] => (None, [])
  | (call, Some transform) :: _ => (Some transform, [call])
  | (call, None) :: rest =>
      let (found, calls) := first_success rest in (found, call :: calls)
  end.

(** The four strategies of the specification, in its order. *)
Definition georeference_strategies (lib : Library) (gdal_filename : string)
    (hDataset : Dataset) : list strategy :=
  [ (EvGDALGetGeoTransform,
     if fst (GeoTransform hDataset) =? CE_None then Some (snd (GeoTransform hDataset)) else None);
    (EvGDALReadWorldFile gdal_filename (Some "wld"),
     ReadWorldFile lib gdal_filename (Some "wld"));
    (EvGDALReadWorldFile (String.append gdal_filename ".xxx") (Some "wld"),
     ReadWorldFile lib (String.append gdal_filename ".xxx") (Some "wld")) ]
  ++ (if 1210 <=? VERSION_NUM lib
      then [ (EvGDALReadWorldFile gdal_filename None, ReadWorldFile lib gdal_filename None) ]
      else []).

(** An element of a numeric array or of a decode buffer. *)
Inductive sample : Type :=
| ByteSample (b : byte)
| Float64Sample (d : float).

(** The element at a linear (column-major) position of a numeric array. *)
Definition element (a : mxArray) (position : Z) : option sample :=
  match a with
  | mxUint8 _ _ data => option_map ByteSample (load data position)
  | mxDouble _ _ pr => option_map Float64Sample (load pr position)
  | _ => None
  end.

(** The sample GDAL decodes at a position of the row-major decode buffer,
    for the window of [o] and in the representation chosen for the
    band's type. *)
Definition decoded (hBand : RasterBand) (o : options) (position : Z) : sample :=
  if RasterDataType hBand =? GDT_Byte then
    ByteSample (snd (RasterIO_Byte hBand (xorigin o) (yorigin o) (xextend o) (yextend o)
                                   (xout o) (yout o)) (Z.to_nat position))
  else
    Float64Sample (snd (RasterIO_Float64 hBand (xorigin o) (yorigin o) (xextend o) (yextend o)
                                         (xout o) (yout o)) (Z.to_nat position)).

Definition mxIsUint8 (a : mxArray) : Z := match a with mxUint8 _ _ _ => 1 | _ => 0 end.

(** Size in bytes of an element of the array returned for a band type. *)
Definition element_size (gdal_type : Z) : Z := if gdal_type =? GDT_Byte then 1 else 8.

(** The array the raster path builds for a window whose sizes are sane:
    dimensions [yout] by [xout], holding the transposed decode buffer. *)
Definition fetched_array (hBand : RasterBand) (o : options) : mxArray :=
  let count := Z.to_nat (xout o * yout o) in
  if RasterDataType hBand =? GDT_Byte then
    mxUint8 (yout o) (xout o)
      (transpose_loops (xout o) (yout o)
         (filled_buffer count
            (snd (RasterIO_Byte hBand (xorigin o) (yorigin o) (xextend o) (yextend o)
                                (xout o) (yout o))))
         (replicate count x00))
  else
    mxDouble (yout o) (xout o)
      (transpose_loops (xout o) (yout o)
         (filled_buffer count
            (snd (RasterIO_Float64 hBand (xorigin o) (yorigin o) (xextend o) (yextend o)
                                   (xout o) (yout o))))
         (replicate count 0%float)).

(** The number of elements the final [memcpy] copies: its byte count, a
    product computed in [int], in elements. *)
Definition copied_count (gdal_type : Z) (o : options) : Z :=
  Int.mul (Int.mul (element_size gdal_type) (xout o)) (yout o) / element_size gdal_type.

(** The buffer type the gateway asks [GDALRasterIO] for. *)
Definition buffer_type (gdal_type : Z) : Z :=
  if gdal_type =? GDT_Byte then GDT_Byte else GDT_Float64.

(** The array the raster path builds when the number of elements is an
    [int]: dimensions [yout] by [xout], zeroed, with the first
    [copied_count] elements of the transposed decode buffer copied in. *)
Definition returned_array (hBand : RasterBand) (o : options) : mxArray :=
  let count := Z.to_nat (xout o * yout o) in
  let copied := copied_count (RasterDataType hBand) o in
  if RasterDataType hBand =? GDT_Byte then
    mxUint8 (yout o) (xout o)
      (memcpy (replicate count x00)
         (transpose_loops (xout o) (yout o)
            (filled_buffer count
               (snd (RasterIO_Byte hBand (xorigin o) (yorigin o) (xextend o) (yextend o)
                                   (xout o) (yout o))))
            (replicate count x00))
         copied)
  else
    mxDouble (yout o) (xout o)
      (memcpy (replicate count 0%float)
         (transpose_loops (xout o) (yout o)
            (filled_buffer count
               (snd (RasterIO_Float64 hBand (xorigin o) (yorigin o) (xextend o) (yextend o)
                                      (xout o) (yout o))))
            (replicate count 0%float))
         copied).

(** Every event of a computation satisfies [P]. *)
Definition emits {A : Type} (P : event -> Prop) (m : M A) : Prop := Forall P (snd m).

(** A field of the entry of band [band_number] (counted from 1) in the
    [Band] array of a metadata structure; [None] when the field is unset. *)
Definition band_entry (metadata_struct : mxArray) (band_number : Z) (name : string)
    : option mxArray :=
  match mxGetField metadata_struct 0 "Band" with
  | Some band_struct => mxGetField band_struct (band_number - 1) name
  | None => None
  end.



Definition is_warning (e : event) : bool :=
  match e with EvWarning _ => true | _ => false end.


(** The option fields that describe the window. *)
Definition window_fields : list string :=
  ["xorigin"; "yorigin"; "xextend"; "yextend"; "xout"; "yout"].

(** The seven data types the gateway reads. *)
Definition supported_type (t : Z) : bool :=
  (t =? GDT_Byte) || (t =? GDT_Int16) || (t =? GDT_UInt16) || (t =? GDT_Int32) ||
  (t =? GDT_UInt32) || (t =? GDT_Float32) || (t =? GDT_Float64).

Definition is_raster_io (e : event) : bool :=
  match e with EvGDALRasterIO _ _ _ _ _ _ _ => true | _ => false end.

(** Calls that only the metadata path makes. *)
Definition is_metadata_query (e : event) : bool :=
  match e with
  | EvGDALGetGeoTransform | EvGDALReadWorldFile _ _ => true
  | _ => false
  end.

(** The events that are neither raster reads nor georeferencing queries:
    what reading the arguments may emit. *)
Definition is_neutral (e : event) : Prop :=
  is_raster_io e = false /\ is_metadata_query e = false.

(** ** Sample data

    A small library with two files, used to run the gateway. *)

Module Sample.

Definition GTiff : Driver := {| DriverShortName := "GTiff"; DriverLongName := "GeoTIFF" |}.
Definition PNG : Driver :=
  {| DriverShortName := "PNG"; DriverLongName := "Portable Network Graphics" |}.

Definition type_name (t : Z) : string :=
  if t =? GDT_Byte then "Byte"
  else if t =? GDT_UInt16 then "UInt16"
  else if t =? GDT_Int16 then "Int16"
  else if t =? GDT_UInt32 then "UInt32"
  else if t =? GDT_Int32 then "Int32"
  else if t =? GDT_Float32 then "Float32"
  else if t =? GDT_Float64 then "Float64"
  else "Unknown".

Definition byte_of_position (k : nat) : byte :=
  match Byte.of_nat (k mod 256) with Some b => b | None => x00 end.

Definition double_of_position (k : nat) : float := Int.to_double (Z.of_nat k).

(** A band of the given size and type whose reads succeed and number the
    samples of the buffer in the order GDAL writes them. *)
Definition band (xsize ysize type : Z) (nodata : float) (overviews : list RasterBand)
    : RasterBand :=
  {| BandXSize := xsize; BandYSize := ysize; RasterDataType := type;
     NoDataValue := nodata; Overviews := overviews;
     ColorInterpretationName := "Gray";
     RasterMinimum := (0%float, 0); RasterMaximum := (0%float, 0);
     ComputedMinMax := (0%float, 255%float);
     RasterIO_Byte := fun _ _ _ _ _ _ => (CE_None, byte_of_position);
     RasterIO_Float64 := fun _ _ _ _ _ _ => (CE_None, double_of_position) |}.

(** One byte band, three samples wide and two high, without overviews
    and without georeferencing. *)
Definition scan : Dataset :=
  {| RasterXSize := 3; RasterYSize := 2;
     Bands := [band 3 2 GDT_Byte 0%float []];
     ProjectionRef := "";
     DatasetDriver := PNG;
     GeoTransform := (3, [0; 1; 0; 0; 0; 1]%float) |}.

(** Two bands of different sizes and types; the second has an overview. *)
Definition two_bands : Dataset :=
  {| RasterXSize := 500; RasterYSize := 600;
     Bands := [band 500 600 GDT_Byte 255%float [];
               band 250 300 GDT_Int16 (-9999)%float [band 125 150 GDT_Int16 (-9999)%float []]];
     ProjectionRef := "";
     DatasetDriver := GTiff;
     GeoTransform := (CE_None, [100; 2; 0; 200; 0; -2]%float) |}.

(** One band of a complex type (CInt16), which the gateway does not read. *)
Definition complex : Dataset :=
  {| RasterXSize := 3; RasterYSize := 2;
     Bands := [band 3 2 8 0%float []];
     ProjectionRef := "";
     DatasetDriver := GTiff;
     GeoTransform := (CE_None, [0; 1; 0; 0; 0; 1]%float) |}.

Definition library : Library :=
  {| Drivers := [GTiff; PNG];
     Open := fun name =>
       if String.eqb name "scan.png" then Some scan
       else if String.eqb name "two.tif" then Some two_bands
       else if String.eqb name "complex.tif" then Some complex
       else None;
     ReadWorldFile := fun _ _ => None;
     DataTypeName := type_name;
     VERSION_NUM := 1500 |}.

Definition filename (s : string) : mxArray := mxCreateString s.

(** An options structure with the given fields. *)
Definition options_struct (fields : list (string * mxArray)) : mxArray :=
  mxStruct 1 1 (map fst fields) [map (fun f => Some (snd f)) fields].

Definition scalar (d : float) : mxArray := mxCreateDoubleScalar d.

End Sample.

(** ** More of [mexgdal.c] and of its vocabulary *)

(** [unpack_start_count_stride], a function of the file that nothing
    calls: it fills the two-element array [start_count_stride] from a 1x2
    field and returns 0, or warns and returns -1.  The result is the
    status and the array after the call. *)
Definition unpack_start_count_stride (field : mxArray) (start_count_stride : list Z)
    : M (Z * list Z) :=
  let m := mxGetM field in
  let n := mxGetN field in
  if negb (m =? 1) then
    mexWarnMsgTxt (sprintf "unpack_start_count_stride:  start field must be 1x2 rather than %dx%d.\n"
                           [ArgInt m; ArgInt n]) ;>
    ret (-1, start_count_stride)
  else if negb (n =? 2) then
    mexWarnMsgTxt (sprintf "unpack_start_count_stride:  start field must be 1x2 rather than %dx%d.\n"
                           [ArgInt m; ArgInt n]) ;>
    ret (-1, start_count_stride)
  else
    match mxGetPr field with
    | d0 :: d1 :: _ =>
        let start_count_stride := store start_count_stride 0 (Int.of_double d0) in
        let start_count_stride := store start_count_stride 1 (Int.of_double d1) in
        ret (0, start_count_stride)
    | _ => undefined
    end.

(** The ten option fields [unpack_input_options] knows, each with the
    variable it sets. *)
Definition recognized_fields : list (string * (Z -> options -> options)) :=
  [("band", set_requested_band); ("overview", set_requested_overview);
   ("gdal_dump", set_gdal_dump); ("verbose", set_mexgdal_verbose);
   ("xorigin", set_xorigin); ("yorigin", set_yorigin);
   ("xextend", set_xextend); ("yextend", set_yextend);
   ("xout", set_xout); ("yout", set_yout)].

(** The driver loop of [populate_metadata_struct], on its own. *)
Definition driver_structure (lib : Library) : M mxArray :=
  for_loopM 0 (GetDriverCount lib) (fun j driver_struct =>
    match GetDriver lib j with
    | None => undefined
    | Some hDriver =>
        let mxtmp := mxCreateString (DriverLongName hDriver) in
        let driver_struct := mxSetField driver_struct j "DriverLongName" mxtmp in
        let mxtmp := mxCreateString (DriverShortName hDriver) in
        ret (mxSetField driver_struct j "DriverShortName" mxtmp)
    end) (mxCreateStructMatrix (GetDriverCount lib) 1 ["DriverLongName"; "DriverShortName"]).

(** The band loop of [populate_metadata_struct], on its own. *)
Definition band_structure (lib : Library) (hDataset : Dataset) : M mxArray :=
  for_loopM 1 (GetRasterCount hDataset + 1) (fun band_number band_struct =>
    match GetRasterBand hDataset band_number with
    | None => undefined
    | Some hBand =>
        let mxtmp := mxCreateDoubleScalar (Int.to_double (BandXSize hBand)) in
        let band_struct := mxSetField band_struct 0 "XSize" mxtmp in
        let mxtmp := mxCreateDoubleScalar (Int.to_double (BandYSize hBand)) in
        let band_struct := mxSetField band_struct 0 "YSize" mxtmp in
        let gdal_type := RasterDataType hBand in
        let mxtmp := mxCreateString (DataTypeName lib gdal_type) in
        let band_struct := mxSetField band_struct 0 "DataType" mxtmp in
        let mxtmp := mxCreateDoubleScalar (NoDataValue hBand) in
        let band_struct := mxSetField band_struct 0 "NoDataValue" mxtmp in
        handle_overviews hBand band_struct
    end) (mxCreateStructMatrix (GetRasterCount hDataset) 1
            ["XSize"; "YSize"; "Overview"; "NoDataValue"; "DataType"]).

(** A structure array of [count] elements with the fields [names], every
    element holding one slot per field. *)
Definition struct_has (a : mxArray) (count : nat) (names : list string) : Prop :=
  exists m n elements,
    a = mxStruct m n names elements /\
    length elements = count /\
    Forall (fun fields => length fields = length names) elements.

Definition is_printf (e : event) : bool :=
  match e with EvPrintf _ => true | _ => false end.

Definition is_close (e : event) : bool :=
  match e with EvGDALClose => true | _ => false end.

(** The calls into GDAL, as opposed to what is printed or warned. *)
Definition is_gdal_call (e : event) : bool :=
  match e with EvPrintf _ | EvWarning _ => false | _ => true end.

(** The error code [GDALRasterIO] returns for the window of [o]. *)
Definition raster_io_error (hBand : RasterBand) (o : options) : Z :=
  if RasterDataType hBand =? GDT_Byte then
    fst (RasterIO_Byte hBand (xorigin o) (yorigin o) (xextend o) (yextend o) (xout o) (yout o))
  else
    fst (RasterIO_Float64 hBand (xorigin o) (yorigin o) (xextend o) (yextend o)
                          (xout o) (yout o)).

(** The warning of [populate_metadata_struct] when no georeferencing is
    found. *)
Definition no_georeferencing_warning (gdal_filename : string) : event :=
  EvWarning (sprintf "No internal georeferencing exists for %s, and could not find a suitable world file either.\n"
                     [ArgString gdal_filename]).

(** A second library: one file whose band cannot be read (every
    [GDALRasterIO] fails with [CE_Failure] and leaves the buffer zeroed),
    and a world file for it. *)
Module Sample2.

Definition unreadable_band : RasterBand :=
  {| BandXSize := 3; BandYSize := 2; RasterDataType := GDT_Byte;
     NoDataValue := 0%float; Overviews := [];
     ColorInterpretationName := "Gray";
     RasterMinimum := (0%float, 1); RasterMaximum := (9%float, 1);
     ComputedMinMax := (0%float, 9%float);
     RasterIO_Byte := fun _ _ _ _ _ _ => (3, fun _ => x00);
     RasterIO_Float64 := fun _ _ _ _ _ _ => (3, fun _ => 0%float) |}.

Definition damaged : Dataset :=
  {| RasterXSize := 3; RasterYSize := 2;
     Bands := [unreadable_band];
     ProjectionRef := "";
     DatasetDriver := Sample.PNG;
     GeoTransform := (3, [0; 1; 0; 0; 0; 1]%float) |}.

Definition library : Library :=
  {| Drivers := [Sample.PNG];
     Open := fun name => if String.eqb name "damaged.png" then Some damaged else None;
     ReadWorldFile := fun name extension =>
       if String.eqb name "damaged.png.xxx" then Some [10; 1; 0; 20; 0; -1]%float else None;
     DataTypeName := Sample.type_name;
     VERSION_NUM := 1200 |}.

End Sample2.

(** A third library, of large rasters: a 16-bit elevation model of 16384
    by 16384 samples, a mosaic of doubles of 23171 by 23171 samples whose
    every sample is 1, and the sample scan under a name of 4996
    characters. *)
Module Sample3.

Definition ones (xsize ysize type : Z) : RasterBand :=
  {| BandXSize := xsize; BandYSize := ysize; RasterDataType := type;
     NoDataValue := 0%float; Overviews := [];
     ColorInterpretationName := "Gray";
     RasterMinimum := (1%float, 1); RasterMaximum := (1%float, 1);
     ComputedMinMax := (1%float, 1%float);
     RasterIO_Byte := fun _ _ _ _ _ _ => (CE_None, fun _ => x01);
     RasterIO_Float64 := fun _ _ _ _ _ _ => (CE_None, fun _ => 1%float) |}.

Definition dem : Dataset :=
  {| RasterXSize := 16384; RasterYSize := 16384;
     Bands := [ones 16384 16384 GDT_Int16];
     ProjectionRef := "";
     DatasetDriver := Sample.GTiff;
     GeoTransform := (CE_None, [0; 1; 0; 0; 0; -1]%float) |}.

Definition mosaic : Dataset :=
  {| RasterXSize := 23171; RasterYSize := 23171;
     Bands := [ones 23171 23171 GDT_Float64];
     ProjectionRef := "";
     DatasetDriver := Sample.GTiff;
     GeoTransform := (CE_None, [0; 1; 0; 0; 0; -1]%float) |}.

Definition long_name : string := string_of_list_ascii (List.repeat "a"%char 4996).

Definition library : Library :=
  {| Drivers := [Sample.GTiff; Sample.PNG];
     Open := fun name =>
       if String.eqb name "dem.tif" then Some dem
       else if String.eqb name "mosaic.tif" then Some mosaic
       else if String.eqb name long_name then Some Sample.scan
       else None;
     ReadWorldFile := fun _ _ => None;
     DataTypeName := Sample.type_name;
     VERSION_NUM := 1500 |}.

End Sample3.

(** The variable an option field of the given name sets: the chain of
    [strcmp] of [unpack_input_options], as a table lookup.  A name that
    is not in the table sets nothing. *)
Definition set_option (name : string) (v : Z) (o : options) : options :=
  match List.find (fun f => String.eqb name (fst f)) recognized_fields with
  | Some (_, set) => set v o
  | None => o
  end.

(** [(int)pr[0]] for a field that holds a number. *)
Definition scalar_value (field : mxArray) : Z :=
  match mxGetPr field with
  | d :: _ => Int.of_double d
  | [] => 0
  end.

(** The options after the fields of a list have been applied in order. *)
Definition apply_fields (fields : list (string * mxArray)) (o : options) : options :=
  fold_left (fun o f => set_option (fst f) (scalar_value (snd f)) o) fields o.

(** The events that open a data set or register the drivers. *)
Definition is_startup (e : event) : bool :=
  match e with EvGDALAllRegister | EvGDALOpen _ => true | _ => false end.

(** A computation that closes the data set exactly when it returns, as
    the last thing it does, and never otherwise. *)
Definition closes_on_return {A : Type} (m : M A) : Prop :=
  match fst m with
  | Done _ => exists evs, snd m = evs ++ [EvGDALClose] /\ Forall (fun e => is_close e = false) evs
  | _ => Forall (fun e => is_close e = false) (snd m)
  end.

(** ** Lemmas on machine integers, loops and buffers *)

Lemma Int_wrap_small (z : Z) : Int.in_range z -> Int.wrap z = z.
Proof.
  unfold Int.in_range, Int.wrap, Int.min_signed, Int.max_signed, Int.modulus.
  intros H. rewrite Z.mod_small; lia.
Qed.

Lemma Int_wrap_in_range (z : Z) : Int.in_range (Int.wrap z).
Proof.
  unfold Int.in_range, Int.wrap, Int.min_signed, Int.max_signed, Int.modulus.
  pose proof (Z.mod_pos_bound (z - -2147483648) 4294967296 ltac:(lia)). lia.
Qed.

Lemma for_loop_empty {S : Type} (lo hi : Z) (body : Z -> S -> S) (s : S) :
  hi <= lo -> for_loop lo hi body s = s.
Proof.
  intros H. unfold for_loop.
  replace (Z.to_nat (hi - lo)) with 0%nat by lia. reflexivity.
Qed.

Lemma for_loop_last {S : Type} (lo hi : Z) (body : Z -> S -> S) (s : S) :
  lo <= hi ->
  for_loop lo (hi + 1) body s = body hi (for_loop lo hi body s).
Proof.
  intros H. unfold for_loop.
  replace (Z.to_nat (hi + 1 - lo)) with (Z.to_nat (hi - lo) + 1)%nat by lia.
  rewrite seq_app, fold_left_app. simpl.
  f_equal. lia.
Qed.

(** Loop invariants: [P k s] says that [s] is the state on entry to the
    iteration with counter [k]. *)
Lemma for_loop_invariant {S : Type} (P : Z -> S -> Prop)
    (lo hi : Z) (body : Z -> S -> S) (s : S) :
  lo <= hi ->
  P lo s ->
  (forall k st, lo <= k < hi -> P k st -> P (k + 1) (body k st)) ->
  P hi (for_loop lo hi body s).
Proof.
  intros Hle H0 Hstep.
  assert (Hgen : forall n : nat, lo + Z.of_nat n <= hi ->
             P (lo + Z.of_nat n) (for_loop lo (lo + Z.of_nat n) body s)).
  { induction n as [|n IH]; intros Hn.
    - rewrite Z.add_0_r, for_loop_empty by lia. exact H0.
    - replace (lo + Z.of_nat (Datatypes.S n)) with (lo + Z.of_nat n + 1) by lia.
      rewrite for_loop_last by lia.
      apply Hstep; [lia | apply IH; lia]. }
  specialize (Hgen (Z.to_nat (hi - lo))).
  replace (lo + Z.of_nat (Z.to_nat (hi - lo))) with hi in Hgen by lia.
  apply Hgen. lia.
Qed.

Lemma load_lookup {A : Type} (buf : list A) (index : Z) :
  0 <= index -> load buf index = buf !! Z.to_nat index.
Proof. intros H. unfold load. destruct (Z.ltb_spec index 0); [lia | reflexivity]. Qed.

Lemma load_in_range {A : Type} (buf : list A) (index : Z) :
  0 <= index < Z.of_nat (length buf) -> exists v, load buf index = Some v.
Proof.
  intros H. rewrite load_lookup by lia.
  destruct (lookup_lt_is_Some_2 buf (Z.to_nat index)) as [v Hv]; [lia | eauto].
Qed.

Lemma length_store {A : Type} (buf : list A) (index : Z) (v : A) :
  length (store buf index v) = length buf.
Proof. unfold store. destruct (index <? 0); [reflexivity | apply length_insert]. Qed.

Lemma load_store_eq {A : Type} (buf : list A) (index : Z) (v : A) :
  0 <= index < Z.of_nat (length buf) -> load (store buf index v) index = Some v.
Proof.
  intros H. unfold load, store. destruct (Z.ltb_spec index 0); [lia |].
  apply list_lookup_insert_eq. lia.
Qed.

Lemma load_store_ne {A : Type} (buf : list A) (i j : Z) (v : A) :
  0 <= i -> 0 <= j -> i <> j -> load (store buf i v) j = load buf j.
Proof.
  intros Hi Hj Hne. unfold load, store.
  destruct (Z.ltb_spec i 0); [lia |]. destruct (Z.ltb_spec j 0); [lia |].
  apply list_lookup_insert_ne. lia.
Qed.

(** The index arithmetic of the transposition stays inside a buffer of
    [xout * yout] elements as long as that product is an [int]. *)
Lemma transpose_index_exact (a b i j : Z) :
  0 <= i < a -> 0 <= j < b -> a * b <= Int.max_signed ->
  Int.add (Int.mul i b) j = i * b + j /\ 0 <= i * b + j < a * b.
Proof.
  intros Hi Hj Hmax.
  assert (Hb : 0 <= i * b + j < a * b) by nia.
  assert (Hib : 0 <= i * b <= a * b) by nia.
  split; [| exact Hb].
  unfold Int.add, Int.mul.
  rewrite (Int_wrap_small (i * b)) by (unfold Int.in_range, Int.min_signed; lia).
  apply Int_wrap_small. unfold Int.in_range, Int.min_signed. lia.
Qed.

Lemma transpose_index_injective (yout r c i j : Z) :
  0 <= r < yout -> 0 <= i < yout -> 0 <= c -> 0 <= j ->
  c * yout + r = j * yout + i -> c = j /\ r = i.
Proof.
  intros Hr Hi Hc Hj Heq.
  destruct (Z.lt_trichotomy c j) as [Hlt | [-> | Hgt]].
  - assert ((c + 1) * yout <= j * yout) by (apply Z.mul_le_mono_nonneg_r; lia). lia.
  - lia.
  - assert ((j + 1) * yout <= c * yout) by (apply Z.mul_le_mono_nonneg_r; lia). lia.
Qed.

(** What the two loops compute: every cell of the decode buffer lands at
    its column-major position, and the buffer keeps its size. *)
Lemma transpose_loops_spec {A : Type} (xout yout : Z)
    (void_buffer transpose_buffer : list A) :
  0 <= xout -> 0 <= yout -> xout * yout <= Int.max_signed ->
  Z.of_nat (length void_buffer) = xout * yout ->
  Z.of_nat (length transpose_buffer) = xout * yout ->
  let out := transpose_loops xout yout void_buffer transpose_buffer in
  length out = length transpose_buffer /\
  forall row col, 0 <= row < yout -> 0 <= col < xout ->
    load out (col * yout + row) = load void_buffer (row * xout + col) /\
    is_Some (load out (col * yout + row)).
Proof.
  intros Hx Hy Hmax Hlv Hlt. cbv zeta. unfold transpose_loops.
  set (inner := fun (i : Z) (tb : list A) => for_loop 0 xout _ tb).
  set (I := fun (i : Z) (tb : list A) =>
    length tb = length transpose_buffer /\
    forall row col, 0 <= row < i -> 0 <= col < xout ->
      load tb (col * yout + row) = load void_buffer (row * xout + col) /\
      is_Some (load tb (col * yout + row))).
  assert (HI : I yout (for_loop 0 yout inner transpose_buffer)).
  { apply for_loop_invariant; [lia | |].
    - split; [reflexivity | intros; lia].
    - intros i tb Hi [Hlen Hrows]. unfold inner.
      set (J := fun (j : Z) (tb' : list A) =>
        length tb' = length transpose_buffer /\
        (forall row col, 0 <= row < i -> 0 <= col < xout ->
           load tb' (col * yout + row) = load void_buffer (row * xout + col) /\
           is_Some (load tb' (col * yout + row))) /\
        (forall col, 0 <= col < j ->
           load tb' (col * yout + i) = load void_buffer (i * xout + col) /\
           is_Some (load tb' (col * yout + i)))).
      match goal with |- I _ (for_loop 0 xout ?body tb) =>
        assert (HJ : J xout (for_loop 0 xout body tb)) end.
      { apply for_loop_invariant; [lia | |].
        - split; [exact Hlen | split; [exact Hrows | intros; lia]].
        - intros j tb' Hj (Hlen' & Hrows' & Hcols').
          destruct (transpose_index_exact yout xout i j) as [Eidx Ridx]; [lia.. |].
          destruct (transpose_index_exact xout yout j i) as [Etidx Rtidx]; [lia.. |].
          cbv zeta. rewrite Eidx, Etidx.
          destruct (load_in_range void_buffer (i * xout + j)) as [v Hv]; [lia |].
          rewrite Hv.
          assert (Hin : 0 <= j * yout + i < Z.of_nat (length tb')) by lia.
          split; [rewrite length_store; exact Hlen' | split].
          + intros row col Hrow Hcol.
            rewrite load_store_ne; [apply Hrows'; lia | lia | nia |].
            intros Heq. symmetry in Heq.
            apply transpose_index_injective in Heq; lia.
          + intros col Hcol. destruct (Z.eq_dec col j) as [-> | Hne].
            * rewrite load_store_eq by exact Hin. rewrite Hv. split; [reflexivity | eauto].
            * rewrite load_store_ne; [apply Hcols'; lia | lia | nia |].
              intros Heq. symmetry in Heq.
              apply transpose_index_injective in Heq; lia. }
      destruct HJ as (Hlen' & Hrows' & Hcols').
      split; [exact Hlen' |].
      intros row col Hrow Hcol. destruct (Z.eq_dec row i) as [-> | Hne].
      + apply Hcols'; lia.
      + apply Hrows'; lia. }
  exact HI.
Qed.

(** ** Lemmas on the gateway monad *)

Lemma bind_done {A B : Type} (a : A) (evs : list event) (k : A -> M B) :
  bind (Done a, evs) k = (fst (k a), evs ++ snd (k a)).
Proof. simpl. destruct (k a); reflexivity. Qed.

Lemma fst_bind {A B : Type} (m : M A) (k : A -> M B) (a : A) :
  fst m = Done a -> fst (bind m k) = fst (k a).
Proof.
  destruct m as [o evs]; simpl; intros ->. destruct (k a); reflexivity.
Qed.

Lemma snd_bind {A B : Type} (m : M A) (k : A -> M B) (a : A) :
  fst m = Done a -> snd (bind m k) = snd m ++ snd (k a).
Proof.
  destruct m as [o evs]; simpl; intros ->. destruct (k a); reflexivity.
Qed.


Lemma fst_bind_undefined {A B : Type} (m : M A) (k : A -> M B) :
  fst m = Undefined -> bind m k = (Undefined, snd m).
Proof. destruct m as [o evs]; simpl; intros ->. reflexivity. Qed.

Lemma bind_ret {A B : Type} (a : A) (k : A -> M B) : bind (ret a) k = k a.
Proof. unfold bind, ret. destruct (k a); reflexivity. Qed.

(** The three messages with a file name, and the names that fit. *)
Lemma fits_open_message (gdal_filename : string) :
  fits 500 "Unable to open %s.\n" gdal_filename = true <->
  (String.length gdal_filename <= 482)%nat.
Proof.
  unfold fits. change (literal_length "Unable to open %s.\n") with 17.
  rewrite Z.ltb_lt. lia.
Qed.

Lemma fits_georeferencing_message (gdal_filename : string) :
  fits 500 "No internal georeferencing exists for %s, and could not find a suitable world file either.\n"
       gdal_filename = true <->
  (String.length gdal_filename <= 410)%nat.
Proof.
  unfold fits.
  change (literal_length "No internal georeferencing exists for %s, and could not find a suitable world file either.\n")
    with 89.
  rewrite Z.ltb_lt. lia.
Qed.

Lemma fits_generic_buffer (gdal_filename : string) :
  fits 5000 "%s.xxx" gdal_filename = true <-> (String.length gdal_filename <= 4995)%nat.
Proof.
  unfold fits. change (literal_length "%s.xxx") with 4.
  rewrite Z.ltb_lt. lia.
Qed.

Lemma sprintf_into_fits (capacity : Z) (fmt s : string) :
  fits capacity fmt s = true -> sprintf_into capacity fmt s = ret (sprintf fmt [ArgString s]).
Proof. intros H. unfold sprintf_into. rewrite H. reflexivity. Qed.

(** A guarded print never changes how a computation ends. *)
Lemma fst_when_printf (c : bool) (fmt : string) (args : list printf_arg) :
  fst (when c (mexPrintf fmt args)) = Done tt.
Proof. destruct c; reflexivity. Qed.

Lemma fst_print_band_summary (lib : Library) (hBand : RasterBand)
    (gdal_type RasterXSize RasterYSize : Z) (o : options) :
  fst (print_band_summary lib hBand gdal_type RasterXSize RasterYSize o) = Done tt.
Proof.
  unfold print_band_summary.
  destruct (RasterMinimum hBand) as [minimum bGotMin].
  destruct (RasterMaximum hBand) as [maximum bGotMax].
  destruct (negb (negb (bGotMin =? 0) && negb (bGotMax =? 0))); reflexivity.
Qed.

Lemma fst_when_print_band_summary (c : bool) (lib : Library) (hBand : RasterBand)
    (gdal_type RasterXSize RasterYSize : Z) (o : options) :
  fst (when c (print_band_summary lib hBand gdal_type RasterXSize RasterYSize o)) = Done tt.
Proof. destruct c; [apply fst_print_band_summary | reflexivity]. Qed.

(** ** Lemmas on the raster path *)

Lemma length_filled_buffer {A : Type} (count : nat) (samples : nat -> A) :
  length (filled_buffer count samples) = count.
Proof. unfold filled_buffer. rewrite length_map, length_seq. reflexivity. Qed.

Lemma load_filled_buffer {A : Type} (count : nat) (samples : nat -> A) (index : Z) :
  0 <= index < Z.of_nat count ->
  load (filled_buffer count samples) index = Some (samples (Z.to_nat index)).
Proof.
  intros H. rewrite load_lookup by lia. unfold filled_buffer.
  rewrite list_lookup_fmap, lookup_seq_lt by lia. reflexivity.
Qed.

Lemma memcpy_all {A : Type} (dst src : list A) (count : Z) :
  Z.to_nat count = length src -> length dst = length src -> memcpy dst src count = src.
Proof.
  intros Hc Hl. unfold memcpy. rewrite Hc, firstn_all, drop_ge by lia.
  apply app_nil_r.
Qed.

Lemma supported_type_cases (t : Z) :
  supported_type t = true ->
  t = GDT_Byte \/
  (t <> GDT_Byte /\
   (t =? GDT_UInt16) || (t =? GDT_Int16) || (t =? GDT_UInt32) || (t =? GDT_Int32) ||
   (t =? GDT_Float32) || (t =? GDT_Float64) = true).
Proof.
  unfold supported_type, GDT_Byte, GDT_UInt16, GDT_Int16, GDT_UInt32, GDT_Int32,
    GDT_Float32, GDT_Float64.
  intros H.
  destruct (Z.eqb_spec t 1); [left; assumption | right; split; [assumption |]].
  destruct (Z.eqb_spec t 2), (Z.eqb_spec t 3), (Z.eqb_spec t 4), (Z.eqb_spec t 5),
    (Z.eqb_spec t 6), (Z.eqb_spec t 7); simpl in *; congruence.
Qed.

(** How the raster path ends, whatever it prints. *)
Lemma fst_read_raster (lib : Library) (gdal_filename : string) (o : options)
    (hDataset : Dataset) (hBand : RasterBand) :
  Open lib gdal_filename = Some hDataset ->
  select_band hDataset o = Some hBand ->
  let w := resolve_window (BandXSize hBand) (BandYSize hBand) o in
  fst (read_raster lib gdal_filename o) =
    match fst (read_and_transpose hBand (RasterDataType hBand) w) with
    | Done (mxGDALraster, transpose_void_buffer, out_type_size) =>
        fst (copy_into_matlab_array mxGDALraster transpose_void_buffer out_type_size w)
    | Abort msg => Abort msg
    | Undefined => Undefined
    end.
Proof.
  intros HO HS w. unfold read_raster.
  rewrite (fst_bind _ _ tt) by reflexivity. rewrite HO, HS. fold w.
  rewrite (fst_bind _ _ tt) by apply fst_when_print_band_summary.
  rewrite (fst_bind _ _ tt) by apply fst_when_printf.
  destruct (read_and_transpose hBand (RasterDataType hBand) w)
    as [[[[arr tb] sz] | msg |] evs]; simpl; try reflexivity.
  match goal with |- fst (let (_, _) := ?m in _) = _ => destruct m as [o' evs'] eqn:E end.
  simpl. apply (f_equal fst) in E. simpl in E. rewrite <- E.
  rewrite (fst_bind _ _ tt) by apply fst_when_printf.
  destruct (copy_into_matlab_array arr tb sz w) as [[arr' | msg |] evs''];
    simpl; try reflexivity.
  match goal with |- fst (let (_, _) := ?m in _) = _ => destruct m as [o'' evs3] eqn:E' end.
  simpl. apply (f_equal fst) in E'. simpl in E'. rewrite <- E'.
  rewrite (fst_bind _ _ tt) by apply fst_when_printf.
  reflexivity.
Qed.

Lemma for_loop_preserves {S : Type} (Q : S -> Prop) (lo hi : Z)
    (body : Z -> S -> S) (s : S) :
  (forall k st, Q st -> Q (body k st)) -> Q s -> Q (for_loop lo hi body s).
Proof.
  intros Hbody. unfold for_loop.
  generalize (seq 0 (Z.to_nat (hi - lo))). intros l. revert s.
  induction l as [|k l IH]; intros s Hs; simpl; [exact Hs |].
  apply IH, Hbody, Hs.
Qed.

Lemma length_transpose_loops {A : Type} (xout yout : Z)
    (void_buffer transpose_buffer : list A) :
  length (transpose_loops xout yout void_buffer transpose_buffer) = length transpose_buffer.
Proof.
  unfold transpose_loops.
  apply (for_loop_preserves (fun tb => length tb = length transpose_buffer));
    [| reflexivity].
  intros i tb Htb.
  apply (for_loop_preserves (fun tb => length tb = length transpose_buffer));
    [| exact Htb].
  intros j tb' Htb'. cbv zeta.
  destruct (load void_buffer _); [rewrite length_store |]; exact Htb'.
Qed.

(** The byte count of the final [memcpy], divided by the element size, is
    the number of elements, as long as the byte count is an [int]. *)
Lemma byte_count_exact (size x y : Z) :
  0 < size -> 0 <= x -> 0 <= y -> size * (x * y) <= Int.max_signed ->
  Int.mul (Int.mul size x) y / size = x * y.
Proof.
  intros Hs Hx Hy Hmax. unfold Int.mul.
  destruct (Z.eq_dec y 0) as [-> | Hy0].
  - rewrite !Z.mul_0_r. rewrite Int_wrap_small by (unfold Int.in_range, Int.min_signed, Int.max_signed; lia).
    apply Z.div_0_l. lia.
  - assert (0 <= size * x <= size * (x * y)) by nia.
    rewrite (Int_wrap_small (size * x)) by (unfold Int.in_range, Int.min_signed; lia).
    rewrite Int_wrap_small by (unfold Int.in_range, Int.min_signed; lia).
    replace (size * x * y) with (x * y * size) by lia.
    apply Z.div_mul. lia.
Qed.

Lemma Int_wrap_le (z : Z) : 0 <= z -> Int.wrap z <= z.
Proof.
  intros Hz. unfold Int.wrap, Int.min_signed, Int.modulus.
  assert ((z - -2147483648) mod 4294967296 <= z - -2147483648)
    by (apply Z.mod_le; lia).
  lia.
Qed.

Lemma Int_mul_mul (a b c : Z) : Int.mul (Int.mul a b) c = Int.wrap (a * b * c).
Proof.
  unfold Int.mul, Int.wrap at 2. unfold Int.wrap at 1 2.
  rewrite (Z.mod_eq (a * b - Int.min_signed) Int.modulus) by (unfold Int.modulus; lia).
  f_equal.
  replace ((a * b - Int.min_signed
            - Int.modulus * ((a * b - Int.min_signed) / Int.modulus) + Int.min_signed) * c
           - Int.min_signed)
    with (a * b * c - Int.min_signed
          + (- ((a * b - Int.min_signed) / Int.modulus) * c) * Int.modulus) by ring.
  apply Z_mod_plus_full.
Qed.

(** The final [memcpy] never copies more elements than the buffers hold. *)
Lemma copied_count_le (gdal_type : Z) (o : options) :
  0 <= xout o * yout o ->
  0 <= Int.mul (Int.mul (element_size gdal_type) (xout o)) (yout o) ->
  0 <= copied_count gdal_type o <= xout o * yout o.
Proof.
  intros Hprod Hbytes. unfold copied_count.
  assert (Hsize : 0 < element_size gdal_type)
    by (unfold element_size; destruct (_ =? _); lia).
  split; [apply Z.div_pos; lia |].
  rewrite Int_mul_mul in *.
  assert (Int.wrap (element_size gdal_type * xout o * yout o)
          <= element_size gdal_type * xout o * yout o).
  { apply Int_wrap_le. rewrite <- Z.mul_assoc. apply Z.mul_nonneg_nonneg; lia. }
  apply Z.div_le_upper_bound; lia.
Qed.

(** The [switch] on a window whose number of elements is an [int]: one
    read, the transposed buffer, and then a copy that is defined exactly
    when its byte count is not negative. *)
Lemma read_and_transpose_returns (hBand : RasterBand) (o : options) :
  supported_type (RasterDataType hBand) = true ->
  0 <= xout o -> 0 <= yout o ->
  xout o * yout o <= Int.max_signed ->
  exists mxGDALraster transpose_void_buffer out_type_size,
    read_and_transpose hBand (RasterDataType hBand) o =
      (Done (mxGDALraster, transpose_void_buffer, out_type_size),
       [EvGDALRasterIO (xorigin o) (yorigin o) (xextend o) (yextend o) (xout o) (yout o)
                       (buffer_type (RasterDataType hBand))]) /\
    copy_into_matlab_array mxGDALraster transpose_void_buffer out_type_size o =
      if Int.mul (Int.mul (element_size (RasterDataType hBand)) (xout o)) (yout o) <? 0
      then (Undefined, [])
      else (Done (returned_array hBand o), []).
Proof.
  intros Hsup Hx Hy Hcount.
  assert (Hprod : 0 <= xout o * yout o) by nia.
  assert (Hmul : Int.mul (xout o) (yout o) = xout o * yout o).
  { apply Int_wrap_small. unfold Int.in_range, Int.min_signed. lia. }
  pose proof (copied_count_le (RasterDataType hBand) o Hprod) as Hcopied.
  unfold read_and_transpose, returned_array, copy_into_matlab_array, memcpy_bytes,
    buffer_type, copied_count in *.
  rewrite Hmul. unfold mxCalloc, mxCreateNumericArray.
  destruct (Z.ltb_spec (xout o * yout o) 0); [lia |].
  destruct (Z.ltb_spec (yout o) 0); [lia |]. destruct (Z.ltb_spec (xout o) 0); [lia |].
  destruct (supported_type_cases _ Hsup) as [Hb | [Hnb Hwide]].
  - rewrite Hb in *. unfold element_size in *.
    change (GDT_Byte =? GDT_Byte) with true in *. cbv iota in *.
    change (GetDataTypeSize GDT_Byte / 8) with 1.
    cbn [bind ret emit fst snd orb app].
    rewrite length_replicate.
    destruct (Z.leb_spec (xout o * yout o) (Z.of_nat (Z.to_nat (xout o * yout o)))); [| lia].
    cbn [negb bind ret emit fst snd orb app].
    destruct (RasterIO_Byte hBand _ _ _ _ _ _) as [err samples].
    cbn [bind ret emit fst snd orb app].
    eexists _, _, _. split; [reflexivity |].
    unfold mxCreateUint8Matrix.
    rewrite length_transpose_loops, !length_replicate.
    replace (Z.to_nat (yout o * xout o)) with (Z.to_nat (xout o * yout o)) by (f_equal; lia).
    destruct (Z.ltb_spec (Int.mul (Int.mul 1 (xout o)) (yout o)) 0) as [| Hbytes];
      [reflexivity |].
    specialize (Hcopied Hbytes).
    destruct (Z.ltb_spec (Z.of_nat (Z.to_nat (xout o * yout o)))
                         (Int.mul (Int.mul 1 (xout o)) (yout o) / 1)); [lia |].
    reflexivity.
  - unfold element_size in *.
    destruct (Z.eqb_spec (RasterDataType hBand) GDT_Byte) as [? | _]; [contradiction |].
    rewrite Hwide.
    change (GetDataTypeSize GDT_Float64 / 8) with 8.
    cbn [bind ret emit fst snd orb app].
    rewrite length_replicate.
    destruct (Z.leb_spec (xout o * yout o) (Z.of_nat (Z.to_nat (xout o * yout o)))); [| lia].
    cbn [negb bind ret emit fst snd orb app].
    destruct (RasterIO_Float64 hBand _ _ _ _ _ _) as [err samples].
    cbn [bind ret emit fst snd orb app].
    eexists _, _, _. split; [reflexivity |].
    unfold mxCreateDoubleMatrix.
    rewrite length_transpose_loops, !length_replicate.
    replace (Z.to_nat (yout o * xout o)) with (Z.to_nat (xout o * yout o)) by (f_equal; lia).
    destruct (Z.ltb_spec (Int.mul (Int.mul 8 (xout o)) (yout o)) 0) as [| Hbytes];
      [reflexivity |].
    specialize (Hcopied Hbytes).
    destruct (Z.ltb_spec (Z.of_nat (Z.to_nat (xout o * yout o)))
                         (Int.mul (Int.mul 8 (xout o)) (yout o) / 8)); [lia |].
    reflexivity.
Qed.

(** On a window whose byte count is an [int] the copy is complete. *)
Lemma returned_array_sane (hBand : RasterBand) (o : options) :
  0 <= xout o -> 0 <= yout o ->
  element_size (RasterDataType hBand) * (xout o * yout o) <= Int.max_signed ->
  returned_array hBand o = fetched_array hBand o /\
  0 <= Int.mul (Int.mul (element_size (RasterDataType hBand)) (xout o)) (yout o).
Proof.
  intros Hx Hy Hsize.
  assert (Hprod : 0 <= xout o * yout o) by nia.
  assert (Hs : 0 < element_size (RasterDataType hBand))
    by (unfold element_size; destruct (_ =? _); lia).
  pose proof (byte_count_exact _ _ _ Hs Hx Hy Hsize) as Hexact.
  split.
  - unfold returned_array, fetched_array, copied_count. rewrite Hexact.
    destruct (_ =? _); f_equal; apply memcpy_all;
      rewrite ?length_transpose_loops, ?length_replicate; lia.
  - rewrite Int_mul_mul, Int_wrap_small; [nia |].
    unfold Int.in_range, Int.min_signed. nia.
Qed.

Lemma read_and_transpose_sane (hBand : RasterBand) (o : options) :
  supported_type (RasterDataType hBand) = true ->
  0 <= xout o -> 0 <= yout o ->
  element_size (RasterDataType hBand) * (xout o * yout o) <= Int.max_signed ->
  exists mxGDALraster transpose_void_buffer out_type_size,
    fst (read_and_transpose hBand (RasterDataType hBand) o) =
      Done (mxGDALraster, transpose_void_buffer, out_type_size) /\
    copy_into_matlab_array mxGDALraster transpose_void_buffer out_type_size o =
      (Done (fetched_array hBand o), []).
Proof.
  intros Hsup Hx Hy Hsize.
  assert (Hcount : xout o * yout o <= Int.max_signed).
  { unfold element_size in Hsize. destruct (_ =? _); nia. }
  destruct (read_and_transpose_returns hBand o Hsup Hx Hy Hcount)
    as (arr & tb & sz & Hrun & Hcopy).
  destruct (returned_array_sane hBand o Hx Hy Hsize) as [Hsame Hbytes].
  exists arr, tb, sz. split; [rewrite Hrun; reflexivity |].
  rewrite Hcopy, Hsame.
  destruct (Z.ltb_spec (Int.mul (Int.mul (element_size (RasterDataType hBand)) (xout o))
                                (yout o)) 0); [lia | reflexivity].
Qed.

(** The raster path on a window whose number of elements is an [int]:
    what it does up to the copy, and how it ends, which the sign of the
    byte count of the copy decides. *)
Lemma read_raster_returns (lib : Library) (gdal_filename : string) (o : options)
    (hDataset : Dataset) (hBand : RasterBand) :
  Open lib gdal_filename = Some hDataset ->
  select_band hDataset o = Some hBand ->
  let w := resolve_window (BandXSize hBand) (BandYSize hBand) o in
  supported_type (RasterDataType hBand) = true ->
  0 <= xout w -> 0 <= yout w ->
  xout w * yout w <= Int.max_signed ->
  (Int.mul (Int.mul (element_size (RasterDataType hBand)) (xout w)) (yout w) < 0 ->
   fst (read_raster lib gdal_filename o) = Undefined) /\
  (0 <= Int.mul (Int.mul (element_size (RasterDataType hBand)) (xout w)) (yout w) ->
   fst (read_raster lib gdal_filename o) = Done (returned_array hBand w) /\
   snd (read_raster lib gdal_filename o) =
     [EvGDALOpen gdal_filename] ++
     snd (when (negb (mexgdal_verbose w =? 0))
               (print_band_summary lib hBand (RasterDataType hBand)
                                   (BandXSize hBand) (BandYSize hBand) w)) ++
     snd (when (negb (mexgdal_verbose w =? 0)) (mexPrintf "Now reading into buffer...\n" [])) ++
     [EvGDALRasterIO (xorigin w) (yorigin w) (xextend w) (yextend w) (xout w) (yout w)
                     (buffer_type (RasterDataType hBand))] ++
     snd (when (negb (mexgdal_verbose w =? 0))
               (mexPrintf "Now copying into matlab array...\n" [])) ++
     snd (when (negb (mexgdal_verbose w =? 0))
               (mexPrintf "Finished copying into matlab array...\n" [])) ++
     [EvGDALClose]).
Proof.
  intros HO HS w Hsup Hx Hy Hcount.
  destruct (read_and_transpose_returns hBand w Hsup Hx Hy Hcount)
    as (arr & tb & sz & Hrun & Hcopy).
  assert (Hrun1 : fst (read_and_transpose hBand (RasterDataType hBand) w) = Done (arr, tb, sz))
    by (rewrite Hrun; reflexivity).
  split.
  - intros Hneg.
    rewrite (fst_read_raster lib gdal_filename o hDataset hBand HO HS). fold w.
    rewrite Hrun1, Hcopy.
    destruct (Z.ltb_spec (Int.mul (Int.mul (element_size (RasterDataType hBand)) (xout w))
                                  (yout w)) 0); [reflexivity | lia].
  - intros Hbytes.
    destruct (Z.ltb_spec (Int.mul (Int.mul (element_size (RasterDataType hBand)) (xout w))
                                  (yout w)) 0); [lia |].
    split.
    + rewrite (fst_read_raster lib gdal_filename o hDataset hBand HO HS). fold w.
      rewrite Hrun1, Hcopy. reflexivity.
    + unfold read_raster.
      rewrite (snd_bind _ _ tt) by reflexivity. rewrite HO, HS. fold w.
      rewrite (snd_bind _ _ tt) by apply fst_when_print_band_summary.
      rewrite (snd_bind _ _ tt) by apply fst_when_printf.
      rewrite (snd_bind _ _ (arr, tb, sz) Hrun1). rewrite Hrun.
      rewrite (snd_bind _ _ tt) by apply fst_when_printf.
      rewrite (snd_bind _ _ (returned_array hBand w)) by (rewrite Hcopy; reflexivity).
      rewrite Hcopy.
      rewrite (snd_bind _ _ tt) by apply fst_when_printf.
      reflexivity.
Qed.

Lemma read_raster_sane (lib : Library) (gdal_filename : string) (o : options)
    (hDataset : Dataset) (hBand : RasterBand) :
  Open lib gdal_filename = Some hDataset ->
  select_band hDataset o = Some hBand ->
  let w := resolve_window (BandXSize hBand) (BandYSize hBand) o in
  supported_type (RasterDataType hBand) = true ->
  0 <= xout w -> 0 <= yout w ->
  element_size (RasterDataType hBand) * (xout w * yout w) <= Int.max_signed ->
  fst (read_raster lib gdal_filename o) = Done (fetched_array hBand w).
Proof.
  intros HO HS w Hsup Hx Hy Hsize.
  destruct (returned_array_sane hBand w Hx Hy Hsize) as [Hsame Hbytes].
  assert (Hcount : xout w * yout w <= Int.max_signed).
  { unfold element_size in Hsize. destruct (_ =? _); nia. }
  destruct (read_raster_returns lib gdal_filename o hDataset hBand HO HS Hsup Hx Hy Hcount)
    as [_ Hreturns].
  destruct (Hreturns Hbytes) as [Hdone _]. rewrite Hdone. fold w. rewrite Hsame. reflexivity.
Qed.

Lemma snd_read_raster_sane (lib : Library) (gdal_filename : string) (o : options)
    (hDataset : Dataset) (hBand : RasterBand) :
  Open lib gdal_filename = Some hDataset ->
  select_band hDataset o = Some hBand ->
  let w := resolve_window (BandXSize hBand) (BandYSize hBand) o in
  supported_type (RasterDataType hBand) = true ->
  0 <= xout w -> 0 <= yout w ->
  element_size (RasterDataType hBand) * (xout w * yout w) <= Int.max_signed ->
  snd (read_raster lib gdal_filename o) =
    [EvGDALOpen gdal_filename] ++
    snd (when (negb (mexgdal_verbose w =? 0))
              (print_band_summary lib hBand (RasterDataType hBand)
                                  (BandXSize hBand) (BandYSize hBand) w)) ++
    snd (when (negb (mexgdal_verbose w =? 0)) (mexPrintf "Now reading into buffer...\n" [])) ++
    [EvGDALRasterIO (xorigin w) (yorigin w) (xextend w) (yextend w) (xout w) (yout w)
                    (buffer_type (RasterDataType hBand))] ++
    snd (when (negb (mexgdal_verbose w =? 0))
              (mexPrintf "Now copying into matlab array...\n" [])) ++
    snd (when (negb (mexgdal_verbose w =? 0))
              (mexPrintf "Finished copying into matlab array...\n" [])) ++
    [EvGDALClose].
Proof.
  intros HO HS w Hsup Hx Hy Hsize.
  destruct (returned_array_sane hBand w Hx Hy Hsize) as [_ Hbytes].
  assert (Hcount : xout w * yout w <= Int.max_signed).
  { unfold element_size in Hsize. destruct (_ =? _); nia. }
  destruct (read_raster_returns lib gdal_filename o hDataset hBand HO HS Hsup Hx Hy Hcount)
    as [_ Hreturns].
  destruct (Hreturns Hbytes) as [_ Htrace]. exact Htrace.
Qed.

Lemma element_fetched_array (hBand : RasterBand) (w : options) (row col : Z) :
  0 <= xout w -> 0 <= yout w ->
  xout w * yout w <= Int.max_signed ->
  0 <= row < yout w -> 0 <= col < xout w ->
  element (fetched_array hBand w) (col * yout w + row) =
    Some (decoded hBand w (row * xout w + col)).
Proof.
  intros Hx Hy Hmax Hrow Hcol.
  assert (Hidx : 0 <= row * xout w + col < xout w * yout w) by nia.
  unfold fetched_array, decoded, element.
  destruct (RasterDataType hBand =? GDT_Byte).
  - destruct (transpose_loops_spec (xout w) (yout w)
      (filled_buffer (Z.to_nat (xout w * yout w))
         (snd (RasterIO_Byte hBand (xorigin w) (yorigin w) (xextend w) (yextend w)
                             (xout w) (yout w))))
      (replicate (Z.to_nat (xout w * yout w)) x00)) as [_ Hcells];
      [lia | lia | lia | rewrite length_filled_buffer; lia | rewrite length_replicate; lia |].
    destruct (Hcells row col Hrow Hcol) as [-> _].
    rewrite load_filled_buffer by lia. reflexivity.
  - destruct (transpose_loops_spec (xout w) (yout w)
      (filled_buffer (Z.to_nat (xout w * yout w))
         (snd (RasterIO_Float64 hBand (xorigin w) (yorigin w) (xextend w) (yextend w)
                                (xout w) (yout w))))
      (replicate (Z.to_nat (xout w * yout w)) 0%float)) as [_ Hcells];
      [lia | lia | lia | rewrite length_filled_buffer; lia | rewrite length_replicate; lia |].
    destruct (Hcells row col Hrow Hcol) as [-> _].
    rewrite load_filled_buffer by lia. reflexivity.
Qed.

(** The two branches of the [switch], seen from its result. *)
Lemma read_and_transpose_class (hBand : RasterBand) (gdal_type : Z) (o : options)
    (mxGDALraster : mxArray) (transpose_void_buffer : transposed) (out_type_size : Z) :
  fst (read_and_transpose hBand gdal_type o) =
    Done (mxGDALraster, transpose_void_buffer, out_type_size) ->
  (gdal_type = GDT_Byte /\
   exists data buf, mxGDALraster = mxUint8 (yout o) (xout o) data /\
                    transpose_void_buffer = TransposedByte buf) \/
  (gdal_type <> GDT_Byte /\ supported_type gdal_type = true /\
   exists pr buf, mxGDALraster = mxDouble (yout o) (xout o) pr /\
                  transpose_void_buffer = TransposedFloat64 buf).
Proof.
  unfold read_and_transpose, mxCalloc, mxCreateNumericArray.
  destruct (Z.eqb_spec gdal_type GDT_Byte) as [Hb | Hnb].
  - destruct (Int.mul (xout o) (yout o) <? 0); simpl; [discriminate |].
    destruct (negb (_ <=? _)); simpl; [discriminate |].
    destruct (RasterIO_Byte hBand _ _ _ _ _ _) as [err samples].
    destruct ((yout o <? 0) || (xout o <? 0)); simpl; [discriminate |].
    intros [= <- <- <-]. left. split; [assumption |].
    unfold mxCreateUint8Matrix. eauto.
  - destruct ((gdal_type =? GDT_UInt16) || (gdal_type =? GDT_Int16) ||
              (gdal_type =? GDT_UInt32) || (gdal_type =? GDT_Int32) ||
              (gdal_type =? GDT_Float32) || (gdal_type =? GDT_Float64)) eqn:Hwide;
      [| simpl; discriminate].
    destruct (Int.mul (xout o) (yout o) <? 0); simpl; [discriminate |].
    destruct (negb (_ <=? _)); simpl; [discriminate |].
    destruct (RasterIO_Float64 hBand _ _ _ _ _ _) as [err samples].
    destruct ((yout o <? 0) || (xout o <? 0)); simpl; [discriminate |].
    intros [= <- <- <-]. right. split; [assumption | split].
    + unfold supported_type.
      destruct (gdal_type =? GDT_Byte), (gdal_type =? GDT_UInt16), (gdal_type =? GDT_Int16),
        (gdal_type =? GDT_UInt32), (gdal_type =? GDT_Int32), (gdal_type =? GDT_Float32),
        (gdal_type =? GDT_Float64); simpl in *; congruence.
    + unfold mxCreateDoubleMatrix. eauto.
Qed.

(** An unsupported type ends the [switch] in [mexErrMsgTxt], before any
    allocation or read. *)
Lemma read_and_transpose_unsupported (hBand : RasterBand) (gdal_type : Z) (o : options) :
  supported_type gdal_type = false ->
  read_and_transpose hBand gdal_type o =
    (Abort (sprintf "Unhandled GDALDataType %d.\n" [ArgInt gdal_type]), []).
Proof.
  unfold supported_type, read_and_transpose. intros H.
  destruct (gdal_type =? GDT_Byte), (gdal_type =? GDT_UInt16), (gdal_type =? GDT_Int16),
    (gdal_type =? GDT_UInt32), (gdal_type =? GDT_Int32), (gdal_type =? GDT_Float32),
    (gdal_type =? GDT_Float64); simpl in *; try discriminate. reflexivity.
Qed.

(** ** Lemmas on traces *)

Lemma emits_ret {A : Type} (P : event -> Prop) (a : A) : emits P (ret a).
Proof. apply Forall_nil_2. Qed.

Lemma emits_abort {A : Type} (P : event -> Prop) (msg : message) :
  emits P (@mexErrMsgTxt A msg).
Proof. apply Forall_nil_2. Qed.

Lemma emits_undefined {A : Type} (P : event -> Prop) : emits P (@undefined A).
Proof. apply Forall_nil_2. Qed.

Lemma emits_emit (P : event -> Prop) (e : event) : P e -> emits P (emit e).
Proof. intros H. constructor; [exact H | constructor]. Qed.

Lemma emits_bind {A B : Type} (P : event -> Prop) (m : M A) (k : A -> M B) :
  emits P m -> (forall a, emits P (k a)) -> emits P (bind m k).
Proof.
  unfold emits. destruct m as [[a | msg |] evs]; simpl; intros Hm Hk; try exact Hm.
  specialize (Hk a). destruct (k a) as [o evs']. simpl in *.
  apply Forall_app; split; assumption.
Qed.

Lemma emits_when (P : event -> Prop) (c : bool) (m : M unit) :
  emits P m -> emits P (when c m).
Proof. intros H. destruct c; [exact H | apply emits_ret]. Qed.

Lemma emits_for_loopM {S : Type} (P : event -> Prop) (lo hi : Z)
    (body : Z -> S -> M S) (s : S) :
  (forall k st, emits P (body k st)) -> emits P (for_loopM lo hi body s).
Proof.
  intros Hbody. unfold for_loopM.
  generalize (seq 0 (Z.to_nat (hi - lo))). intros l.
  assert (Hgen : forall acc : M S, emits P acc ->
            emits P (fold_left (fun acc k => let* st := acc in body (lo + Z.of_nat k) st) l acc)).
  { induction l as [|k l IH]; intros acc Hacc; simpl; [exact Hacc |].
    apply IH. apply emits_bind; [exact Hacc | intros; apply Hbody]. }
  apply Hgen, emits_ret.
Qed.

Lemma emits_sprintf_into (P : event -> Prop) (capacity : Z) (fmt s : string) :
  emits P (sprintf_into capacity fmt s).
Proof. unfold sprintf_into. destruct (fits _ _ _); constructor. Qed.

Lemma emits_copy_into_matlab_array (P : event -> Prop) (mxGDALraster : mxArray)
    (transpose_void_buffer : transposed) (out_type_size : Z) (o : options) :
  emits P (copy_into_matlab_array mxGDALraster transpose_void_buffer out_type_size o).
Proof.
  unfold copy_into_matlab_array, memcpy_bytes.
  destruct mxGDALraster, transpose_void_buffer; try constructor;
    match goal with |- context [if ?c then _ else _] => destruct c end; constructor.
Qed.

(** Decomposition of a computation into the events it emits. *)
Ltac emits_step :=
  match goal with
  | |- emits _ (ret _) => apply emits_ret
  | |- emits _ (sprintf_into _ _ _) => apply emits_sprintf_into
  | |- emits _ (copy_into_matlab_array _ _ _ _) => apply emits_copy_into_matlab_array
  | |- emits _ (mexErrMsgTxt _) => apply emits_abort
  | |- emits _ undefined => apply emits_undefined
  | |- emits _ (bind _ _) => apply emits_bind; [| intros]
  | |- emits _ (when _ _) => apply emits_when
  | |- emits _ (for_loopM _ _ _ _) => apply emits_for_loopM; intros
  | |- emits _ (mexPrintf _ _) => apply emits_emit
  | |- emits _ (mexWarnMsgTxt _) => apply emits_emit
  | |- emits _ (emit _) => apply emits_emit
  | |- emits _ (match ?x with _ => _ end) => destruct x
  end.

Ltac emits_auto := repeat emits_step; try reflexivity; try exact I.

Lemma unpack_field_emits (fieldname : string) (mxField : mxArray) (o : options) :
  emits is_neutral (unpack_field fieldname mxField o).
Proof.
  unfold unpack_field, if_field, unpack_band, unpack_overview, unpack_gdal_dump,
    unpack_verbose, unpack_xextend, unpack_yextend, unpack_xout, unpack_yout,
    first_element.
  emits_auto; split; reflexivity.
Qed.

Lemma unpack_input_options_emits (mx_struct : mxArray) (o : options) :
  emits is_neutral (unpack_input_options mx_struct o).
Proof.
  unfold unpack_input_options.
  apply emits_for_loopM. intros k st.
  destruct (mxGetFieldByNumber mx_struct 0 k); [| apply emits_abort].
  destruct (mxGetFieldNameByNumber mx_struct k); [| apply emits_abort].
  apply unpack_field_emits.
Qed.

Lemma read_arguments_emits (nlhs : Z) (prhs : list mxArray) :
  emits is_neutral (read_arguments nlhs prhs).
Proof.
  unfold read_arguments.
  repeat (apply emits_bind; [apply emits_when, emits_abort | intros]).
  destruct prhs as [| mx_input_gdal_file rest]; [apply emits_undefined |].
  repeat (apply emits_bind; [apply emits_when, emits_abort | intros]).
  destruct (mxGetString mx_input_gdal_file _) as [status gdal_filename].
  apply emits_bind; [apply emits_when, emits_abort | intros].
  apply emits_bind.
  - destruct rest; [apply emits_ret |].
    apply emits_bind; [apply emits_when, emits_abort | intros].
    apply unpack_input_options_emits.
  - intros o. apply emits_bind; [apply emits_emit; split; reflexivity | intros; apply emits_ret].
Qed.

Lemma record_geotransform_emits (lib : Library) (gdal_filename : string)
    (hDataset : Dataset) :
  emits (fun e => is_raster_io e = false) (record_geotransform lib gdal_filename hDataset).
Proof. unfold record_geotransform. emits_auto. Qed.

Lemma handle_overviews_emits (P : event -> Prop) (hBand : RasterBand)
    (band_struct : mxArray) :
  emits P (handle_overviews hBand band_struct).
Proof. unfold handle_overviews. emits_auto. Qed.

Lemma populate_metadata_struct_emits (lib : Library) (gdal_filename : string) :
  emits (fun e => is_raster_io e = false) (populate_metadata_struct lib gdal_filename).
Proof.
  unfold populate_metadata_struct.
  apply emits_bind; [apply emits_emit; reflexivity | intros _].
  destruct (Open lib gdal_filename) as [hDataset |]; [| emits_auto].
  apply emits_bind; [emits_auto | intros driver_struct].
  apply emits_bind; [apply record_geotransform_emits | intros [status adfGeoTransform]].
  apply emits_bind; [emits_auto | intros metadata_struct].
  apply emits_bind; [| intros; emits_auto].
  apply emits_for_loopM. intros band_number band_struct.
  destruct (GetRasterBand hDataset band_number); [| apply emits_undefined].
  apply handle_overviews_emits.
Qed.

Lemma print_band_summary_emits (lib : Library) (hBand : RasterBand)
    (gdal_type RasterXSize RasterYSize : Z) (o : options) :
  emits (fun e => is_metadata_query e = false)
        (print_band_summary lib hBand gdal_type RasterXSize RasterYSize o).
Proof. unfold print_band_summary. emits_auto. Qed.

Lemma read_and_transpose_emits (hBand : RasterBand) (gdal_type : Z) (o : options) :
  emits (fun e => is_metadata_query e = false) (read_and_transpose hBand gdal_type o).
Proof. unfold read_and_transpose, mxCalloc, mxCreateNumericArray. emits_auto. Qed.

Lemma read_raster_emits (lib : Library) (gdal_filename : string) (o : options) :
  emits (fun e => is_metadata_query e = false) (read_raster lib gdal_filename o).
Proof.
  unfold read_raster.
  apply emits_bind; [apply emits_emit; reflexivity | intros _].
  destruct (Open lib gdal_filename) as [hDataset |]; [| emits_auto].
  destruct (select_band hDataset o) as [hBand |]; [| apply emits_undefined].
  apply emits_bind; [apply emits_when, print_band_summary_emits | intros _].
  apply emits_bind; [emits_auto | intros _].
  apply emits_bind; [apply read_and_transpose_emits | intros [[arr tb] sz]].
  emits_auto.
Qed.

Lemma emits_weaken {A : Type} (P Q : event -> Prop) (m : M A) :
  (forall e, P e -> Q e) -> emits P m -> emits Q m.
Proof. intros H. unfold emits. apply List.Forall_impl. exact H. Qed.

(** The fields of the resolved window, one by one. *)
Lemma resolve_window_fields (RasterXSize RasterYSize : Z) (o : options) :
  resolve_window RasterXSize RasterYSize o =
    let xe := if xextend o =? -1 then RasterXSize else xextend o in
    let ye := if yextend o =? -1 then RasterYSize else yextend o in
    {| requested_band := requested_band o; requested_overview := requested_overview o;
       gdal_dump := gdal_dump o; mexgdal_verbose := mexgdal_verbose o;
       xorigin := xorigin o; yorigin := yorigin o;
       xextend := xe; yextend := ye;
       xout := if xout o =? -1 then Int.sub xe (xorigin o) else xout o;
       yout := if yout o =? -1 then Int.sub ye (yorigin o) else yout o |}.
Proof.
  destruct o as [band overview dump verbose xo yo xe ye xu yu].
  unfold resolve_window. simpl.
  destruct (xe =? -1); simpl; destruct (ye =? -1); simpl;
    destruct (xu =? -1); simpl; destruct (yu =? -1); reflexivity.
Qed.

(** How the gateway goes on after reading its arguments. *)
Lemma mexFunction_dispatch (lib : Library) (nlhs : Z) (prhs : list mxArray)
    (gdal_filename : string) (o : options) :
  fst (read_arguments nlhs prhs) = Done (gdal_filename, o) ->
  mexFunction lib nlhs prhs =
    if negb (gdal_dump o =? 0)
    then (fst (populate_metadata_struct lib gdal_filename),
          snd (read_arguments nlhs prhs) ++ snd (populate_metadata_struct lib gdal_filename))
    else (fst (read_raster lib gdal_filename o),
          snd (read_arguments nlhs prhs) ++ snd (read_raster lib gdal_filename o)).
Proof.
  intros Hargs. unfold mexFunction.
  destruct (read_arguments nlhs prhs) as [out evs]. simpl in Hargs. subst out.
  rewrite bind_done. simpl. destruct (negb (gdal_dump o =? 0)); reflexivity.
Qed.

Lemma mexFunction_stops (lib : Library) (nlhs : Z) (prhs : list mxArray) :
  (forall a, fst (read_arguments nlhs prhs) <> Done a) ->
  snd (mexFunction lib nlhs prhs) = snd (read_arguments nlhs prhs).
Proof.
  intros Hargs. unfold mexFunction.
  destruct (read_arguments nlhs prhs) as [[a | msg |] evs]; simpl in *;
    [exfalso; apply (Hargs a); reflexivity | reflexivity | reflexivity].
Qed.

(** ** Lemmas on the unpacking of options *)

Lemma fst_bind_inv {A B : Type} (m : M A) (k : A -> M B) (b : B) :
  fst (bind m k) = Done b -> exists a, fst m = Done a /\ fst (k a) = Done b.
Proof.
  destruct m as [[a | msg |] evs]; simpl; try discriminate.
  destruct (k a) as [out evs'] eqn:E. simpl. intros ->. exists a.
  rewrite E. split; reflexivity.
Qed.


Lemma fst_bind_when_abort {B : Type} (c : bool) (msg : message) (k : unit -> M B) :
  fst (bind (when c (mexErrMsgTxt msg)) k) = if c then Abort msg else fst (k tt).
Proof. destruct c; simpl; [reflexivity | destruct (k tt); reflexivity]. Qed.

Section Loops.

Context {S : Type} (lo : Z) (body : Z -> S -> M S).

Let step (acc : M S) (k : nat) : M S := let* st := acc in body (lo + Z.of_nat k) st.




(** A property that every iteration carries from the state it starts
    in to the state it ends in holds at the end of the loop. *)
Lemma for_loopM_preserves (Q : S -> Prop) (hi : Z) (s s' : S) :
  (forall k st st', Q st -> fst (body k st) = Done st' -> Q st') ->
  Q s -> fst (for_loopM lo hi body s) = Done s' -> Q s'.
Proof.
  intros Hbody. unfold for_loopM. fold step.
  generalize (seq 0 (Z.to_nat (hi - lo))). intros l.
  assert (Hgen : forall acc : M S,
            (forall st, fst acc = Done st -> Q st) ->
            fst (fold_left step l acc) = Done s' -> Q s').
  { induction l as [|k l IH]; intros acc Hacc; simpl; [apply Hacc |].
    apply IH. intros st Hst. unfold step in Hst.
    apply fst_bind_inv in Hst as (st0 & Hst0 & Hst).
    apply (Hbody (lo + Z.of_nat k) st0 st); [apply Hacc; exact Hst0 | exact Hst]. }
  intros Hs. apply Hgen. simpl. intros st [= <-]. exact Hs.
Qed.

End Loops.















Lemma if_field_inv (fieldname name : string) (unpack : mxArray -> M Z)
    (set : Z -> options -> options) (mxField : mxArray) (o o' : options) :
  fst (if_field fieldname name unpack set mxField o) = Done o' ->
  (fieldname <> name /\ o' = o) \/ (fieldname = name /\ exists v, o' = set v o).
Proof.
  unfold if_field. destruct (String.eqb_spec fieldname name) as [Heq | Hne].
  - intros H. apply fst_bind_inv in H as (v & _ & H). simpl in H.
    injection H as <-. right. eauto.
  - simpl. intros [= <-]. left. split; [assumption | reflexivity].
Qed.

(** A field with another name leaves the window options alone. *)
Lemma unpack_field_window_untouched (fieldname : string) (mxField : mxArray)
    (o o' : options) :
  ~ In fieldname window_fields ->
  fst (unpack_field fieldname mxField o) = Done o' ->
  window_of o' = window_of o.
Proof.
  intros Hname H. unfold unpack_field in H.
  repeat (apply fst_bind_inv in H;
          let o1 := fresh "o" in let H1 := fresh "H" in
          destruct H as (o1 & H1 & H)).
  assert (Hstep : forall name unpack set a b,
            (In name window_fields \/ forall v x, window_of (set v x) = window_of x) ->
            fst (if_field fieldname name unpack set mxField a) = Done b ->
            window_of b = window_of a).
  { intros name unpack set a b Hset Hf.
    apply if_field_inv in Hf as [[_ ->] | [Heq [v ->]]]; [reflexivity |].
    destruct Hset as [Hin | Hset]; [| apply Hset].
    exfalso. apply Hname. rewrite Heq. exact Hin. }
  repeat match goal with
  | Hf : fst (if_field _ _ _ _ _ _) = Done _ |- _ =>
      apply Hstep in Hf;
        [| first [right; reflexivity | left; unfold window_fields; simpl; tauto]]
  end.
  congruence.
Qed.

Lemma unpack_input_options_window_untouched
    (m n : Z) (names : list string) (elements : list (list (option mxArray)))
    (o o' : options) :
  (forall name, In name names -> ~ In name window_fields) ->
  fst (unpack_input_options (mxStruct m n names elements) o) = Done o' ->
  window_of o' = window_of o.
Proof.
  intros Hnames. unfold unpack_input_options.
  apply (for_loopM_preserves 0 _ (fun st => window_of st = window_of o)); [| reflexivity].
  intros k st st' Hst.
  destruct (mxGetFieldByNumber _ 0 k) as [mxField |]; [| discriminate].
  destruct (mxGetFieldNameByNumber _ k) as [fieldname |] eqn:Hname; [| discriminate].
  intros Hrun. rewrite <- Hst.
  apply (unpack_field_window_untouched fieldname mxField st st'); [| exact Hrun].
  apply Hnames. simpl in Hname. destruct (k <? 0); [discriminate |].
  apply list_elem_of_In. apply (list_elem_of_lookup_2 _ _ _ Hname).
Qed.

Lemma resolve_window_depends_on_window (RasterXSize RasterYSize : Z) (o1 o2 : options) :
  window_of o1 = window_of o2 ->
  window_of (resolve_window RasterXSize RasterYSize o1) =
  window_of (resolve_window RasterXSize RasterYSize o2).
Proof.
  rewrite !resolve_window_fields. unfold window_of. simpl.
  intros [= -> -> -> -> -> ->]. reflexivity.
Qed.

(** Options without a window field leave the window to be resolved from
    the initial values. *)
Lemma read_arguments_window_untouched
    (nlhs : Z) (mx_input_gdal_file : mxArray) (m n : Z) (names : list string)
    (elements : list (list (option mxArray))) (gdal_filename : string) (o : options) :
  (forall name, In name names -> ~ In name window_fields) ->
  fst (read_arguments nlhs [mx_input_gdal_file; mxStruct m n names elements]) =
    Done (gdal_filename, o) ->
  window_of o = window_of default_options.
Proof.
  intros Hnames. unfold read_arguments.
  rewrite fst_bind_when_abort. destruct (negb (nlhs =? 1)); [discriminate |].
  rewrite fst_bind_when_abort. simpl (_ <? _). cbv iota.
  rewrite fst_bind_when_abort. simpl (_ <? _). cbv iota.
  rewrite fst_bind_when_abort.
  destruct (negb (mxIsChar mx_input_gdal_file =? 1)); [discriminate |].
  rewrite fst_bind_when_abort.
  destruct (negb (mxGetM mx_input_gdal_file =? 1)); [discriminate |].
  destruct (mxGetString mx_input_gdal_file _) as [status name].
  rewrite fst_bind_when_abort. destruct (negb (status =? 0)); [discriminate |].
  intros H. apply fst_bind_inv in H as (o' & Hunpack & H).
  simpl in H. injection H as _ <-.
  rewrite fst_bind_when_abort in Hunpack. simpl in Hunpack.
  apply (unpack_input_options_window_untouched m n names elements default_options o'
           Hnames Hunpack).
Qed.

(** A call with a file name and nothing else leaves every option at its
    initial value. *)
Lemma read_arguments_filename_only (s : string) :
  read_arguments 1 [mxCreateString s] = (Done (s, default_options), [EvGDALAllRegister]).
Proof.
  unfold read_arguments, mxCreateString, mxGetString, mxGetN. simpl.
  destruct (Z.ltb_spec (Z.of_nat (String.length s)) (Z.of_nat (String.length s) + 1));
    [reflexivity | lia].
Qed.

Lemma fst_bind_ret {A B : Type} (a : A) (k : A -> M B) :
  fst (bind (ret a) k) = fst (k a).
Proof. apply fst_bind. reflexivity. Qed.

Lemma fst_bind_warn {A B : Type} (msg : message) (a : A) (k : A -> M B) :
  fst (bind (mexWarnMsgTxt msg ;> ret a) k) = fst (k a).
Proof. apply fst_bind. reflexivity. Qed.

(** A loop whose every iteration ends normally and keeps [Q] ends
    normally in a state with [Q]. *)
Lemma for_loopM_total {S : Type} (Q : S -> Prop) (lo hi : Z)
    (body : Z -> S -> M S) (s : S) :
  (forall k st, lo <= k < hi -> Q st -> exists st', fst (body k st) = Done st' /\ Q st') ->
  Q s ->
  exists s', fst (for_loopM lo hi body s) = Done s' /\ Q s'.
Proof.
  intros Hbody Hs. unfold for_loopM.
  assert (Hgen : forall (l : list nat) (acc : M S),
            (forall i, In i l -> lo <= lo + Z.of_nat i < hi) ->
            (exists st, fst acc = Done st /\ Q st) ->
            exists s', fst (fold_left (fun acc k => let* st := acc in body (lo + Z.of_nat k) st)
                                      l acc) = Done s' /\ Q s').
  { induction l as [|k l IH]; intros acc Hl Hacc; simpl; [exact Hacc |].
    apply IH; [intros i Hi; apply Hl; right; exact Hi |].
    destruct Hacc as (st & Hst & HQ).
    destruct (Hbody (lo + Z.of_nat k) st) as (st' & Hst' & HQ');
      [apply Hl; left; reflexivity | exact HQ |].
    exists st'. split; [| exact HQ']. rewrite (fst_bind _ _ st Hst). exact Hst'. }
  apply Hgen.
  - intros i Hi. apply in_seq in Hi. lia.
  - exists s. split; [reflexivity | exact Hs].
Qed.

(** Writing a field of one element of a structure array leaves the other
    elements alone. *)
Lemma mxGetField_mxSetField_other (a : mxArray) (i j : Z) (name name' : string)
    (v : mxArray) :
  0 <= i -> 0 <= j -> i <> j ->
  mxGetField (mxSetField a i name v) j name' = mxGetField a j name'.
Proof.
  intros Hi Hj Hne. destruct a as [| | | m n names elements |]; try reflexivity.
  unfold mxSetField. destruct (field_number names name) as [k |]; [| reflexivity].
  destruct (Z.ltb_spec i 0); [reflexivity |].
  unfold mxGetField. destruct (field_number names name') as [k' |]; [| reflexivity].
  unfold mxGetFieldByNumber.
  destruct ((j <? 0) || (Z.of_nat k' <? 0)); [reflexivity |].
  rewrite list_lookup_alter_ne by lia. reflexivity.
Qed.

Lemma mxGetField_fresh (m n : Z) (names : list string) (index : Z) (name : string) :
  mxGetField (mxCreateStructMatrix m n names) index name = None.
Proof.
  unfold mxCreateStructMatrix, mxGetField.
  destruct (field_number names name) as [k |]; [| reflexivity].
  unfold mxGetFieldByNumber.
  destruct ((index <? 0) || (Z.of_nat k <? 0)); [reflexivity |].
  destruct (replicate _ _ !! Z.to_nat index) as [fields |] eqn:Hfields; [| reflexivity].
  apply lookup_replicate in Hfields as [-> _].
  destruct (replicate _ _ !! Z.to_nat (Z.of_nat k)) as [field |] eqn:Hfield; [| reflexivity].
  apply lookup_replicate in Hfield as [-> _]. reflexivity.
Qed.

Lemma mxGetM_mxSetField (a : mxArray) (i : Z) (name : string) (v : mxArray) :
  mxGetM (mxSetField a i name v) = mxGetM a.
Proof.
  destruct a as [| | | m n names elements |]; try reflexivity.
  unfold mxSetField. destruct (field_number names name); [| reflexivity].
  destruct (i <? 0); reflexivity.
Qed.

Lemma field_number_injective (names : list string) (name name' : string) (k : nat) :
  field_number names name = Some k -> field_number names name' = Some k -> name = name'.
Proof.
  revert k. induction names as [| n names IH]; intros k; simpl; [discriminate |].
  destruct (String.eqb_spec n name) as [<- | Hne], (String.eqb_spec n name') as [<- | Hne'].
  - reflexivity.
  - intros [= <-]. destruct (field_number names name'); discriminate.
  - intros H [= <-]. destruct (field_number names name); discriminate.
  - destruct (field_number names name) as [i |], (field_number names name') as [i' |];
      simpl; try discriminate.
    intros [= <-] [= ->]. apply (IH i); reflexivity.
Qed.

(** Writing one field leaves the fields of another name alone. *)
Lemma mxGetField_mxSetField_other_name (a : mxArray) (i j : Z) (name name' : string)
    (v : mxArray) :
  name <> name' ->
  mxGetField (mxSetField a i name v) j name' = mxGetField a j name'.
Proof.
  intros Hne. destruct a as [| | | m n names elements |]; try reflexivity.
  unfold mxSetField. destruct (field_number names name) as [k |] eqn:Hk; [| reflexivity].
  destruct (Z.ltb_spec i 0); [reflexivity |].
  unfold mxGetField. destruct (field_number names name') as [k' |] eqn:Hk'; [| reflexivity].
  unfold mxGetFieldByNumber.
  destruct ((j <? 0) || (Z.of_nat k' <? 0)); [reflexivity |].
  rewrite list_lookup_alter.
  destruct (decide (Z.to_nat i = Z.to_nat j)) as [Heq | _]; [rewrite Heq | reflexivity].
  destruct (elements !! Z.to_nat j) as [fields |]; [| reflexivity]. simpl.
  rewrite Nat2Z.id, list_lookup_insert_ne; [reflexivity |].
  intros ->. apply Hne. apply (field_number_injective names name name' k'); assumption.
Qed.

Lemma handle_overviews_none (hBand : RasterBand) (band_struct : mxArray) :
  Overviews hBand = [] -> handle_overviews hBand band_struct = (Done band_struct, []).
Proof.
  intros Hnone. unfold handle_overviews, GetOverviewCount. rewrite Hnone. reflexivity.
Qed.

(** [handle_overviews] always returns; it either leaves the band
    structure alone or stores an array in the [Overview] field of its
    first element. *)
Lemma handle_overviews_total (hBand : RasterBand) (band_struct : mxArray) :
  exists band_struct',
    fst (handle_overviews hBand band_struct) = Done band_struct' /\
    (band_struct' = band_struct \/
     exists overview_struct,
       band_struct' = mxSetField band_struct 0 "Overview" overview_struct).
Proof.
  unfold handle_overviews.
  destruct (0 <? GetOverviewCount hBand); [| exists band_struct; split; [reflexivity | left; reflexivity]].
  match goal with |- context [for_loopM 0 ?hi ?body ?s] =>
    destruct (for_loopM_total (fun _ => True) 0 hi body s) as (ovs & Hovs & _) end.
  - intros k st Hk _. unfold GetOverview, GetOverviewCount in *.
    destruct (Z.ltb_spec k 0); [lia |].
    destruct (lookup_lt_is_Some_2 (Overviews hBand) (Z.to_nat k)) as [ov Hov]; [lia |].
    rewrite Hov. eexists. split; [reflexivity | exact I].
  - exact I.
  - exists (mxSetField band_struct 0 "Overview" ovs). split; [| right; eauto].
    rewrite (fst_bind _ _ ovs Hovs). reflexivity.
Qed.

(** Once the file opens, under a name whose messages fit the buffers they
    are formatted in, the metadata dump always returns a structure.
    Its [Band] array has one entry per band, but only the first entry is
    ever written; and the [GeoTransform] field is unset when no
    georeferencing was found. *)
Lemma populate_metadata_struct_done (lib : Library) (gdal_filename : string)
    (hDataset : Dataset) :
  Open lib gdal_filename = Some hDataset ->
  (String.length gdal_filename <= 410)%nat ->
  exists metadata_struct band_struct,
    fst (populate_metadata_struct lib gdal_filename) = Done metadata_struct /\
    mxGetField metadata_struct 0 "Band" = Some band_struct /\
    mxGetM band_struct = GetRasterCount hDataset /\
    (forall index name, 1 <= index -> mxGetField band_struct index name = None) /\
    (Forall (fun hBand => Overviews hBand = []) (Bands hDataset) ->
     forall index, mxGetField band_struct index "Overview" = None) /\
    (forall status adfGeoTransform,
       fst (record_geotransform lib gdal_filename hDataset) = Done (status, adfGeoTransform) ->
       status <> 0 -> mxGetField metadata_struct 0 "GeoTransform" = None).
Proof.
  intros HO Hname.
  assert (Hwarning := proj2 (fits_georeferencing_message gdal_filename) Hname).
  assert (Hgeneric : fits 5000 "%s.xxx" gdal_filename = true)
    by (apply fits_generic_buffer; lia).
  unfold populate_metadata_struct.
  rewrite (fst_bind _ _ tt) by reflexivity. rewrite HO.
  (* the driver loop *)
  match goal with |- context [for_loopM 0 (GetDriverCount lib) ?body ?s] =>
    destruct (for_loopM_total (fun _ => True) 0 (GetDriverCount lib) body s)
      as (driver_struct & Hdrivers & _) end.
  { intros j st Hj _. unfold GetDriver, GetDriverCount in *.
    destruct (Z.ltb_spec j 0); [lia |].
    destruct (lookup_lt_is_Some_2 (Drivers lib) (Z.to_nat j)) as [d Hd]; [lia |].
    rewrite Hd. eexists. split; [reflexivity | exact I]. }
  { exact I. }
  (* the band loop *)
  set (band_fieldnames := ["XSize"; "YSize"; "Overview"; "NoDataValue"; "DataType"]).
  match goal with |- context [for_loopM 1 (GetRasterCount hDataset + 1) ?body ?s] =>
    destruct (for_loopM_total
                (fun bs => mxGetM bs = GetRasterCount hDataset /\
                           (forall index name, 1 <= index -> mxGetField bs index name = None) /\
                           (Forall (fun hBand => Overviews hBand = []) (Bands hDataset) ->
                            forall index, mxGetField bs index "Overview" = None))
                1 (GetRasterCount hDataset + 1) body s)
      as (band_struct & Hbands & Hcount & Hrest & Hoverview) end.
  { intros k st Hk (Hm & Hst & Hov). unfold GetRasterBand, GetRasterCount in *.
    destruct (Z.ltb_spec k 1); [lia |].
    destruct (lookup_lt_is_Some_2 (Bands hDataset) (Z.to_nat (k - 1))) as [b Hb]; [lia |].
    rewrite Hb.
    match goal with |- context [handle_overviews b ?bs] =>
      destruct (handle_overviews_total b bs) as (bs' & Hbs' & Hshape) end.
    exists bs'. split; [exact Hbs' |].
    split; [| split].
    - destruct Hshape as [-> | [ovs ->]]; rewrite !mxGetM_mxSetField; exact Hm.
    - intros index name Hindex.
      destruct Hshape as [-> | [ovs ->]];
        rewrite !mxGetField_mxSetField_other by lia; apply Hst; exact Hindex.
    - intros Hnone index.
      assert (Hb' : Overviews b = []).
      { rewrite Forall_forall in Hnone. apply Hnone.
        apply (list_elem_of_lookup_2 _ _ _ Hb). }
      rewrite (handle_overviews_none b _ Hb') in Hbs'. simpl in Hbs'.
      injection Hbs' as <-.
      rewrite !mxGetField_mxSetField_other_name by discriminate.
      apply Hov. exact Hnone. }
  { split; [reflexivity | split; intros; apply mxGetField_fresh]. }
  assert (Hgeo : exists status adfGeoTransform,
            fst (record_geotransform lib gdal_filename hDataset) =
              Done (status, adfGeoTransform)).
  { unfold record_geotransform.
    destruct (GeoTransform hDataset) as [err adf]. simpl.
    destruct (err =? CE_None); simpl; [eauto |].
    destruct (ReadWorldFile lib gdal_filename (Some "wld")); simpl; [eauto |].
    rewrite Hgeneric. simpl.
    destruct (ReadWorldFile lib (String.append gdal_filename ".xxx") (Some "wld")); simpl;
      [eauto |].
    destruct (1210 <=? VERSION_NUM lib); simpl; [| eauto].
    destruct (ReadWorldFile lib gdal_filename None); simpl; eauto. }
  destruct Hgeo as (status & adfGeoTransform & Hgeo).
  rewrite (fst_bind _ _ driver_struct Hdrivers).
  rewrite (fst_bind _ _ (status, adfGeoTransform) Hgeo). cbv iota.
  destruct (Z.eqb_spec status 0) as [Hzero | Hnonzero].
  - rewrite fst_bind_ret.
    rewrite (fst_bind _ _ band_struct Hbands).
    eexists _, band_struct.
    split; [reflexivity |].
    split; [reflexivity |].
    split; [exact Hcount |].
    split; [exact Hrest |].
    split; [exact Hoverview |].
    intros status' adf' Hgeo' Hne. rewrite Hgeo in Hgeo'. congruence.
  - rewrite (sprintf_into_fits _ _ _ Hwarning), bind_ret.
    rewrite fst_bind_warn.
    rewrite (fst_bind _ _ band_struct Hbands).
    eexists _, band_struct.
    split; [reflexivity |].
    split; [reflexivity |].
    split; [exact Hcount |].
    split; [exact Hrest |].
    split; [exact Hoverview |].
    intros _ _ _ _. reflexivity.
Qed.

(** [record_geotransform] against the ordered fallback of the
    specification. *)
Lemma record_geotransform_first_success
    (lib : Library) (gdal_filename : string) (hDataset : Dataset) :
  (String.length gdal_filename <= 4995)%nat ->
  snd (record_geotransform lib gdal_filename hDataset) =
    snd (first_success (georeference_strategies lib gdal_filename hDataset)) /\
  match fst (first_success (georeference_strategies lib gdal_filename hDataset)) with
  | Some transform =>
      fst (record_geotransform lib gdal_filename hDataset) = Done (0, transform)
  | None =>
      exists adfGeoTransform,
        fst (record_geotransform lib gdal_filename hDataset) = Done (-1, adfGeoTransform)
  end.
Proof.
  intros Hname. apply fits_generic_buffer in Hname.
  unfold record_geotransform, georeference_strategies.
  destruct (GeoTransform hDataset) as [err adfGeoTransform]. simpl.
  destruct (err =? CE_None); simpl; [split; reflexivity |].
  destruct (ReadWorldFile lib gdal_filename (Some "wld")); simpl; [split; reflexivity |].
  rewrite Hname. simpl.
  destruct (ReadWorldFile lib (String.append gdal_filename ".xxx") (Some "wld")); simpl;
    [split; reflexivity |].
  destruct (1210 <=? VERSION_NUM lib); simpl; [| split; eauto].
  destruct (ReadWorldFile lib gdal_filename None); simpl; split; eauto.
Qed.

(** Whatever the data set, the entries of [Band] after the first are
    never written: the band loop stores every band in the first entry.
    (The name is one whose messages fit their buffers.) *)
Lemma band_entries_beyond_first_never_written
    (lib : Library) (gdal_filename : string) (hDataset : Dataset) :
  Open lib gdal_filename = Some hDataset ->
  (String.length gdal_filename <= 410)%nat ->
  exists metadata_struct,
    fst (populate_metadata_struct lib gdal_filename) = Done metadata_struct /\
    forall band_number name,
      2 <= band_number -> band_entry metadata_struct band_number name = None.
Proof.
  intros HO Hname.
  destruct (populate_metadata_struct_done lib gdal_filename hDataset HO Hname)
    as (md & bs & Hmd & Hband & _ & Hrest & _).
  exists md. split; [exact Hmd |].
  intros band_number name Hn. unfold band_entry. rewrite Hband. apply Hrest. lia.
Qed.

(** * The claims *)

(** On a window whose number of elements is an [int], the elements of a
    double array past those the final [memcpy] copies are the zeroes the
    array was created with. *)
Lemma element_beyond_copy (hBand : RasterBand) (o : options) (position : Z) :
  RasterDataType hBand <> GDT_Byte ->
  0 <= xout o * yout o ->
  0 <= copied_count (RasterDataType hBand) o <= position ->
  position < xout o * yout o ->
  element (returned_array hBand o) position = Some (Float64Sample 0%float).
Proof.
  intros Hwide Hprod Hcopied Hposition. unfold returned_array, element.
  destruct (Z.eqb_spec (RasterDataType hBand) GDT_Byte) as [? | _]; [contradiction |].
  rewrite load_lookup by lia. unfold memcpy.
  rewrite lookup_app_r
    by (rewrite length_take, length_transpose_loops, length_replicate; lia).
  rewrite length_take, length_transpose_loops, length_replicate.
  rewrite lookup_drop.
  rewrite lookup_replicate_2 by lia. reflexivity.
Qed.

Lemma mxGetM_returned_array (hBand : RasterBand) (o : options) :
  mxGetM (returned_array hBand o) = yout o /\ mxGetN (returned_array hBand o) = xout o.
Proof. unfold returned_array. destruct (_ =? _); split; reflexivity. Qed.

(** C1 (the code departs from it).  The byte count of the final [memcpy]
    is computed in [int].  For the 16-bit elevation model of 16384 by
    16384 samples, read whole, it wraps to a negative number and the
    copy has no defined meaning.  For the mosaic of 23171 by 23171
    doubles it wraps to 194632: the call returns an array of 23171 by
    23171 of which only the first 24329 elements were copied, so that
    at row 1158 of column 1 the array holds 0 where GDAL decoded 1. *)
Theorem large_window_is_not_copied_in_full :
  fst (read_raster Sample3.library "dem.tif" default_options) = Undefined /\
  exists mxGDALraster,
    fst (read_raster Sample3.library "mosaic.tif" default_options) = Done mxGDALraster /\
    mxGetM mxGDALraster = 23171 /\
    mxGetN mxGDALraster = 23171 /\
    decoded (Sample3.ones 23171 23171 GDT_Float64)
            (resolve_window 23171 23171 default_options) (1158 * 23171 + 1) =
      Float64Sample 1%float /\
    element mxGDALraster (1 * 23171 + 1158) = Some (Float64Sample 0%float).
Proof.
  split.
  - pose proof (read_raster_returns Sample3.library "dem.tif" default_options Sample3.dem
                  (Sample3.ones 16384 16384 GDT_Int16) eq_refl eq_refl eq_refl
                  ltac:(vm_compute; discriminate) ltac:(vm_compute; discriminate)
                  ltac:(vm_compute; discriminate)) as [Hnegative _].
    apply Hnegative. vm_compute. reflexivity.
  - pose proof (read_raster_returns Sample3.library "mosaic.tif" default_options
                  Sample3.mosaic (Sample3.ones 23171 23171 GDT_Float64) eq_refl eq_refl
                  eq_refl ltac:(vm_compute; discriminate) ltac:(vm_compute; discriminate)
                  ltac:(vm_compute; discriminate)) as [_ Hreturns].
    destruct Hreturns as [Hdone _]; [vm_compute; discriminate |].
    exists (returned_array (Sample3.ones 23171 23171 GDT_Float64)
              (resolve_window 23171 23171 default_options)).
    split; [exact Hdone |].
    split; [apply mxGetM_returned_array |].
    split; [apply mxGetM_returned_array |].
    split; [lazy; reflexivity |].
    apply element_beyond_copy.
    + vm_compute. discriminate.
    + vm_compute. discriminate.
    + split; vm_compute; discriminate.
    + vm_compute. reflexivity.
Qed.

(** C2.  The fetch selects the representation by the native type of the
    band alone.  For a band of one of the seven types read, on every
    window for which the call returns (sizes that are not negative, a
    number of elements that is an [int], and a byte count of the final
    copy that is not negative), the call does return an array: of class
    uint8 if and only if the type is exactly [GDT_Byte], and of class
    double for the 16- and 32-bit integers, signed or not, and for the
    32- and 64-bit floats; and the samples were asked of GDAL in that
    representation ([GDT_Byte], else [GDT_Float64]). *)
Theorem byte_array_iff_native_byte
    (lib : Library) (gdal_filename : string) (o : options)
    (hDataset : Dataset) (hBand : RasterBand) :
  Open lib gdal_filename = Some hDataset ->
  select_band hDataset o = Some hBand ->
  supported_type (RasterDataType hBand) = true ->
  let w := resolve_window (BandXSize hBand) (BandYSize hBand) o in
  0 <= xout w -> 0 <= yout w ->
  xout w * yout w <= Int.max_signed ->
  0 <= Int.mul (Int.mul (element_size (RasterDataType hBand)) (xout w)) (yout w) ->
  exists mxGDALraster,
    fst (read_raster lib gdal_filename o) = Done mxGDALraster /\
    (mxIsUint8 mxGDALraster = 1 <-> RasterDataType hBand = GDT_Byte) /\
    (In (RasterDataType hBand)
        [GDT_UInt16; GDT_Int16; GDT_UInt32; GDT_Int32; GDT_Float32; GDT_Float64] ->
     mxIsDouble mxGDALraster = 1) /\
    (mxIsDouble mxGDALraster = 1 <-> RasterDataType hBand <> GDT_Byte) /\
    In (EvGDALRasterIO (xorigin w) (yorigin w) (xextend w) (yextend w) (xout w) (yout w)
                       (if RasterDataType hBand =? GDT_Byte then GDT_Byte else GDT_Float64))
       (snd (read_raster lib gdal_filename o)).
Proof.
  intros HO HS Hsup w Hx Hy Hcount Hbytes.
  destruct (read_raster_returns lib gdal_filename o hDataset hBand HO HS Hsup Hx Hy Hcount)
    as [_ Hreturns].
  destruct (Hreturns Hbytes) as [Hdone Htrace]. fold w in Hdone, Htrace.
  exists (returned_array hBand w).
  split; [exact Hdone |].
  assert (Hclass :
    (mxIsUint8 (returned_array hBand w) = 1 <-> RasterDataType hBand = GDT_Byte) /\
    (mxIsDouble (returned_array hBand w) = 1 <-> RasterDataType hBand <> GDT_Byte)).
  { unfold returned_array.
    destruct (Z.eqb_spec (RasterDataType hBand) GDT_Byte) as [Hb | Hnb]; simpl.
    - split; split; intros H; try assumption; try reflexivity;
        [discriminate | contradiction].
    - split; split; intros H; try assumption; try reflexivity;
        [discriminate | contradiction]. }
  destruct Hclass as [Hbyte Hdouble].
  split; [exact Hbyte |]. split; [| split; [exact Hdouble |]].
  - intros Hin. apply Hdouble. intros Hb. rewrite Hb in Hin. simpl in Hin.
    unfold GDT_Byte, GDT_UInt16, GDT_Int16, GDT_UInt32, GDT_Int32, GDT_Float32,
      GDT_Float64 in Hin. intuition discriminate.
  - rewrite Htrace. unfold buffer_type.
    apply in_or_app. right. apply in_or_app. right. apply in_or_app. right.
    apply in_or_app. left. left. reflexivity.
Qed.

(** The byte band of the first sample comes back as a uint8 array, and
    the 16-bit band of the second as a double array. *)
Lemma byte_array_iff_native_byte_witness :
  (exists mxGDALraster,
     fst (read_raster Sample.library "scan.png" default_options) = Done mxGDALraster /\
     (mxIsUint8 mxGDALraster = 1 <-> GDT_Byte = GDT_Byte) /\
     (In GDT_Byte [GDT_UInt16; GDT_Int16; GDT_UInt32; GDT_Int32; GDT_Float32; GDT_Float64] ->
      mxIsDouble mxGDALraster = 1) /\
     (mxIsDouble mxGDALraster = 1 <-> GDT_Byte <> GDT_Byte) /\
     In (EvGDALRasterIO 0 0 3 2 3 2 GDT_Byte)
        (snd (read_raster Sample.library "scan.png" default_options))) /\
  (exists mxGDALraster,
     fst (read_raster Sample.library "two.tif" (set_requested_band 2 default_options))
       = Done mxGDALraster /\
     (mxIsUint8 mxGDALraster = 1 <-> GDT_Int16 = GDT_Byte) /\
     (In GDT_Int16 [GDT_UInt16; GDT_Int16; GDT_UInt32; GDT_Int32; GDT_Float32; GDT_Float64] ->
      mxIsDouble mxGDALraster = 1) /\
     (mxIsDouble mxGDALraster = 1 <-> GDT_Int16 <> GDT_Byte) /\
     In (EvGDALRasterIO 0 0 250 300 250 300 GDT_Float64)
        (snd (read_raster Sample.library "two.tif" (set_requested_band 2 default_options)))).
Proof.
  split.
  - apply (byte_array_iff_native_byte Sample.library "scan.png" default_options
             Sample.scan (Sample.band 3 2 GDT_Byte 0%float []));
      first [reflexivity | vm_compute; discriminate].
  - apply (byte_array_iff_native_byte Sample.library "two.tif"
             (set_requested_band 2 default_options) Sample.two_bands
             (Sample.band 250 300 GDT_Int16 (-9999)%float
                          [Sample.band 125 150 GDT_Int16 (-9999)%float []]));
      first [reflexivity | vm_compute; discriminate].
Defined.

(** C3.  The window the gateway resolves is the one the planner's rule
    gives: each extent is the supplied value, else the size of the band;
    each output size is the supplied value, else extent minus origin; the
    origins pass through.  A call without options, or with options none of
    which is a window field, leaves the origins at 0 and the rest to be
    resolved, so that a 500 by 600 band resolves to the window
    (0, 0, 500, 600, 500, 600).  The differences are taken as [int]s,
    hence the two side conditions. *)
Theorem window_planner_rule (RasterXSize RasterYSize : Z) (o : options) :
  Int.in_range (default RasterXSize (supplied (xextend o)) - xorigin o) ->
  Int.in_range (default RasterYSize (supplied (yextend o)) - yorigin o) ->
  window_of (resolve_window RasterXSize RasterYSize o) =
    plan_spec (xorigin o) (yorigin o)
              (supplied (xextend o)) (supplied (yextend o))
              (supplied (xout o)) (supplied (yout o))
              RasterXSize RasterYSize /\
  (forall s, fst (read_arguments 1 [mxCreateString s]) = Done (s, default_options)) /\
  (forall nlhs mx_input_gdal_file m n names elements gdal_filename o',
     (forall name, In name names -> ~ In name window_fields) ->
     fst (read_arguments nlhs [mx_input_gdal_file; mxStruct m n names elements]) =
       Done (gdal_filename, o') ->
     window_of (resolve_window 500 600 o') =
       {| xOrigin := 0; yOrigin := 0; xExtent := 500; yExtent := 600;
          xOut := 500; yOut := 600 |}) /\
  window_of (resolve_window 500 600 default_options) =
    {| xOrigin := 0; yOrigin := 0; xExtent := 500; yExtent := 600;
       xOut := 500; yOut := 600 |}.
Proof.
  intros Hx Hy. split; [| split; [| split]].
  - rewrite resolve_window_fields. unfold window_of, plan_spec, supplied in *. simpl.
    destruct (xextend o =? -1), (yextend o =? -1), (xout o =? -1), (yout o =? -1);
      simpl in *; unfold Int.sub; rewrite ?Int_wrap_small by assumption; reflexivity.
  - intros s. rewrite read_arguments_filename_only. reflexivity.
  - intros nlhs file m n names elements gdal_filename o' Hnames Hargs.
    rewrite (resolve_window_depends_on_window 500 600 o' default_options); [reflexivity |].
    apply (read_arguments_window_untouched nlhs file m n names elements gdal_filename o'
             Hnames Hargs).
  - reflexivity.
Qed.

(** The top-left quarter of a 500 by 600 band: with [xextend] 250 and
    [yextend] 300 supplied and no output size, the output is 250 by 300. *)
Lemma window_planner_rule_witness :
  window_of (resolve_window 500 600
               (set_yextend 300 (set_xextend 250 default_options))) =
    plan_spec 0 0 (Some 250) (Some 300) None None 500 600 /\
  xOut (window_of (resolve_window 500 600
                     (set_yextend 300 (set_xextend 250 default_options)))) = 250 /\
  yOut (window_of (resolve_window 500 600
                     (set_yextend 300 (set_xextend 250 default_options)))) = 300.
Proof.
  split; [| split; reflexivity].
  apply (window_planner_rule 500 600 (set_yextend 300 (set_xextend 250 default_options)));
    vm_compute; split; discriminate.
Defined.

(** C4 (the code departs from it).  On the two-band sample the [Band]
    array has two entries, but both bands were written to the first: it
    holds the values of band 2 (250 by 300, Int16, no-data -9999) where
    band 1 is 500 by 600, and every field of the second entry is unset. *)
Theorem band_entries_all_written_to_first_slot :
  exists metadata_struct band_struct,
    fst (populate_metadata_struct Sample.library "two.tif") = Done metadata_struct /\
    mxGetField metadata_struct 0 "Band" = Some band_struct /\
    mxGetM band_struct = 2 /\
    band_entry metadata_struct 1 "XSize" = Some (mxCreateDoubleScalar 250%float) /\
    band_entry metadata_struct 1 "YSize" = Some (mxCreateDoubleScalar 300%float) /\
    band_entry metadata_struct 1 "DataType" = Some (mxCreateString "Int16") /\
    band_entry metadata_struct 1 "NoDataValue" = Some (mxCreateDoubleScalar (-9999)%float) /\
    band_entry metadata_struct 2 "XSize" = None /\
    band_entry metadata_struct 2 "YSize" = None /\
    band_entry metadata_struct 2 "DataType" = None /\
    band_entry metadata_struct 2 "NoDataValue" = None.
Proof.
  eexists _, _. split; [vm_compute; reflexivity |].
  split; [vm_compute; reflexivity |].
  repeat split; vm_compute; reflexivity.
Qed.




(** A name that does not fit [generic_buffer], for a data set without an
    internal transform and without a world file of the first kind. *)
Lemma record_geotransform_overflows
    (lib : Library) (gdal_filename : string) (hDataset : Dataset) :
  (4995 < String.length gdal_filename)%nat ->
  fst (GeoTransform hDataset) <> CE_None ->
  ReadWorldFile lib gdal_filename (Some "wld") = None ->
  record_geotransform lib gdal_filename hDataset =
    (Undefined, [EvGDALGetGeoTransform; EvGDALReadWorldFile gdal_filename (Some "wld")]).
Proof.
  intros Hlong Hinternal Hworld. unfold record_geotransform.
  destruct (GeoTransform hDataset) as [err adfGeoTransform]. simpl in Hinternal.
  destruct (Z.eqb_spec err CE_None) as [? | _]; [contradiction |].
  rewrite Hworld.
  destruct (fits 5000 "%s.xxx" gdal_filename) eqn:Hfits.
  - apply fits_generic_buffer in Hfits. lia.
  - reflexivity.
Qed.

(** C6 (the code departs from it).  The third strategy formats the name
    of the world file into a buffer of 5000 characters.  For a name of
    4996 characters that opens, on a data set without an internal
    transform and without a world file of the first kind, the resolver
    neither finds a transform nor reports absence: after its first two
    queries the [sprintf] writes past the end of the buffer. *)
Theorem long_name_overflows_generic_buffer :
  String.length Sample3.long_name = 4996%nat /\
  Open Sample3.library Sample3.long_name = Some Sample.scan /\
  record_geotransform Sample3.library Sample3.long_name Sample.scan =
    (Undefined,
     [EvGDALGetGeoTransform; EvGDALReadWorldFile Sample3.long_name (Some "wld")]).
Proof.
  assert (Hlength : String.length Sample3.long_name = 4996%nat)
    by (vm_compute; reflexivity).
  split; [exact Hlength |].
  split; [reflexivity |].
  apply record_geotransform_overflows.
  - rewrite Hlength. lia.
  - vm_compute. discriminate.
  - reflexivity.
Qed.

(** C7.  When the native type of the band is none of byte, int16, uint16,
    int32, uint32, float32 and float64, a call in raster mode ends in
    [mexErrMsgTxt]: no array is returned, the message carries the value of
    the offending type, and nothing was read. *)
Theorem unsupported_type_is_fatal
    (lib : Library) (nlhs : Z) (prhs : list mxArray) (gdal_filename : string)
    (o : options) (hDataset : Dataset) (hBand : RasterBand) :
  fst (read_arguments nlhs prhs) = Done (gdal_filename, o) ->
  gdal_dump o = 0 ->
  Open lib gdal_filename = Some hDataset ->
  select_band hDataset o = Some hBand ->
  supported_type (RasterDataType hBand) = false ->
  fst (mexFunction lib nlhs prhs) =
    Abort (sprintf "Unhandled GDALDataType %d.\n" [ArgInt (RasterDataType hBand)]) /\
  (forall mxGDALraster, fst (mexFunction lib nlhs prhs) <> Done mxGDALraster) /\
  Forall (fun e => is_raster_io e = false) (snd (mexFunction lib nlhs prhs)).
Proof.
  intros Hargs Hdump HO HS Hsup.
  rewrite (mexFunction_dispatch lib nlhs prhs gdal_filename o Hargs).
  rewrite Hdump. simpl.
  assert (Hrun : fst (read_raster lib gdal_filename o) =
    Abort (sprintf "Unhandled GDALDataType %d.\n" [ArgInt (RasterDataType hBand)])).
  { rewrite (fst_read_raster lib gdal_filename o hDataset hBand HO HS). cbv zeta.
    rewrite read_and_transpose_unsupported by exact Hsup. reflexivity. }
  split; [exact Hrun | split].
  - rewrite Hrun. discriminate.
  - apply Forall_app. split.
    + apply (emits_weaken is_neutral); [intros e [H _]; exact H | apply read_arguments_emits].
    + unfold read_raster. rewrite HO, HS.
      apply emits_bind; [apply emits_emit; reflexivity | intros _].
      apply emits_bind; [unfold print_band_summary; emits_auto | intros _].
      apply emits_bind; [emits_auto | intros _].
      rewrite read_and_transpose_unsupported by exact Hsup.
      apply Forall_nil_2.
Qed.

(** The sample with a band of a complex type (value 8). *)
Lemma unsupported_type_is_fatal_witness :
  fst (mexFunction Sample.library 1 [Sample.filename "complex.tif"]) =
    Abort (sprintf "Unhandled GDALDataType %d.\n" [ArgInt 8]) /\
  (forall mxGDALraster,
     fst (mexFunction Sample.library 1 [Sample.filename "complex.tif"]) <> Done mxGDALraster) /\
  Forall (fun e => is_raster_io e = false)
         (snd (mexFunction Sample.library 1 [Sample.filename "complex.tif"])).
Proof.
  apply (unsupported_type_is_fatal Sample.library 1 [Sample.filename "complex.tif"]
           "complex.tif" default_options Sample.complex
           (Sample.band 3 2 8 0%float [])); reflexivity.
Defined.

(** C8, as the claim words it, fails: for the one-band sample without
    overviews the dump succeeds, but the [Overview] field of the band's
    entry is unset (a NULL field), not an empty structure array. *)
Lemma zero_overviews_field_is_unset :
  exists metadata_struct,
    fst (populate_metadata_struct Sample.library "scan.png") = Done metadata_struct /\
    band_entry metadata_struct 1 "Overview" = None /\
    band_entry metadata_struct 1 "Overview" <>
      Some (mxCreateStructMatrix 0 1 ["XSize"; "YSize"]).
Proof.
  eexists. split; [vm_compute; reflexivity |].
  split; [vm_compute; reflexivity | vm_compute; discriminate].
Qed.

(** C8, amended.  For a band with zero overviews [handle_overviews]
    neither fails nor warns and leaves the band structure exactly as it
    was; so in the dump of a data set none of whose bands has an overview
    the [Overview] field of every entry of [Band] is unset.  (The dump is
    that of a file whose name, of at most 410 characters, fits the
    buffers the messages are formatted in; nothing is said of longer
    names.) *)
Theorem zero_overviews_leave_field_untouched
    (hBand : RasterBand) (band_struct : mxArray) :
  Overviews hBand = [] ->
  handle_overviews hBand band_struct = (Done band_struct, []) /\
  (forall lib gdal_filename hDataset,
     Open lib gdal_filename = Some hDataset ->
     (String.length gdal_filename <= 410)%nat ->
     Forall (fun hBand => Overviews hBand = []) (Bands hDataset) ->
     exists metadata_struct,
       fst (populate_metadata_struct lib gdal_filename) = Done metadata_struct /\
       forall band_number, band_entry metadata_struct band_number "Overview" = None).
Proof.
  intros Hnone. split; [apply handle_overviews_none; exact Hnone |].
  intros lib gdal_filename hDataset HO Hname Hall.
  destruct (populate_metadata_struct_done lib gdal_filename hDataset HO Hname)
    as (md & bs & Hmd & Hband & _ & _ & Hoverview & _).
  exists md. split; [exact Hmd |].
  intros band_number. unfold band_entry. rewrite Hband. apply Hoverview. exact Hall.
Qed.

(** The band of the sample scan has no overviews. *)
Lemma zero_overviews_leave_field_untouched_witness :
  handle_overviews (Sample.band 3 2 GDT_Byte 0%float [])
    (mxCreateStructMatrix 1 1 ["XSize"; "YSize"; "Overview"; "NoDataValue"; "DataType"]) =
    (Done (mxCreateStructMatrix 1 1
             ["XSize"; "YSize"; "Overview"; "NoDataValue"; "DataType"]), []) /\
  exists metadata_struct,
    fst (populate_metadata_struct Sample.library "scan.png") = Done metadata_struct /\
    forall band_number, band_entry metadata_struct band_number "Overview" = None.
Proof.
  destruct (zero_overviews_leave_field_untouched (Sample.band 3 2 GDT_Byte 0%float [])
              (mxCreateStructMatrix 1 1
                 ["XSize"; "YSize"; "Overview"; "NoDataValue"; "DataType"]) eq_refl)
    as [Hband Hdump].
  split; [exact Hband |].
  apply (Hdump Sample.library "scan.png" Sample.scan eq_refl).
  - simpl. lia.
  - repeat constructor.
Defined.

(** C9.  A call whose options resolve [gdal_dump] to true returns what
    [populate_metadata_struct] returns and performs no windowed read; and
    no call whatever both reads a window and queries the georeferencing
    (which only the metadata path does): the two paths never both run. *)
Theorem dump_mode_excludes_raster_read
    (lib : Library) (nlhs : Z) (prhs : list mxArray) :
  (Forall (fun e => is_raster_io e = false) (snd (mexFunction lib nlhs prhs)) \/
   Forall (fun e => is_metadata_query e = false) (snd (mexFunction lib nlhs prhs))) /\
  (forall gdal_filename o,
     fst (read_arguments nlhs prhs) = Done (gdal_filename, o) ->
     gdal_dump o <> 0 ->
     fst (mexFunction lib nlhs prhs) = fst (populate_metadata_struct lib gdal_filename) /\
     Forall (fun e => is_raster_io e = false) (snd (mexFunction lib nlhs prhs))).
Proof.
  pose proof (read_arguments_emits nlhs prhs) as Hargs. unfold emits in Hargs.
  assert (Hdump : forall gdal_filename o,
     fst (read_arguments nlhs prhs) = Done (gdal_filename, o) ->
     gdal_dump o <> 0 ->
     fst (mexFunction lib nlhs prhs) = fst (populate_metadata_struct lib gdal_filename) /\
     Forall (fun e => is_raster_io e = false) (snd (mexFunction lib nlhs prhs))).
  { intros gdal_filename o Hdone Hflag.
    rewrite (mexFunction_dispatch lib nlhs prhs gdal_filename o Hdone).
    destruct (Z.eqb_spec (gdal_dump o) 0) as [? | _]; [contradiction |]. simpl.
    split; [reflexivity |].
    apply Forall_app. split.
    - revert Hargs. apply List.Forall_impl. intros e [H _]. exact H.
    - apply populate_metadata_struct_emits. }
  split; [| exact Hdump].
  destruct (fst (read_arguments nlhs prhs)) as [[gdal_filename o] | msg |] eqn:Hdone.
  - destruct (Z.eq_dec (gdal_dump o) 0) as [Hflag | Hflag].
    + right. rewrite (mexFunction_dispatch lib nlhs prhs gdal_filename o Hdone).
      rewrite Hflag. simpl. apply Forall_app. split.
      * revert Hargs. apply List.Forall_impl. intros e [_ H]. exact H.
      * apply read_raster_emits.
    + left. apply (Hdump gdal_filename o eq_refl Hflag).
  - left. rewrite mexFunction_stops by (rewrite Hdone; discriminate).
    revert Hargs. apply List.Forall_impl. intros e [H _]. exact H.
  - left. rewrite mexFunction_stops by (rewrite Hdone; discriminate).
    revert Hargs. apply List.Forall_impl. intros e [H _]. exact H.
Qed.

(** A dump of the two-band sample. *)
Lemma dump_mode_excludes_raster_read_witness :
  fst (mexFunction Sample.library 1
         [Sample.filename "two.tif";
          Sample.options_struct [("gdal_dump", Sample.scalar 1%float)]]) =
    fst (populate_metadata_struct Sample.library "two.tif") /\
  Forall (fun e => is_raster_io e = false)
    (snd (mexFunction Sample.library 1
            [Sample.filename "two.tif";
             Sample.options_struct [("gdal_dump", Sample.scalar 1%float)]])).
Proof.
  apply (proj2 (dump_mode_excludes_raster_read Sample.library 1
                  [Sample.filename "two.tif";
                   Sample.options_struct [("gdal_dump", Sample.scalar 1%float)]])
               "two.tif" (set_gdal_dump 1 default_options));
    [reflexivity | discriminate].
Defined.

(** C10.  The verbose flag has no influence on the result of the raster
    path: two runs that differ only in [mexgdal_verbose] end the same way,
    with the same array (class, dimensions and elements) or the same
    error. *)
Theorem verbose_flag_noninterference
    (lib : Library) (gdal_filename : string) (o : options) (verbose1 verbose2 : Z) :
  fst (read_raster lib gdal_filename (set_mexgdal_verbose verbose1 o)) =
  fst (read_raster lib gdal_filename (set_mexgdal_verbose verbose2 o)).
Proof.
  assert (Hsel : forall v hDataset,
            select_band hDataset (set_mexgdal_verbose v o) = select_band hDataset o)
    by reflexivity.
  assert (Hrun : forall v,
    fst (read_raster lib gdal_filename (set_mexgdal_verbose v o)) =
    fst (read_raster lib gdal_filename (set_mexgdal_verbose 0 o))).
  { intros v. destruct (Open lib gdal_filename) as [hDataset |] eqn:HO.
    - destruct (select_band hDataset o) as [hBand |] eqn:HS.
      + rewrite !(fst_read_raster lib gdal_filename _ hDataset hBand HO)
          by (rewrite Hsel; exact HS).
        cbv zeta.
        assert (Hw : forall v',
          resolve_window (BandXSize hBand) (BandYSize hBand) (set_mexgdal_verbose v' o) =
          set_mexgdal_verbose v' (resolve_window (BandXSize hBand) (BandYSize hBand) o)).
        { intros v'. rewrite !resolve_window_fields. reflexivity. }
        rewrite !Hw. reflexivity.
      + unfold read_raster. rewrite HO, !Hsel, HS. reflexivity.
    - unfold read_raster. rewrite HO. reflexivity. }
  rewrite (Hrun verbose1), (Hrun verbose2). reflexivity.
Qed.

(** * Further properties of the gateway *)

(** ** The transposition *)

(** Every cell of the output is written: the one at position [k] receives
    the sample of row [k mod yout] and column [k / yout]. *)
Lemma transpose_loops_cell {A : Type} (xout yout : Z)
    (void_buffer transpose_buffer : list A) (k : Z) :
  0 <= xout -> 0 <= yout -> xout * yout <= Int.max_signed ->
  Z.of_nat (length void_buffer) = xout * yout ->
  Z.of_nat (length transpose_buffer) = xout * yout ->
  0 <= k < xout * yout ->
  load (transpose_loops xout yout void_buffer transpose_buffer) k =
    load void_buffer ((k mod yout) * xout + k / yout).
Proof.
  intros Hx Hy Hmax Hlv Hlt Hk.
  assert (Hypos : 0 < yout) by nia.
  destruct (transpose_loops_spec xout yout void_buffer transpose_buffer
              Hx Hy Hmax Hlv Hlt) as [_ Hcells].
  pose proof (Z.mod_pos_bound k yout Hypos) as Hrow.
  assert (Hcol : 0 <= k / yout < xout).
  { split; [apply Z.div_pos; lia |]. apply Z.div_lt_upper_bound; lia. }
  destruct (Hcells (k mod yout) (k / yout) Hrow Hcol) as [Hcell _].
  rewrite <- Hcell. f_equal.
  pose proof (Z.div_mod k yout ltac:(lia)). lia.
Qed.

Lemma load_eq_list_eq {A : Type} (l1 l2 : list A) :
  length l1 = length l2 ->
  (forall k, 0 <= k < Z.of_nat (length l1) -> load l1 k = load l2 k) ->
  l1 = l2.
Proof.
  intros Hlen Hload. apply list_eq. intros i.
  destruct (Nat.lt_ge_cases i (length l1)) as [Hlt | Hge].
  - specialize (Hload (Z.of_nat i) ltac:(lia)).
    rewrite !load_lookup, Nat2Z.id in Hload by lia. exact Hload.
  - rewrite !lookup_ge_None_2 by lia. reflexivity.
Qed.

(** X1.  Transposing a buffer of [yout] rows and [xout] columns and then
    transposing the result with the two sizes exchanged gives the buffer
    back, whatever the destination buffers held before. *)
Theorem transpose_round_trip {A : Type} (xout yout : Z)
    (void_buffer transpose_buffer transpose_buffer' : list A) :
  0 <= xout -> 0 <= yout -> xout * yout <= Int.max_signed ->
  Z.of_nat (length void_buffer) = xout * yout ->
  Z.of_nat (length transpose_buffer) = xout * yout ->
  Z.of_nat (length transpose_buffer') = xout * yout ->
  transpose_loops yout xout
    (transpose_loops xout yout void_buffer transpose_buffer) transpose_buffer' =
  void_buffer.
Proof.
  intros Hx Hy Hmax Hlv Hlt Hlt'.
  pose proof (length_transpose_loops xout yout void_buffer transpose_buffer) as Hl1.
  apply load_eq_list_eq.
  - rewrite length_transpose_loops. lia.
  - rewrite length_transpose_loops. intros k Hk.
    assert (Hxpos : 0 < xout) by nia.
    rewrite transpose_loops_cell by lia.
    pose proof (Z.mod_pos_bound k xout Hxpos) as Hcol.
    assert (Hrow : 0 <= k / xout < yout).
    { split; [apply Z.div_pos; lia |]. apply Z.div_lt_upper_bound; lia. }
    rewrite transpose_loops_cell by nia.
    f_equal.
    assert (Hypos : 0 < yout) by lia.
    replace ((k mod xout * yout + k / xout) mod yout) with (k / xout).
    2:{ rewrite Z.add_comm, Z.mod_add by lia. symmetry. apply Z.mod_small. lia. }
    replace ((k mod xout * yout + k / xout) / yout) with (k mod xout).
    2:{ rewrite Z.add_comm, Z.div_add by lia. rewrite Z.div_small by lia. lia. }
    pose proof (Z.div_mod k xout ltac:(lia)). lia.
Qed.

Lemma transpose_round_trip_witness :
  transpose_loops 2 3 (transpose_loops 3 2 [1; 2; 3; 4; 5; 6] [0; 0; 0; 0; 0; 0])
                  [9; 9; 9; 9; 9; 9] = [1; 2; 3; 4; 5; 6].
Proof.
  apply (transpose_round_trip 3 2 [1; 2; 3; 4; 5; 6] [0; 0; 0; 0; 0; 0] [9; 9; 9; 9; 9; 9]);
    vm_compute; first [reflexivity | discriminate].
Defined.

(** X2.  The transposition overwrites every cell of its destination: the
    result does not depend on what the destination held (the zeroes of
    [mxCalloc] never show), and it holds the same samples as the source,
    in another order. *)
Theorem transpose_overwrites_every_cell {A : Type} (xout yout : Z)
    (void_buffer transpose_buffer transpose_buffer' : list A) :
  0 <= xout -> 0 <= yout -> xout * yout <= Int.max_signed ->
  Z.of_nat (length void_buffer) = xout * yout ->
  Z.of_nat (length transpose_buffer) = xout * yout ->
  Z.of_nat (length transpose_buffer') = xout * yout ->
  transpose_loops xout yout void_buffer transpose_buffer =
  transpose_loops xout yout void_buffer transpose_buffer' /\
  forall v, In v (transpose_loops xout yout void_buffer transpose_buffer) <->
            In v void_buffer.
Proof.
  intros Hx Hy Hmax Hlv Hlt Hlt'. split.
  - apply load_eq_list_eq.
    + rewrite !length_transpose_loops. lia.
    + rewrite length_transpose_loops. intros k Hk.
      rewrite !transpose_loops_cell by lia. reflexivity.
  - intros v. split.
    + intros Hin. apply list_elem_of_In, list_elem_of_lookup in Hin as [i Hi].
      assert (Hlt_i : (i < length (transpose_loops xout yout void_buffer transpose_buffer))%nat)
        by (apply lookup_lt_Some in Hi; exact Hi).
      rewrite length_transpose_loops in Hlt_i.
      assert (Hcell := transpose_loops_cell xout yout void_buffer transpose_buffer
                         (Z.of_nat i) Hx Hy Hmax Hlv Hlt ltac:(lia)).
      rewrite load_lookup, Nat2Z.id, Hi in Hcell by lia.
      symmetry in Hcell. unfold load in Hcell.
      destruct (_ <? 0); [discriminate |].
      apply list_elem_of_In. apply (list_elem_of_lookup_2 _ _ _ Hcell).
    + intros Hin. apply list_elem_of_In, list_elem_of_lookup in Hin as [i Hi].
      assert (Hlt_i : (i < length void_buffer)%nat) by (apply lookup_lt_Some in Hi; exact Hi).
      assert (Hrt := transpose_round_trip xout yout void_buffer transpose_buffer
                       transpose_buffer Hx Hy Hmax Hlv Hlt Hlt).
      assert (Hcell := transpose_loops_cell yout xout
                         (transpose_loops xout yout void_buffer transpose_buffer)
                         transpose_buffer (Z.of_nat i) Hy Hx ltac:(lia)
                         ltac:(rewrite length_transpose_loops; lia) ltac:(lia) ltac:(lia)).
      rewrite Hrt, load_lookup, Nat2Z.id, Hi in Hcell by lia.
      symmetry in Hcell. unfold load in Hcell.
      destruct (_ <? 0); [discriminate |].
      apply list_elem_of_In. apply (list_elem_of_lookup_2 _ _ _ Hcell).
Qed.

Lemma transpose_overwrites_every_cell_witness :
  transpose_loops 3 2 [1; 2; 3; 4; 5; 6] [0; 0; 0; 0; 0; 0] =
  transpose_loops 3 2 [1; 2; 3; 4; 5; 6] [9; 9; 9; 9; 9; 9] /\
  forall v, In v (transpose_loops 3 2 [1; 2; 3; 4; 5; 6] [0; 0; 0; 0; 0; 0]) <->
            In v [1; 2; 3; 4; 5; 6].
Proof.
  apply (transpose_overwrites_every_cell 3 2 [1; 2; 3; 4; 5; 6]
           [0; 0; 0; 0; 0; 0] [9; 9; 9; 9; 9; 9]);
    vm_compute; first [reflexivity | discriminate].
Defined.

(** ** The calls of the raster path *)

Lemma filter_when_printf (p : event -> bool) (c : bool) (fmt : string)
    (args : list printf_arg) :
  p (EvPrintf (sprintf fmt args)) = false ->
  List.filter p (snd (when c (mexPrintf fmt args))) = [].
Proof. intros Hp. destruct c; simpl; [rewrite Hp |]; reflexivity. Qed.

(** The GDAL calls of the verbose summary: the minimum and maximum are
    computed only when GDAL does not know both. *)
Lemma gdal_calls_print_band_summary (lib : Library) (hBand : RasterBand)
    (gdal_type RasterXSize RasterYSize : Z) (o : options) :
  List.filter is_gdal_call
    (snd (print_band_summary lib hBand gdal_type RasterXSize RasterYSize o)) =
  if negb (snd (RasterMinimum hBand) =? 0) && negb (snd (RasterMaximum hBand) =? 0)
  then [] else [EvGDALComputeRasterMinMax].
Proof.
  unfold print_band_summary.
  destruct (RasterMinimum hBand) as [minimum bGotMin].
  destruct (RasterMaximum hBand) as [maximum bGotMax]. simpl.
  destruct (negb (bGotMin =? 0) && negb (bGotMax =? 0)); reflexivity.
Qed.

(** The trace of the raster path when the window is sane. *)
(** X3.  A raster call on a sane window makes these calls into GDAL and no
    others, in this order: it opens the file, computes the minimum and
    maximum only if it is verbose and GDAL does not know both, reads the
    resolved window once, into a byte buffer for a byte band and into a
    [GDT_Float64] buffer otherwise, and closes the file. *)
Theorem raster_path_reads_once
    (lib : Library) (gdal_filename : string) (o : options)
    (hDataset : Dataset) (hBand : RasterBand) :
  Open lib gdal_filename = Some hDataset ->
  select_band hDataset o = Some hBand ->
  supported_type (RasterDataType hBand) = true ->
  0 <= xout (resolve_window (BandXSize hBand) (BandYSize hBand) o) ->
  0 <= yout (resolve_window (BandXSize hBand) (BandYSize hBand) o) ->
  element_size (RasterDataType hBand) *
    (xout (resolve_window (BandXSize hBand) (BandYSize hBand) o) *
     yout (resolve_window (BandXSize hBand) (BandYSize hBand) o)) <= Int.max_signed ->
  let w := resolve_window (BandXSize hBand) (BandYSize hBand) o in
  List.filter is_gdal_call (snd (read_raster lib gdal_filename o)) =
    [EvGDALOpen gdal_filename] ++
    (if negb (mexgdal_verbose o =? 0) &&
        negb (negb (snd (RasterMinimum hBand) =? 0) && negb (snd (RasterMaximum hBand) =? 0))
     then [EvGDALComputeRasterMinMax] else []) ++
    [EvGDALRasterIO (xorigin w) (yorigin w) (xextend w) (yextend w) (xout w) (yout w)
                    (buffer_type (RasterDataType hBand));
     EvGDALClose].
Proof.
  intros HO HS Hsup Hx Hy Hsize w.
  rewrite (snd_read_raster_sane lib gdal_filename o hDataset hBand HO HS Hsup Hx Hy Hsize).
  fold w.
  assert (Hv : mexgdal_verbose w = mexgdal_verbose o).
  { unfold w. rewrite resolve_window_fields. reflexivity. }
  rewrite Hv.
  rewrite !List.filter_app.
  rewrite !filter_when_printf by reflexivity.
  destruct (negb (mexgdal_verbose o =? 0)); simpl.
  - rewrite gdal_calls_print_band_summary.
    destruct (negb (snd (RasterMinimum hBand) =? 0) && negb (snd (RasterMaximum hBand) =? 0));
      reflexivity.
  - reflexivity.
Qed.

Lemma raster_path_reads_once_witness :
  List.filter is_gdal_call (snd (read_raster Sample.library "scan.png" default_options)) =
    [EvGDALOpen "scan.png"; EvGDALComputeRasterMinMax;
     EvGDALRasterIO 0 0 3 2 3 2 GDT_Byte; EvGDALClose].
Proof.
  apply (raster_path_reads_once Sample.library "scan.png" default_options Sample.scan
           (Sample.band 3 2 GDT_Byte 0%float []));
    first [reflexivity | vm_compute; discriminate].
Defined.

Lemma print_band_summary_prints (P : event -> Prop) (lib : Library) (hBand : RasterBand)
    (gdal_type RasterXSize RasterYSize : Z) (o : options) :
  (forall msg, P (EvPrintf msg)) -> P EvGDALComputeRasterMinMax ->
  emits P (print_band_summary lib hBand gdal_type RasterXSize RasterYSize o).
Proof. intros Hprint Hcompute. unfold print_band_summary. emits_auto; auto. Qed.

Lemma read_and_transpose_reads (P : event -> Prop) (hBand : RasterBand)
    (gdal_type : Z) (o : options) :
  (forall e, is_raster_io e = true -> P e) ->
  emits P (read_and_transpose hBand gdal_type o).
Proof.
  intros HP. unfold read_and_transpose, mxCalloc, mxCreateNumericArray.
  emits_auto; apply HP; reflexivity.
Qed.

(** X4.  The error code of [GDALRasterIO] is never looked at: when the
    read fails, on a window whose size in bytes is an [int], the call
    still returns an array of the requested size,
    filled with whatever the read left in the buffer, and raises neither
    an error nor a warning. *)
Theorem read_failure_is_not_reported
    (lib : Library) (gdal_filename : string) (o : options)
    (hDataset : Dataset) (hBand : RasterBand) :
  Open lib gdal_filename = Some hDataset ->
  select_band hDataset o = Some hBand ->
  supported_type (RasterDataType hBand) = true ->
  0 <= xout (resolve_window (BandXSize hBand) (BandYSize hBand) o) ->
  0 <= yout (resolve_window (BandXSize hBand) (BandYSize hBand) o) ->
  element_size (RasterDataType hBand) *
    (xout (resolve_window (BandXSize hBand) (BandYSize hBand) o) *
     yout (resolve_window (BandXSize hBand) (BandYSize hBand) o)) <= Int.max_signed ->
  raster_io_error hBand (resolve_window (BandXSize hBand) (BandYSize hBand) o) <> CE_None ->
  let w := resolve_window (BandXSize hBand) (BandYSize hBand) o in
  exists mxGDALraster,
    fst (read_raster lib gdal_filename o) = Done mxGDALraster /\
    mxGetM mxGDALraster = yout w /\ mxGetN mxGDALraster = xout w /\
    (forall row col, 0 <= row < yout w -> 0 <= col < xout w ->
       element mxGDALraster (col * yout w + row) =
         Some (decoded hBand w (row * xout w + col))) /\
    Forall (fun e => is_warning e = false) (snd (read_raster lib gdal_filename o)).
Proof.
  intros HO HS Hsup Hx Hy Hsize _ w.
  exists (fetched_array hBand w).
  split; [apply (read_raster_sane lib gdal_filename o hDataset hBand HO HS Hsup Hx Hy Hsize) |].
  split; [unfold fetched_array; destruct (_ =? _); reflexivity |].
  split; [unfold fetched_array; destruct (_ =? _); reflexivity |].
  split.
  - intros row col Hrow Hcol. apply element_fetched_array; try assumption.
    assert (0 <= xout w * yout w) by (apply Z.mul_nonneg_nonneg; assumption).
    fold w in Hsize. unfold element_size in Hsize. clearbody w. destruct (_ =? _); lia.
  - rewrite (snd_read_raster_sane lib gdal_filename o hDataset hBand HO HS Hsup Hx Hy Hsize).
    fold w. repeat (apply Forall_app; split); try (repeat constructor).
    + apply emits_when, print_band_summary_prints; reflexivity.
    + apply emits_when, emits_emit. reflexivity.
    + apply emits_when, emits_emit. reflexivity.
    + apply emits_when, emits_emit. reflexivity.
Qed.

Lemma read_failure_is_not_reported_witness :
  exists mxGDALraster,
    fst (read_raster Sample2.library "damaged.png" default_options) = Done mxGDALraster /\
    mxGetM mxGDALraster = 2 /\ mxGetN mxGDALraster = 3 /\
    (forall row col, 0 <= row < 2 -> 0 <= col < 3 ->
       element mxGDALraster (col * 2 + row) =
         Some (decoded Sample2.unreadable_band (resolve_window 3 2 default_options)
                       (row * 3 + col))) /\
    Forall (fun e => is_warning e = false)
           (snd (read_raster Sample2.library "damaged.png" default_options)).
Proof.
  apply (read_failure_is_not_reported Sample2.library "damaged.png" default_options
           Sample2.damaged Sample2.unreadable_band);
    first [reflexivity | vm_compute; discriminate].
Defined.

(** X5.  With [verbose] set to 0 the raster path prints nothing, warns of
    nothing and never asks GDAL to compute the minimum and maximum of the
    band: its only calls are [GDALOpen], at most one [GDALRasterIO], and
    [GDALClose]. *)
Theorem quiet_raster_path (lib : Library) (gdal_filename : string) (o : options) :
  mexgdal_verbose o = 0 ->
  Forall (fun e => e = EvGDALOpen gdal_filename \/ is_raster_io e = true \/ e = EvGDALClose)
         (snd (read_raster lib gdal_filename o)).
Proof.
  intros Hquiet. unfold read_raster.
  apply emits_bind; [apply emits_emit; left; reflexivity | intros _].
  destruct (Open lib gdal_filename) as [hDataset |]; [| emits_auto].
  destruct (select_band hDataset o) as [hBand |]; [| apply emits_undefined].
  assert (Hv : mexgdal_verbose (resolve_window (BandXSize hBand) (BandYSize hBand) o) = 0).
  { rewrite resolve_window_fields. exact Hquiet. }
  rewrite Hv. simpl (negb _). unfold when.
  apply emits_bind; [apply emits_ret | intros _].
  apply emits_bind; [apply emits_ret | intros _].
  apply emits_bind; [apply read_and_transpose_reads; auto | intros [[arr tb] sz]].
  apply emits_bind; [apply emits_ret | intros _].
  apply emits_bind; [apply emits_copy_into_matlab_array | intros mxGDALraster].
  apply emits_bind; [apply emits_ret | intros _].
  apply emits_bind; [apply emits_emit; auto | intros _; apply emits_ret].
Qed.

Lemma quiet_raster_path_witness :
  Forall (fun e => e = EvGDALOpen "scan.png" \/ is_raster_io e = true \/ e = EvGDALClose)
         (snd (read_raster Sample.library "scan.png" (set_mexgdal_verbose 0 default_options))).
Proof.
  apply (quiet_raster_path Sample.library "scan.png" (set_mexgdal_verbose 0 default_options)).
  reflexivity.
Defined.

(** ** Structure arrays *)

Lemma field_number_lt (names : list string) (name : string) (k : nat) :
  field_number names name = Some k -> (k < length names)%nat.
Proof.
  revert k. induction names as [| n names IH]; intros k; simpl; [discriminate |].
  destruct (String.eqb n name); [intros [= <-]; lia |].
  destruct (field_number names name) as [i |]; simpl; [| discriminate].
  intros [= <-]. specialize (IH i eq_refl). lia.
Qed.

Lemma struct_has_fresh (m : Z) (names : list string) :
  struct_has (mxCreateStructMatrix m 1 names) (Z.to_nat m) names.
Proof.
  unfold struct_has, mxCreateStructMatrix.
  exists m, 1, (replicate (Z.to_nat (m * 1)) (replicate (length names) None)).
  split; [reflexivity | split].
  - rewrite length_replicate. f_equal. lia.
  - apply Forall_replicate. apply length_replicate.
Qed.

Lemma struct_has_mxSetField (a : mxArray) (count : nat) (names : list string)
    (i : Z) (name : string) (v : mxArray) :
  struct_has a count names -> struct_has (mxSetField a i name v) count names.
Proof.
  intros (m & n & elements & -> & Hlen & Hall). unfold mxSetField.
  destruct (field_number names name) as [k |]; [| exists m, n, elements; auto].
  destruct (i <? 0); [exists m, n, elements; auto |].
  eexists m, n, _. split; [reflexivity | split].
  - rewrite length_alter. exact Hlen.
  - rewrite Forall_forall in *. intros fields Hin.
    apply list_elem_of_lookup in Hin as [j Hj].
    rewrite list_lookup_alter in Hj.
    destruct (decide (Z.to_nat i = j)) as [<- | _].
    + destruct (elements !! Z.to_nat i) as [fields0 |] eqn:Hj0; [| discriminate].
      simpl in Hj. injection Hj as <-. rewrite length_insert.
      apply Hall. apply (list_elem_of_lookup_2 _ _ _ Hj0).
    + apply Hall. apply (list_elem_of_lookup_2 _ _ _ Hj).
Qed.

(** Reading back the field just written. *)
Lemma mxGetField_mxSetField_same (a : mxArray) (count : nat) (names : list string)
    (i : Z) (name : string) (v : mxArray) :
  struct_has a count names -> 0 <= i < Z.of_nat count -> In name names ->
  mxGetField (mxSetField a i name v) i name = Some v.
Proof.
  intros (m & n & elements & -> & Hlen & Hall) Hi Hname.
  assert (Hk : exists k, field_number names name = Some k).
  { clear -Hname. induction names as [| x names IH]; [destruct Hname |]. simpl.
    destruct (String.eqb_spec x name) as [_ | Hne]; [eauto |].
    destruct Hname as [Heq | Hin]; [contradiction |].
    destruct (IH Hin) as [k ->]. simpl. eauto. }
  destruct Hk as [k Hk]. unfold mxSetField. rewrite Hk.
  destruct (Z.ltb_spec i 0); [lia |].
  unfold mxGetField. rewrite Hk. unfold mxGetFieldByNumber.
  destruct (Z.ltb_spec i 0); [lia |]. destruct (Z.ltb_spec (Z.of_nat k) 0); [lia |]. simpl.
  rewrite list_lookup_alter_eq.
  destruct (lookup_lt_is_Some_2 elements (Z.to_nat i)) as [fields Hfields]; [lia |].
  rewrite Hfields. simpl. rewrite Nat2Z.id.
  rewrite list_lookup_insert_eq; [reflexivity |].
  rewrite Forall_forall in Hall.
  rewrite (Hall fields (list_elem_of_lookup_2 _ _ _ Hfields)).
  apply (field_number_lt _ _ _ Hk).
Qed.

Lemma mxGetN_mxSetField (a : mxArray) (i : Z) (name : string) (v : mxArray) :
  mxGetN (mxSetField a i name v) = mxGetN a.
Proof.
  destruct a as [| | | m n names elements |]; try reflexivity.
  unfold mxSetField. destruct (field_number names name); [| reflexivity].
  destruct (i <? 0); reflexivity.
Qed.

(** ** Loops with an invariant that follows the counter *)

Lemma for_loopM_last {S : Type} (lo hi : Z) (body : Z -> S -> M S) (s : S) :
  lo <= hi ->
  for_loopM lo (hi + 1) body s = let* st := for_loopM lo hi body s in body hi st.
Proof.
  intros H. unfold for_loopM.
  replace (Z.to_nat (hi + 1 - lo)) with (Z.to_nat (hi - lo) + 1)%nat by lia.
  rewrite seq_app, fold_left_app. simpl.
  replace (lo + Z.of_nat (Z.to_nat (hi - lo))) with hi by lia. reflexivity.
Qed.

Lemma for_loopM_empty {S : Type} (lo hi : Z) (body : Z -> S -> M S) (s : S) :
  hi <= lo -> for_loopM lo hi body s = ret s.
Proof.
  intros H. unfold for_loopM.
  replace (Z.to_nat (hi - lo)) with 0%nat by lia. reflexivity.
Qed.

Lemma for_loopM_invariant {S : Type} (Q : Z -> S -> Prop) (lo hi : Z)
    (body : Z -> S -> M S) (s : S) :
  lo <= hi ->
  Q lo s ->
  (forall k st, lo <= k < hi -> Q k st ->
     exists st', body k st = (Done st', []) /\ Q (k + 1) st') ->
  exists s', for_loopM lo hi body s = (Done s', []) /\ Q hi s'.
Proof.
  intros Hle H0 Hstep.
  assert (Hgen : forall n : nat, lo + Z.of_nat n <= hi ->
            exists s', for_loopM lo (lo + Z.of_nat n) body s = (Done s', []) /\
                       Q (lo + Z.of_nat n) s').
  { induction n as [| n IH]; intros Hn.
    - rewrite Z.add_0_r, for_loopM_empty by lia. exists s. split; [reflexivity | exact H0].
    - replace (lo + Z.of_nat (Datatypes.S n)) with (lo + Z.of_nat n + 1) by lia.
      destruct IH as (st & Hst & HQ); [lia |].
      destruct (Hstep (lo + Z.of_nat n) st ltac:(lia) HQ) as (st' & Hst' & HQ').
      exists st'. split; [| exact HQ'].
      rewrite for_loopM_last by lia. rewrite Hst. simpl. rewrite Hst'. reflexivity. }
  specialize (Hgen (Z.to_nat (hi - lo))).
  replace (lo + Z.of_nat (Z.to_nat (hi - lo))) with hi in Hgen by lia.
  apply Hgen. lia.
Qed.

(** ** The arrays of the metadata structure *)

(** The driver loop fills one entry per driver, in the order of the
    registry, and does nothing else. *)
Lemma driver_structure_spec (lib : Library) :
  exists driver_struct,
    driver_structure lib = (Done driver_struct, []) /\
    mxGetM driver_struct = GetDriverCount lib /\
    forall j hDriver, Drivers lib !! j = Some hDriver ->
      mxGetField driver_struct (Z.of_nat j) "DriverLongName" =
        Some (mxCreateString (DriverLongName hDriver)) /\
      mxGetField driver_struct (Z.of_nat j) "DriverShortName" =
        Some (mxCreateString (DriverShortName hDriver)).
Proof.
  set (names := ["DriverLongName"; "DriverShortName"]).
  unfold driver_structure. fold names.
  destruct (for_loopM_invariant
    (fun k st =>
       struct_has st (length (Drivers lib)) names /\
       mxGetM st = GetDriverCount lib /\
       forall j hDriver, Z.of_nat j < k -> Drivers lib !! j = Some hDriver ->
         mxGetField st (Z.of_nat j) "DriverLongName" =
           Some (mxCreateString (DriverLongName hDriver)) /\
         mxGetField st (Z.of_nat j) "DriverShortName" =
           Some (mxCreateString (DriverShortName hDriver)))
    0 (GetDriverCount lib)
    (fun j driver_struct =>
       match GetDriver lib j with
       | None => undefined
       | Some hDriver =>
           ret (mxSetField
                  (mxSetField driver_struct j "DriverLongName"
                     (mxCreateString (DriverLongName hDriver)))
                  j "DriverShortName" (mxCreateString (DriverShortName hDriver)))
       end)
    (mxCreateStructMatrix (GetDriverCount lib) 1 names))
    as (drv & Hrun & _ & Hm & Hfields).
  - unfold GetDriverCount. lia.
  - split; [| split; [reflexivity | intros; lia]].
    unfold GetDriverCount.
    replace (length (Drivers lib)) with (Z.to_nat (Z.of_nat (length (Drivers lib)))) at 2 by lia.
    apply struct_has_fresh.
  - intros k st Hk (Hhas & Hm & Hfields). unfold GetDriver, GetDriverCount in *.
    destruct (Z.ltb_spec k 0); [lia |].
    destruct (lookup_lt_is_Some_2 (Drivers lib) (Z.to_nat k)) as [d Hd]; [lia |].
    rewrite Hd. eexists. split; [reflexivity |].
    split; [apply struct_has_mxSetField, struct_has_mxSetField, Hhas |].
    split; [rewrite !mxGetM_mxSetField; exact Hm |].
    intros j hDriver Hj Hlookup.
    destruct (Z.eq_dec (Z.of_nat j) k) as [Heq | Hne].
    + subst k. rewrite Nat2Z.id in Hd. rewrite Hd in Hlookup. injection Hlookup as <-.
      split.
      * rewrite mxGetField_mxSetField_other_name by discriminate.
        apply (mxGetField_mxSetField_same _ (length (Drivers lib)) names);
          [exact Hhas | lia | simpl; tauto].
      * apply (mxGetField_mxSetField_same _ (length (Drivers lib)) names);
          [apply struct_has_mxSetField, Hhas | lia | simpl; tauto].
    + rewrite !mxGetField_mxSetField_other by lia. apply Hfields; [lia | exact Hlookup].
  - exists drv. split; [exact Hrun | split; [exact Hm |]].
    intros j hDriver Hlookup. apply Hfields; [| exact Hlookup].
    apply lookup_lt_Some in Hlookup. unfold GetDriverCount. lia.
Qed.

(** [handle_overviews] in full: with no overview it does nothing; with
    some it stores, in the [Overview] field of the first element of the
    band structure, an array with one entry per overview holding its
    size. *)
Lemma handle_overviews_spec (hBand : RasterBand) (band_struct : mxArray) :
  exists band_struct',
    handle_overviews hBand band_struct = (Done band_struct', []) /\
    ((Overviews hBand = [] /\ band_struct' = band_struct) \/
     (Overviews hBand <> [] /\
      exists overview_struct,
        band_struct' = mxSetField band_struct 0 "Overview" overview_struct /\
        mxGetM overview_struct = GetOverviewCount hBand /\
        mxGetN overview_struct = 1 /\
        forall i overview, Overviews hBand !! i = Some overview ->
          mxGetField overview_struct (Z.of_nat i) "XSize" =
            Some (mxCreateDoubleScalar (Int.to_double (BandXSize overview))) /\
          mxGetField overview_struct (Z.of_nat i) "YSize" =
            Some (mxCreateDoubleScalar (Int.to_double (BandYSize overview))))).
Proof.
  destruct (Overviews hBand) as [| ov0 rest] eqn:Hovs.
  - exists band_struct. split; [apply handle_overviews_none; exact Hovs | left; auto].
  - set (names := ["XSize"; "YSize"]).
    unfold handle_overviews. fold names.
    assert (Hpos : (0 <? GetOverviewCount hBand) = true).
    { unfold GetOverviewCount. rewrite Hovs. reflexivity. }
    rewrite Hpos.
    destruct (for_loopM_invariant
      (fun k st =>
         struct_has st (length (Overviews hBand)) names /\
         mxGetM st = GetOverviewCount hBand /\ mxGetN st = 1 /\
         forall i overview, Z.of_nat i < k -> Overviews hBand !! i = Some overview ->
           mxGetField st (Z.of_nat i) "XSize" =
             Some (mxCreateDoubleScalar (Int.to_double (BandXSize overview))) /\
           mxGetField st (Z.of_nat i) "YSize" =
             Some (mxCreateDoubleScalar (Int.to_double (BandYSize overview))))
      0 (GetOverviewCount hBand)
      (fun overview overview_struct =>
         match GetOverview hBand overview with
         | None => undefined
         | Some overview_hBand =>
             ret (mxSetField
                    (mxSetField overview_struct overview "XSize"
                       (mxCreateDoubleScalar (Int.to_double (BandXSize overview_hBand))))
                    overview "YSize"
                    (mxCreateDoubleScalar (Int.to_double (BandYSize overview_hBand))))
         end)
      (mxCreateStructMatrix (GetOverviewCount hBand) 1 names))
      as (ovs & Hrun & _ & Hm & Hn & Hfields).
    + unfold GetOverviewCount. lia.
    + split; [| split; [reflexivity | split; [reflexivity | intros; lia]]].
      unfold GetOverviewCount.
      replace (length (Overviews hBand))
        with (Z.to_nat (Z.of_nat (length (Overviews hBand)))) at 2 by lia.
      apply struct_has_fresh.
    + intros k st Hk (Hhas & Hm & Hn & Hfields). unfold GetOverview, GetOverviewCount in *.
      destruct (Z.ltb_spec k 0); [lia |].
      destruct (lookup_lt_is_Some_2 (Overviews hBand) (Z.to_nat k)) as [ov Hov]; [lia |].
      rewrite Hov. eexists. split; [reflexivity |].
      split; [apply struct_has_mxSetField, struct_has_mxSetField, Hhas |].
      split; [rewrite !mxGetM_mxSetField; exact Hm |].
      split; [rewrite !mxGetN_mxSetField; exact Hn |].
      intros i overview Hi Hlookup.
      destruct (Z.eq_dec (Z.of_nat i) k) as [Heq | Hne].
      * subst k. rewrite Nat2Z.id in Hov. rewrite Hov in Hlookup. injection Hlookup as <-.
        split.
        -- rewrite mxGetField_mxSetField_other_name by discriminate.
           apply (mxGetField_mxSetField_same _ (length (Overviews hBand)) names);
             [exact Hhas | lia | simpl; tauto].
        -- apply (mxGetField_mxSetField_same _ (length (Overviews hBand)) names);
             [apply struct_has_mxSetField, Hhas | lia | simpl; tauto].
      * rewrite !mxGetField_mxSetField_other by lia. apply Hfields; [lia | exact Hlookup].
    + exists (mxSetField band_struct 0 "Overview" ovs). split.
      * rewrite Hrun. reflexivity.
      * right. rewrite <- Hovs. split; [rewrite Hovs; discriminate |].
        exists ovs. split; [reflexivity | split; [exact Hm | split; [exact Hn |]]].
        intros i overview Hlookup. apply Hfields; [| exact Hlookup].
        apply lookup_lt_Some in Hlookup. unfold GetOverviewCount. lia.
Qed.

(** The band loop creates one entry per band but writes every band to
    the first: when it ends, the first entry holds the values of the last
    band. *)
Lemma band_structure_spec (lib : Library) (hDataset : Dataset) :
  exists band_struct,
    band_structure lib hDataset = (Done band_struct, []) /\
    mxGetM band_struct = GetRasterCount hDataset /\
    forall hBand, last (Bands hDataset) = Some hBand ->
      mxGetField band_struct 0 "XSize" =
        Some (mxCreateDoubleScalar (Int.to_double (BandXSize hBand))) /\
      mxGetField band_struct 0 "YSize" =
        Some (mxCreateDoubleScalar (Int.to_double (BandYSize hBand))) /\
      mxGetField band_struct 0 "DataType" =
        Some (mxCreateString (DataTypeName lib (RasterDataType hBand))) /\
      mxGetField band_struct 0 "NoDataValue" =
        Some (mxCreateDoubleScalar (NoDataValue hBand)).
Proof.
  set (names := ["XSize"; "YSize"; "Overview"; "NoDataValue"; "DataType"]).
  set (count := length (Bands hDataset)).
  assert (Hloop : exists band_struct,
    band_structure lib hDataset = (Done band_struct, []) /\
    (struct_has band_struct count names /\
     mxGetM band_struct = GetRasterCount hDataset /\
     forall hBand, 2 <= GetRasterCount hDataset + 1 ->
       Bands hDataset !! Z.to_nat (GetRasterCount hDataset + 1 - 2) = Some hBand ->
       mxGetField band_struct 0 "XSize" =
         Some (mxCreateDoubleScalar (Int.to_double (BandXSize hBand))) /\
       mxGetField band_struct 0 "YSize" =
         Some (mxCreateDoubleScalar (Int.to_double (BandYSize hBand))) /\
       mxGetField band_struct 0 "DataType" =
         Some (mxCreateString (DataTypeName lib (RasterDataType hBand))) /\
       mxGetField band_struct 0 "NoDataValue" =
         Some (mxCreateDoubleScalar (NoDataValue hBand)))).
  { unfold band_structure. fold names.
    apply (for_loopM_invariant
      (fun k st =>
         struct_has st count names /\
         mxGetM st = GetRasterCount hDataset /\
         forall hBand, 2 <= k -> Bands hDataset !! Z.to_nat (k - 2) = Some hBand ->
           mxGetField st 0 "XSize" =
             Some (mxCreateDoubleScalar (Int.to_double (BandXSize hBand))) /\
           mxGetField st 0 "YSize" =
             Some (mxCreateDoubleScalar (Int.to_double (BandYSize hBand))) /\
           mxGetField st 0 "DataType" =
             Some (mxCreateString (DataTypeName lib (RasterDataType hBand))) /\
           mxGetField st 0 "NoDataValue" =
             Some (mxCreateDoubleScalar (NoDataValue hBand)))).
    - unfold GetRasterCount. lia.
    - split; [| split; [reflexivity | intros; lia]].
      unfold GetRasterCount, count.
      replace (length (Bands hDataset))
        with (Z.to_nat (Z.of_nat (length (Bands hDataset)))) at 2 by lia.
      apply struct_has_fresh.
    - intros k st Hk (Hhas & Hm & _). unfold GetRasterBand, GetRasterCount in *.
      destruct (Z.ltb_spec k 1); [lia |].
      destruct (lookup_lt_is_Some_2 (Bands hDataset) (Z.to_nat (k - 1))) as [b Hb]; [lia |].
      rewrite Hb.
      match goal with |- context [handle_overviews b ?bs] =>
        destruct (handle_overviews_spec b bs) as (bs' & Hbs' & Hshape);
        assert (Hhas4 : struct_has bs count names)
          by (repeat apply struct_has_mxSetField; exact Hhas)
      end.
      exists bs'. split; [exact Hbs' |].
      assert (Hcount : 0 <= 0 < Z.of_nat count) by (unfold count; lia).
      assert (Hbs : bs' = mxSetField (mxSetField (mxSetField (mxSetField st 0 "XSize"
                 (mxCreateDoubleScalar (Int.to_double (BandXSize b)))) 0 "YSize"
                 (mxCreateDoubleScalar (Int.to_double (BandYSize b)))) 0 "DataType"
                 (mxCreateString (DataTypeName lib (RasterDataType b)))) 0 "NoDataValue"
                 (mxCreateDoubleScalar (NoDataValue b)) \/
              exists ovs, bs' = mxSetField (mxSetField (mxSetField (mxSetField (mxSetField st
                 0 "XSize" (mxCreateDoubleScalar (Int.to_double (BandXSize b)))) 0 "YSize"
                 (mxCreateDoubleScalar (Int.to_double (BandYSize b)))) 0 "DataType"
                 (mxCreateString (DataTypeName lib (RasterDataType b)))) 0 "NoDataValue"
                 (mxCreateDoubleScalar (NoDataValue b))) 0 "Overview" ovs).
      { destruct Hshape as [[_ ->] | [_ (ovs & -> & _)]]; [left; reflexivity | right; eauto]. }
      clear Hshape Hbs'.
      split; [destruct Hbs as [-> | [ovs ->]]; repeat apply struct_has_mxSetField; exact Hhas |].
      split; [destruct Hbs as [-> | [ovs ->]]; rewrite !mxGetM_mxSetField; exact Hm |].
      intros hBand _ Hlast.
      replace (Z.to_nat (k + 1 - 2)) with (Z.to_nat (k - 1)) in Hlast by lia.
      rewrite Hb in Hlast. injection Hlast as <-.
      destruct Hbs as [-> | [ovs ->]];
        (repeat split;
         rewrite ?mxGetField_mxSetField_other_name by discriminate;
         (apply (mxGetField_mxSetField_same _ count names);
          [repeat apply struct_has_mxSetField; exact Hhas | exact Hcount | simpl; tauto])). }
  destruct Hloop as (bs & Hrun & _ & Hm & Hfields).
  exists bs. split; [exact Hrun | split; [exact Hm |]].
  intros hBand Hlast. rewrite last_lookup in Hlast.
  assert (Hlen : (0 < length (Bands hDataset))%nat).
  { apply lookup_lt_Some in Hlast. lia. }
  apply Hfields; [unfold GetRasterCount; lia |].
  rewrite <- Hlast. f_equal. unfold GetRasterCount. lia.
Qed.

(** The six coefficients as [populate_metadata_struct] stores them. *)
Lemma populate_metadata_struct_spec (lib : Library) (gdal_filename : string)
    (hDataset : Dataset) :
  Open lib gdal_filename = Some hDataset ->
  (String.length gdal_filename <= 410)%nat ->
  exists metadata_struct driver_struct band_struct,
    driver_structure lib = (Done driver_struct, []) /\
    band_structure lib hDataset = (Done band_struct, []) /\
    fst (populate_metadata_struct lib gdal_filename) = Done metadata_struct /\
    snd (populate_metadata_struct lib gdal_filename) =
      [EvGDALOpen gdal_filename] ++
      snd (first_success (georeference_strategies lib gdal_filename hDataset)) ++
      match fst (first_success (georeference_strategies lib gdal_filename hDataset)) with
      | Some _ => []
      | None => [no_georeferencing_warning gdal_filename]
      end ++ [EvGDALClose] /\
    mxGetM metadata_struct = 1 /\ mxGetN metadata_struct = 1 /\
    mxGetField metadata_struct 0 "ProjectionRef" =
      Some (mxCreateString (ProjectionRef hDataset)) /\
    mxGetField metadata_struct 0 "GeoTransform" =
      option_map (fun transform =>
                    mxDouble 6 1 (map (fun k => nth k transform 0%float) [0; 1; 2; 3; 4; 5]%nat))
                 (fst (first_success (georeference_strategies lib gdal_filename hDataset))) /\
    mxGetField metadata_struct 0 "DriverShortName" =
      Some (mxCreateString (DriverShortName (DatasetDriver hDataset))) /\
    mxGetField metadata_struct 0 "DriverLongName" =
      Some (mxCreateString (DriverLongName (DatasetDriver hDataset))) /\
    mxGetField metadata_struct 0 "RasterXSize" =
      Some (mxCreateDoubleScalar (Int.to_double (RasterXSize hDataset))) /\
    mxGetField metadata_struct 0 "RasterYSize" =
      Some (mxCreateDoubleScalar (Int.to_double (RasterYSize hDataset))) /\
    mxGetField metadata_struct 0 "RasterCount" =
      Some (mxCreateDoubleScalar (Int.to_double (GetRasterCount hDataset))) /\
    mxGetField metadata_struct 0 "Driver" = Some driver_struct /\
    mxGetField metadata_struct 0 "Band" = Some band_struct.
Proof.
  intros HO Hname.
  assert (Hwarning := proj2 (fits_georeferencing_message gdal_filename) Hname).
  destruct (driver_structure_spec lib) as (drv & Hdrv & _).
  destruct (band_structure_spec lib hDataset) as (bs & Hbs & _).
  destruct (record_geotransform_first_success lib gdal_filename hDataset ltac:(lia))
    as [Hcalls Hfound].
  assert (Hdrv1 : fst (driver_structure lib) = Done drv) by (rewrite Hdrv; reflexivity).
  assert (Hbs1 : fst (band_structure lib hDataset) = Done bs) by (rewrite Hbs; reflexivity).
  assert (Hdrv2 : snd (driver_structure lib) = []) by (rewrite Hdrv; reflexivity).
  assert (Hbs2 : snd (band_structure lib hDataset) = []) by (rewrite Hbs; reflexivity).
  unfold populate_metadata_struct.
  change (for_loopM 0 (GetDriverCount lib) _ _) with (driver_structure lib).
  change (for_loopM 1 (GetRasterCount hDataset + 1) _ _) with (band_structure lib hDataset).
  rewrite (fst_bind _ _ tt) by reflexivity. rewrite (snd_bind _ _ tt) by reflexivity.
  rewrite HO.
  rewrite (fst_bind _ _ drv Hdrv1), (snd_bind _ _ drv Hdrv1), Hdrv2.
  rewrite <- Hcalls.
  destruct (fst (first_success (georeference_strategies lib gdal_filename hDataset)))
    as [transform |].
  - rewrite (fst_bind _ _ (0, transform) Hfound), (snd_bind _ _ (0, transform) Hfound).
    cbv iota. change (0 =? 0) with true. cbv iota.
    rewrite fst_bind_ret. rewrite (snd_bind (ret _) _ _ eq_refl).
    rewrite (fst_bind _ _ bs Hbs1), (snd_bind _ _ bs Hbs1), Hbs2.
    eexists _, drv, bs.
    split; [exact Hdrv |]. split; [exact Hbs |]. split; [reflexivity |].
    split; [simpl; rewrite ?app_nil_r; reflexivity |].
    repeat split; reflexivity.
  - destruct Hfound as [adf Hfound].
    rewrite (fst_bind _ _ (-1, adf) Hfound), (snd_bind _ _ (-1, adf) Hfound).
    cbv iota. change (-1 =? 0) with false. cbv iota.
    rewrite (sprintf_into_fits _ _ _ Hwarning), bind_ret.
    rewrite fst_bind_warn.
    match goal with |- context [snd (bind (mexWarnMsgTxt ?msg ;> ret ?md) ?k)] =>
      rewrite (snd_bind (mexWarnMsgTxt msg ;> ret md) k md eq_refl) end.
    rewrite (fst_bind _ _ bs Hbs1), (snd_bind _ _ bs Hbs1), Hbs2.
    eexists _, drv, bs.
    split; [exact Hdrv |]. split; [exact Hbs |]. split; [reflexivity |].
    split; [simpl; rewrite ?app_nil_r; reflexivity |].
    repeat split; reflexivity.
Qed.

(** ** The metadata dump *)

(** X6.  The dump of a file that opens, under a name of at most 410
    characters (one whose messages fit the buffers they are formatted
    in), makes these calls and raises this warning, and nothing else, in
    this order: [GDALOpen]; the
    georeferencing queries, up to the first that succeeds; the warning
    that no georeferencing exists, exactly when none succeeded;
    [GDALClose].  The loops over the drivers, the bands and the overviews
    leave no trace. *)
Theorem metadata_path_calls (lib : Library) (gdal_filename : string) (hDataset : Dataset) :
  Open lib gdal_filename = Some hDataset ->
  (String.length gdal_filename <= 410)%nat ->
  snd (populate_metadata_struct lib gdal_filename) =
    [EvGDALOpen gdal_filename] ++
    snd (first_success (georeference_strategies lib gdal_filename hDataset)) ++
    match fst (first_success (georeference_strategies lib gdal_filename hDataset)) with
    | Some _ => []
    | None => [no_georeferencing_warning gdal_filename]
    end ++ [EvGDALClose].
Proof.
  intros HO Hname.
  destruct (populate_metadata_struct_spec lib gdal_filename hDataset HO Hname)
    as (md & drv & bs & _ & _ & _ & Htrace & _).
  exact Htrace.
Qed.

Lemma metadata_path_calls_witness :
  snd (populate_metadata_struct Sample2.library "damaged.png") =
    [EvGDALOpen "damaged.png"; EvGDALGetGeoTransform;
     EvGDALReadWorldFile "damaged.png" (Some "wld");
     EvGDALReadWorldFile "damaged.png.xxx" (Some "wld");
     EvGDALClose].
Proof.
  exact (metadata_path_calls Sample2.library "damaged.png" Sample2.damaged eq_refl
           ltac:(simpl; lia)).
Defined.

(** X7.  The dump of a file that opens, under a name of at most 410
    characters, returns a 1x1 structure whose
    fields [ProjectionRef], [DriverShortName], [DriverLongName],
    [RasterXSize], [RasterYSize] and [RasterCount] hold what GDAL reports
    for the data set, and whose field [GeoTransform] holds the six
    coefficients of the first georeferencing source that answers, as a 6x1
    array, and is left unset when none does. *)
Theorem metadata_describes_dataset
    (lib : Library) (gdal_filename : string) (hDataset : Dataset) :
  Open lib gdal_filename = Some hDataset ->
  (String.length gdal_filename <= 410)%nat ->
  exists metadata_struct,
    fst (populate_metadata_struct lib gdal_filename) = Done metadata_struct /\
    mxGetM metadata_struct = 1 /\ mxGetN metadata_struct = 1 /\
    mxGetField metadata_struct 0 "ProjectionRef" =
      Some (mxCreateString (ProjectionRef hDataset)) /\
    mxGetField metadata_struct 0 "DriverShortName" =
      Some (mxCreateString (DriverShortName (DatasetDriver hDataset))) /\
    mxGetField metadata_struct 0 "DriverLongName" =
      Some (mxCreateString (DriverLongName (DatasetDriver hDataset))) /\
    mxGetField metadata_struct 0 "RasterXSize" =
      Some (mxCreateDoubleScalar (Int.to_double (RasterXSize hDataset))) /\
    mxGetField metadata_struct 0 "RasterYSize" =
      Some (mxCreateDoubleScalar (Int.to_double (RasterYSize hDataset))) /\
    mxGetField metadata_struct 0 "RasterCount" =
      Some (mxCreateDoubleScalar (Int.to_double (GetRasterCount hDataset))) /\
    mxGetField metadata_struct 0 "GeoTransform" =
      option_map (fun transform =>
                    mxDouble 6 1 (map (fun k => nth k transform 0%float) [0; 1; 2; 3; 4; 5]%nat))
                 (fst (first_success (georeference_strategies lib gdal_filename hDataset))).
Proof.
  intros HO Hname.
  destruct (populate_metadata_struct_spec lib gdal_filename hDataset HO Hname)
    as (md & drv & bs & _ & _ & Hdone & _ & Hm & Hn & Hproj & Hgeo & Hshort & Hlong
        & Hx & Hy & Hcount & _).
  exists md. repeat split; assumption.
Qed.

Lemma metadata_describes_dataset_witness :
  exists metadata_struct,
    fst (populate_metadata_struct Sample2.library "damaged.png") = Done metadata_struct /\
    mxGetM metadata_struct = 1 /\ mxGetN metadata_struct = 1 /\
    mxGetField metadata_struct 0 "ProjectionRef" = Some (mxCreateString "") /\
    mxGetField metadata_struct 0 "DriverShortName" = Some (mxCreateString "PNG") /\
    mxGetField metadata_struct 0 "DriverLongName" =
      Some (mxCreateString "Portable Network Graphics") /\
    mxGetField metadata_struct 0 "RasterXSize" =
      Some (mxCreateDoubleScalar (Int.to_double 3)) /\
    mxGetField metadata_struct 0 "RasterYSize" =
      Some (mxCreateDoubleScalar (Int.to_double 2)) /\
    mxGetField metadata_struct 0 "RasterCount" =
      Some (mxCreateDoubleScalar (Int.to_double 1)) /\
    mxGetField metadata_struct 0 "GeoTransform" =
      Some (mxDouble 6 1 [10; 1; 0; 20; 0; -1]%float).
Proof.
  exact (metadata_describes_dataset Sample2.library "damaged.png" Sample2.damaged eq_refl
           ltac:(simpl; lia)).
Defined.

(** X8.  The field [Driver] of the dump (of a file that opens, under a
    name of at most 410 characters) is an array with one entry per
    driver GDAL has registered, whatever the file: entry [j] holds the
    long and the short name of driver [j]. *)
Theorem metadata_lists_every_driver
    (lib : Library) (gdal_filename : string) (hDataset : Dataset) :
  Open lib gdal_filename = Some hDataset ->
  (String.length gdal_filename <= 410)%nat ->
  exists metadata_struct driver_struct,
    fst (populate_metadata_struct lib gdal_filename) = Done metadata_struct /\
    mxGetField metadata_struct 0 "Driver" = Some driver_struct /\
    mxGetM driver_struct = GetDriverCount lib /\
    forall j hDriver, Drivers lib !! j = Some hDriver ->
      mxGetField driver_struct (Z.of_nat j) "DriverLongName" =
        Some (mxCreateString (DriverLongName hDriver)) /\
      mxGetField driver_struct (Z.of_nat j) "DriverShortName" =
        Some (mxCreateString (DriverShortName hDriver)).
Proof.
  intros HO Hname.
  destruct (populate_metadata_struct_spec lib gdal_filename hDataset HO Hname)
    as (md & drv & bs & Hdrv & _ & Hdone & _ & _ & _ & _ & _ & _ & _ & _ & _ & _ & Hfield & _).
  destruct (driver_structure_spec lib) as (drv' & Hdrv' & Hm & Hentries).
  assert (drv' = drv) as -> by congruence.
  exists md, drv. repeat split; try assumption; apply (Hentries j hDriver); assumption.
Qed.

Lemma metadata_lists_every_driver_witness :
  exists metadata_struct driver_struct,
    fst (populate_metadata_struct Sample.library "scan.png") = Done metadata_struct /\
    mxGetField metadata_struct 0 "Driver" = Some driver_struct /\
    mxGetM driver_struct = 2 /\
    forall j hDriver, [Sample.GTiff; Sample.PNG] !! j = Some hDriver ->
      mxGetField driver_struct (Z.of_nat j) "DriverLongName" =
        Some (mxCreateString (DriverLongName hDriver)) /\
      mxGetField driver_struct (Z.of_nat j) "DriverShortName" =
        Some (mxCreateString (DriverShortName hDriver)).
Proof.
  exact (metadata_lists_every_driver Sample.library "scan.png" Sample.scan eq_refl
           ltac:(simpl; lia)).
Defined.

(** X9.  Whatever the number of bands, the first entry of the array [Band]
    of the dump (of a file that opens, under a name of at most 410
    characters) describes the last band of the data set: its size, the
    name of its type and its no-data value.  For a file with one band the
    array is therefore right. *)
Theorem first_band_entry_describes_last_band
    (lib : Library) (gdal_filename : string) (hDataset : Dataset) (hBand : RasterBand) :
  Open lib gdal_filename = Some hDataset ->
  (String.length gdal_filename <= 410)%nat ->
  last (Bands hDataset) = Some hBand ->
  exists metadata_struct band_struct,
    fst (populate_metadata_struct lib gdal_filename) = Done metadata_struct /\
    mxGetField metadata_struct 0 "Band" = Some band_struct /\
    mxGetM band_struct = GetRasterCount hDataset /\
    mxGetField band_struct 0 "XSize" =
      Some (mxCreateDoubleScalar (Int.to_double (BandXSize hBand))) /\
    mxGetField band_struct 0 "YSize" =
      Some (mxCreateDoubleScalar (Int.to_double (BandYSize hBand))) /\
    mxGetField band_struct 0 "DataType" =
      Some (mxCreateString (DataTypeName lib (RasterDataType hBand))) /\
    mxGetField band_struct 0 "NoDataValue" =
      Some (mxCreateDoubleScalar (NoDataValue hBand)).
Proof.
  intros HO Hname Hlast.
  destruct (populate_metadata_struct_spec lib gdal_filename hDataset HO Hname)
    as (md & drv & bs & _ & Hbs & Hdone & _ & _ & _ & _ & _ & _ & _ & _ & _ & _ & _ & Hfield).
  destruct (band_structure_spec lib hDataset) as (bs' & Hbs' & Hm & Hentry).
  assert (bs' = bs) as -> by congruence.
  destruct (Hentry hBand Hlast) as (Hx & Hy & Ht & Hnd).
  exists md, bs. repeat split; assumption.
Qed.

Lemma first_band_entry_describes_last_band_witness :
  exists metadata_struct band_struct,
    fst (populate_metadata_struct Sample.library "scan.png") = Done metadata_struct /\
    mxGetField metadata_struct 0 "Band" = Some band_struct /\
    mxGetM band_struct = 1 /\
    mxGetField band_struct 0 "XSize" = Some (mxCreateDoubleScalar (Int.to_double 3)) /\
    mxGetField band_struct 0 "YSize" = Some (mxCreateDoubleScalar (Int.to_double 2)) /\
    mxGetField band_struct 0 "DataType" = Some (mxCreateString "Byte") /\
    mxGetField band_struct 0 "NoDataValue" = Some (mxCreateDoubleScalar 0%float).
Proof.
  exact (first_band_entry_describes_last_band Sample.library "scan.png" Sample.scan
           (Sample.band 3 2 GDT_Byte 0%float []) eq_refl ltac:(simpl; lia) eq_refl).
Defined.

(** X10.  For a band with overviews, [handle_overviews] stores in the
    field [Overview] of the first entry of the band structure an array
    with one entry per overview, entry [i] holding the size of overview
    [i]; it raises nothing and leaves every other field of the band
    structure as it was. *)
Theorem overviews_are_enumerated
    (hBand : RasterBand) (band_struct : mxArray) (count : nat) (names : list string) :
  struct_has band_struct count names -> (0 < count)%nat -> In "Overview" names ->
  Overviews hBand <> [] ->
  exists band_struct' overview_struct,
    handle_overviews hBand band_struct = (Done band_struct', []) /\
    mxGetField band_struct' 0 "Overview" = Some overview_struct /\
    mxGetM overview_struct = GetOverviewCount hBand /\
    mxGetN overview_struct = 1 /\
    (forall i overview, Overviews hBand !! i = Some overview ->
       mxGetField overview_struct (Z.of_nat i) "XSize" =
         Some (mxCreateDoubleScalar (Int.to_double (BandXSize overview))) /\
       mxGetField overview_struct (Z.of_nat i) "YSize" =
         Some (mxCreateDoubleScalar (Int.to_double (BandYSize overview)))) /\
    (forall index name, name <> "Overview" ->
       mxGetField band_struct' index name = mxGetField band_struct index name).
Proof.
  intros Hstruct Hcount Hname Hovs.
  destruct (handle_overviews_spec hBand band_struct)
    as (bs' & Hdone & [[Hnone _] | (_ & ov & -> & Hm & Hn & Hentries)]); [contradiction |].
  exists (mxSetField band_struct 0 "Overview" ov), ov.
  split; [exact Hdone |]. split.
  { apply (mxGetField_mxSetField_same band_struct count names); [assumption | lia | assumption]. }
  split; [exact Hm |]. split; [exact Hn |]. split; [exact Hentries |].
  intros index name Hne. apply mxGetField_mxSetField_other_name. congruence.
Qed.

Lemma overviews_are_enumerated_witness :
  exists band_struct' overview_struct,
    handle_overviews (Sample.band 250 300 GDT_Int16 0%float
                                  [Sample.band 125 150 GDT_Int16 0%float [];
                                   Sample.band 63 75 GDT_Int16 0%float []])
                     (mxCreateStructMatrix 1 1 ["XSize"; "YSize"; "Overview"])
      = (Done band_struct', []) /\
    mxGetField band_struct' 0 "Overview" = Some overview_struct /\
    mxGetM overview_struct = 2 /\
    mxGetN overview_struct = 1 /\
    (forall i overview,
       [Sample.band 125 150 GDT_Int16 0%float []; Sample.band 63 75 GDT_Int16 0%float []] !! i
         = Some overview ->
       mxGetField overview_struct (Z.of_nat i) "XSize" =
         Some (mxCreateDoubleScalar (Int.to_double (BandXSize overview))) /\
       mxGetField overview_struct (Z.of_nat i) "YSize" =
         Some (mxCreateDoubleScalar (Int.to_double (BandYSize overview)))) /\
    (forall index name, name <> "Overview" ->
       mxGetField band_struct' index name =
         mxGetField (mxCreateStructMatrix 1 1 ["XSize"; "YSize"; "Overview"]) index name).
Proof.
  apply (overviews_are_enumerated
           (Sample.band 250 300 GDT_Int16 0%float
                        [Sample.band 125 150 GDT_Int16 0%float [];
                         Sample.band 63 75 GDT_Int16 0%float []])
           (mxCreateStructMatrix 1 1 ["XSize"; "YSize"; "Overview"]) 1
           ["XSize"; "YSize"; "Overview"]).
  - apply (struct_has_fresh 1).
  - lia.
  - simpl. auto.
  - discriminate.
Defined.

(** ** The checks on the arguments *)

Lemma bind_when_false {B : Type} (m : M unit) (k : unit -> M B) :
  bind (when false m) k = k tt.
Proof. apply bind_ret. Qed.

Lemma mexFunction_abort (lib : Library) (nlhs : Z) (prhs : list mxArray)
    (msg : message) (evs : list event) :
  read_arguments nlhs prhs = (Abort msg, evs) ->
  mexFunction lib nlhs prhs = (Abort msg, evs).
Proof. intros H. unfold mexFunction. rewrite H. reflexivity. Qed.

(** X11.  The number of arguments is checked before anything else, in
    this order: a call with other than one output, with no input, or with
    more than two inputs ends in the error that names the fault, and
    nothing has been done by then: no warning, no call into GDAL. *)
Theorem argument_count_is_checked (lib : Library) (nlhs : Z) (prhs : list mxArray) :
  nlhs <> 1 \/ prhs = [] \/ (2 < length prhs)%nat ->
  mexFunction lib nlhs prhs =
    (Abort (sprintf (if negb (nlhs =? 1) then "Only one output argument is allowed."
                     else if Z.of_nat (length prhs) <? 1
                          then "At least one input argument is required."
                          else "No more than two input arguments are allowed.") []),
     []).
Proof.
  intros H. apply mexFunction_abort. unfold read_arguments. cbv zeta.
  destruct (Z.eqb_spec nlhs 1) as [-> | Hn]; cbn [negb]; [| reflexivity].
  rewrite bind_when_false.
  destruct (Z.ltb_spec (Z.of_nat (length prhs)) 1) as [H1 | H1]; [reflexivity |].
  rewrite bind_when_false.
  destruct (Z.ltb_spec 2 (Z.of_nat (length prhs))) as [H2 | H2]; [reflexivity |].
  exfalso. destruct H as [H | [-> | H]]; [congruence | simpl in H1; lia | lia].
Qed.

Lemma argument_count_is_checked_witness :
  mexFunction Sample.library 1
              [Sample.filename "scan.png"; Sample.options_struct []; Sample.scalar 1%float] =
    (Abort (sprintf "No more than two input arguments are allowed." []), []).
Proof.
  apply (argument_count_is_checked Sample.library 1
           [Sample.filename "scan.png"; Sample.options_struct []; Sample.scalar 1%float]).
  right. right. simpl. lia.
Defined.

(** X12.  With one output and one or two inputs, a first argument that is
    not a character array, or that is one with a number of rows other
    than 1, ends the call in the error that says so, before anything
    else is done. *)
Theorem file_name_is_checked
    (lib : Library) (mx_input_gdal_file : mxArray) (rest : list mxArray) :
  (length rest <= 1)%nat ->
  mxIsChar mx_input_gdal_file <> 1 \/ mxGetM mx_input_gdal_file <> 1 ->
  mexFunction lib 1 (mx_input_gdal_file :: rest) =
    (Abort (sprintf (if negb (mxIsChar mx_input_gdal_file =? 1)
                     then "Input file name must be a string\n"
                     else "Input file name must be a row vector, not a column string\n") []),
     []).
Proof.
  intros Hrest H. apply mexFunction_abort. unfold read_arguments. cbv zeta.
  change (negb (1 =? 1)) with false. rewrite bind_when_false.
  destruct (Z.ltb_spec (Z.of_nat (length (mx_input_gdal_file :: rest))) 1) as [H1 | _];
    [simpl in H1; lia |].
  rewrite bind_when_false.
  destruct (Z.ltb_spec 2 (Z.of_nat (length (mx_input_gdal_file :: rest)))) as [H2 | _];
    [simpl in H2; lia |].
  rewrite bind_when_false.
  destruct (Z.eqb_spec (mxIsChar mx_input_gdal_file) 1) as [Hc | Hc]; cbn [negb];
    [| reflexivity].
  rewrite bind_when_false.
  destruct (Z.eqb_spec (mxGetM mx_input_gdal_file) 1) as [Hm | Hm]; cbn [negb];
    [| reflexivity].
  exfalso. destruct H; contradiction.
Qed.

Lemma file_name_is_checked_witness :
  mexFunction Sample.library 1 [mxChar 2 4 "scantiff"] =
    (Abort (sprintf "Input file name must be a row vector, not a column string\n" []), []).
Proof.
  apply (file_name_is_checked Sample.library (mxChar 2 4 "scantiff") []).
  - simpl. lia.
  - right. simpl. lia.
Defined.

(** X13.  A second argument that is not a structure ends the call in the
    error "2nd input argument must be a structure.", whatever the file
    name, and before GDAL is touched. *)
Theorem options_must_be_a_structure (lib : Library) (s : string) (mx_options : mxArray) :
  mxIsStruct mx_options <> 1 ->
  mexFunction lib 1 [mxCreateString s; mx_options] =
    (Abort (sprintf "2nd input argument must be a structure.\n" []), []).
Proof.
  intros H. apply mexFunction_abort.
  unfold read_arguments, mxCreateString, mxGetString, mxGetN. simpl.
  destruct (Z.ltb_spec (Z.of_nat (String.length s)) (Z.of_nat (String.length s) + 1));
    [| lia].
  simpl. destruct (Z.eqb_spec (mxIsStruct mx_options) 1); [contradiction | reflexivity].
Qed.

Lemma options_must_be_a_structure_witness :
  mexFunction Sample.library 1 [mxCreateString "scan.png"; Sample.scalar 2%float] =
    (Abort (sprintf "2nd input argument must be a structure.\n" []), []).
Proof.
  apply (options_must_be_a_structure Sample.library "scan.png" (Sample.scalar 2%float)).
  simpl. lia.
Defined.

(** ** The order of the calls into GDAL *)

Lemma unpack_field_warns (fieldname : string) (mxField : mxArray) (o : options) :
  emits (fun e => is_warning e = true) (unpack_field fieldname mxField o).
Proof.
  unfold unpack_field, if_field, unpack_band, unpack_overview, unpack_gdal_dump,
    unpack_verbose, unpack_xextend, unpack_yextend, unpack_xout, unpack_yout,
    first_element.
  emits_auto.
Qed.

Lemma unpack_input_options_warns (mx_struct : mxArray) (o : options) :
  emits (fun e => is_warning e = true) (unpack_input_options mx_struct o).
Proof.
  unfold unpack_input_options.
  apply emits_for_loopM. intros k st.
  destruct (mxGetFieldByNumber mx_struct 0 k); [| apply emits_abort].
  destruct (mxGetFieldNameByNumber mx_struct k); [| apply emits_abort].
  apply unpack_field_warns.
Qed.

Lemma bind_when_abort {B : Type} (c : bool) (msg : message) (k : unit -> M B) :
  bind (when c (mexErrMsgTxt msg)) k = if c then (Abort msg, []) else k tt.
Proof. destruct c; [reflexivity | apply bind_ret]. Qed.

(** What reading the arguments leaves in the trace: the warnings of the
    unpacking and, when it succeeds, the registration of the drivers. *)
Lemma read_arguments_trace (nlhs : Z) (prhs : list mxArray) :
  exists warnings,
    Forall (fun e => is_warning e = true) warnings /\
    snd (read_arguments nlhs prhs) =
      warnings ++ match fst (read_arguments nlhs prhs) with
                  | Done _ => [EvGDALAllRegister]
                  | _ => []
                  end.
Proof.
  unfold read_arguments. cbv zeta.
  rewrite bind_when_abort. destruct (negb (nlhs =? 1)); [exists []; auto |].
  rewrite bind_when_abort. destruct (_ <? 1); [exists []; auto |].
  rewrite bind_when_abort. destruct (2 <? _); [exists []; auto |].
  destruct prhs as [| mx_input_gdal_file rest]; [exists []; auto |].
  rewrite bind_when_abort. destruct (negb (mxIsChar _ =? 1)); [exists []; auto |].
  rewrite bind_when_abort. destruct (negb (mxGetM _ =? 1)); [exists []; auto |].
  destruct (mxGetString mx_input_gdal_file _) as [status gdal_filename].
  rewrite bind_when_abort. destruct (negb (status =? 0)); [exists []; auto |].
  match goal with |- context [bind ?m _] =>
    assert (Hm : emits (fun e => is_warning e = true) m) end.
  { destruct rest; [apply emits_ret |].
    apply emits_bind; [apply emits_when, emits_abort | intros].
    apply unpack_input_options_warns. }
  match goal with |- context [bind ?m _] => destruct m as [[o | msg |] evs] end;
    exists evs; (split; [exact Hm | simpl; rewrite ?app_nil_r; reflexivity]).
Qed.

Lemma snd_bind_emit {B : Type} (e : event) (k : unit -> M B) :
  snd (bind (emit e) k) = e :: snd (k tt).
Proof. unfold bind, emit. destruct (k tt); reflexivity. Qed.

Lemma record_geotransform_queries (P : event -> Prop) (lib : Library)
    (gdal_filename : string) (hDataset : Dataset) :
  (forall e, is_metadata_query e = true -> P e) ->
  emits P (record_geotransform lib gdal_filename hDataset).
Proof. intros HP. unfold record_geotransform. emits_auto; apply HP; reflexivity. Qed.

(** Both paths start with [GDALOpen]; what follows is made of what is
    printed, warnings, queries, reads and [GDALClose]. *)
Lemma read_raster_opens_first (P : event -> Prop) (lib : Library)
    (gdal_filename : string) (o : options) :
  (forall msg, P (EvPrintf msg)) -> P EvGDALComputeRasterMinMax ->
  (forall e, is_raster_io e = true -> P e) -> P EvGDALClose ->
  exists rest,
    snd (read_raster lib gdal_filename o) = EvGDALOpen gdal_filename :: rest /\
    Forall P rest.
Proof.
  intros Hprint Hcompute Hread Hclose. unfold read_raster.
  rewrite snd_bind_emit. eexists. split; [reflexivity |].
  match goal with |- Forall P (snd ?m) => change (emits P m) end.
  destruct (Open lib gdal_filename) as [hDataset |]; [| emits_auto].
  destruct (select_band hDataset o) as [hBand |]; [| apply emits_undefined].
  apply emits_bind; [apply emits_when, print_band_summary_prints; assumption | intros _].
  apply emits_bind; [apply emits_when, emits_emit, Hprint | intros _].
  apply emits_bind; [apply read_and_transpose_reads; assumption | intros [[arr tb] sz]].
  apply emits_bind; [apply emits_when, emits_emit, Hprint | intros _].
  apply emits_bind; [apply emits_copy_into_matlab_array | intros mxGDALraster].
  apply emits_bind; [apply emits_when, emits_emit, Hprint | intros _].
  apply emits_bind; [apply emits_emit, Hclose | intros _; apply emits_ret].
Qed.

Lemma populate_metadata_struct_opens_first (P : event -> Prop) (lib : Library)
    (gdal_filename : string) :
  (forall msg, P (EvWarning msg)) ->
  (forall e, is_metadata_query e = true -> P e) -> P EvGDALClose ->
  exists rest,
    snd (populate_metadata_struct lib gdal_filename) = EvGDALOpen gdal_filename :: rest /\
    Forall P rest.
Proof.
  intros Hwarn Hquery Hclose. unfold populate_metadata_struct. cbv zeta.
  rewrite snd_bind_emit. eexists. split; [reflexivity |].
  match goal with |- Forall P (snd ?m) => change (emits P m) end.
  destruct (Open lib gdal_filename) as [hDataset |]; [| emits_auto].
  apply emits_bind; [emits_auto | intros driver_struct].
  apply emits_bind; [apply record_geotransform_queries, Hquery |
                     intros [status adfGeoTransform]].
  apply emits_bind; [emits_auto; apply Hwarn | intros metadata_struct].
  apply emits_bind.
  - apply emits_for_loopM. intros band_number band_struct.
    destruct (GetRasterBand hDataset band_number); [| apply emits_undefined].
    apply handle_overviews_emits.
  - intros band_struct.
    apply emits_bind; [apply emits_emit, Hclose | intros _; apply emits_ret].
Qed.

(** X14.  The trace of every call has this shape: first the warnings of
    the unpacking of the options, if any; then either nothing more (the
    arguments were refused, and GDAL was never touched), or
    [GDALAllRegister] and then [GDALOpen], ahead of every query, read
    and close, neither of the two being called a second time. *)
Theorem gdal_is_started_once_after_the_checks
    (lib : Library) (nlhs : Z) (prhs : list mxArray) :
  exists warnings calls,
    snd (mexFunction lib nlhs prhs) = warnings ++ calls /\
    Forall (fun e => is_warning e = true) warnings /\
    (calls = [] \/
     exists gdal_filename rest,
       calls = EvGDALAllRegister :: EvGDALOpen gdal_filename :: rest /\
       Forall (fun e => is_startup e = false) rest).
Proof.
  destruct (read_arguments_trace nlhs prhs) as (warnings & Hwarnings & Htrace).
  exists warnings.
  destruct (fst (read_arguments nlhs prhs)) as [[gdal_filename o] | msg |] eqn:Hargs.
  - rewrite (mexFunction_dispatch lib nlhs prhs gdal_filename o Hargs), Htrace.
    assert (Hrest : exists rest,
              snd (if negb (gdal_dump o =? 0)
                   then populate_metadata_struct lib gdal_filename
                   else read_raster lib gdal_filename o) =
                EvGDALOpen gdal_filename :: rest /\
              Forall (fun e => is_startup e = false) rest).
    { destruct (negb (gdal_dump o =? 0)).
      - apply populate_metadata_struct_opens_first;
          [reflexivity | intros [] H; (discriminate || reflexivity) | reflexivity].
      - apply read_raster_opens_first;
          [reflexivity | reflexivity | intros [] H; (discriminate || reflexivity)
           | reflexivity]. }
    destruct Hrest as (rest & Hopen & Hrest).
    exists (EvGDALAllRegister :: EvGDALOpen gdal_filename :: rest).
    split; [| split; [exact Hwarnings | right; eauto]].
    destruct (negb (gdal_dump o =? 0)); simpl snd; simpl in Hopen; rewrite Hopen;
      rewrite <- app_assoc; reflexivity.
  - exists []. split; [| auto].
    rewrite mexFunction_stops, Htrace; [reflexivity |].
    intros a. rewrite Hargs. discriminate.
  - exists []. split; [| auto].
    rewrite mexFunction_stops, Htrace; [reflexivity |].
    intros a. rewrite Hargs. discriminate.
Qed.

Lemma closes_bind {A B : Type} (m : M A) (k : A -> M B) :
  emits (fun e => is_close e = false) m ->
  (forall a, closes_on_return (k a)) ->
  closes_on_return (bind m k).
Proof.
  destruct m as [[a | msg |] evs]; unfold closes_on_return, emits; simpl;
    intros Hm Hk; try exact Hm.
  specialize (Hk a). destruct (k a) as [[b | msg |] evs']; simpl in *.
  - destruct Hk as (evs0 & -> & Hevs0). exists (evs ++ evs0).
    split; [rewrite app_assoc; reflexivity | apply Forall_app; split; assumption].
  - apply Forall_app; split; assumption.
  - apply Forall_app; split; assumption.
Qed.

Lemma closes_finish {A : Type} (a : A) : closes_on_return (emit EvGDALClose ;> ret a).
Proof. exists []. split; [reflexivity | constructor]. Qed.

Lemma closes_open_failure {A : Type} (gdal_filename : string) :
  closes_on_return
    (let* error_msg := sprintf_into 500 "Unable to open %s.\n" gdal_filename in
     @mexErrMsgTxt A error_msg).
Proof. unfold sprintf_into. destruct (fits _ _ _); constructor. Qed.

Lemma read_raster_closes (lib : Library) (gdal_filename : string) (o : options) :
  closes_on_return (read_raster lib gdal_filename o).
Proof.
  unfold read_raster.
  apply closes_bind; [apply emits_emit; reflexivity | intros _].
  destruct (Open lib gdal_filename) as [hDataset |]; [| apply closes_open_failure].
  destruct (select_band hDataset o) as [hBand |]; [| constructor].
  apply closes_bind;
    [apply emits_when, print_band_summary_prints; reflexivity | intros _].
  apply closes_bind; [apply emits_when, emits_emit; reflexivity | intros _].
  apply closes_bind;
    [apply read_and_transpose_reads; intros [] H; (discriminate || reflexivity) |
     intros [[arr tb] sz]].
  apply closes_bind; [apply emits_when, emits_emit; reflexivity | intros _].
  apply closes_bind; [apply emits_copy_into_matlab_array | intros mxGDALraster].
  apply closes_bind; [apply emits_when, emits_emit; reflexivity | intros _].
  apply closes_finish.
Qed.

Lemma populate_metadata_struct_closes (lib : Library) (gdal_filename : string) :
  closes_on_return (populate_metadata_struct lib gdal_filename).
Proof.
  unfold populate_metadata_struct. cbv zeta.
  apply closes_bind; [apply emits_emit; reflexivity | intros _].
  destruct (Open lib gdal_filename) as [hDataset |]; [| apply closes_open_failure].
  apply closes_bind; [emits_auto | intros driver_struct].
  apply closes_bind;
    [apply record_geotransform_queries; intros [] H; (discriminate || reflexivity) |
     intros [status adfGeoTransform]].
  apply closes_bind; [emits_auto | intros metadata_struct].
  apply closes_bind.
  - apply emits_for_loopM. intros band_number band_struct.
    destruct (GetRasterBand hDataset band_number); [| apply emits_undefined].
    apply handle_overviews_emits.
  - intros band_struct. apply closes_finish.
Qed.

(** X15.  A call that returns has closed the data set, as the last thing
    it did and only then; a call that ends in an error never calls
    [GDALClose]: after an error that follows [GDALOpen] (a data type that
    is not handled, say) the data set stays open. *)
Theorem dataset_is_closed_exactly_on_return
    (lib : Library) (nlhs : Z) (prhs : list mxArray) :
  closes_on_return (mexFunction lib nlhs prhs).
Proof.
  unfold mexFunction. apply closes_bind.
  - destruct (read_arguments_trace nlhs prhs) as (warnings & Hwarnings & Htrace).
    unfold emits. rewrite Htrace. apply Forall_app. split.
    + revert Hwarnings. apply List.Forall_impl. intros [] H; (discriminate || reflexivity).
    + destruct (fst (read_arguments nlhs prhs)); repeat constructor.
  - intros [gdal_filename o]. destruct (negb (gdal_dump o =? 0)).
    + apply populate_metadata_struct_closes.
    + apply read_raster_closes.
Qed.

(** ** The options structure *)

(** One field whose value, if its name is known, is a 1x1 double. *)
Lemma unpack_field_apply (name : string) (mxField : mxArray) (o : options) :
  (In name (map fst recognized_fields) -> exists d, mxField = mxDouble 1 1 [d]) ->
  unpack_field name mxField o = (Done (set_option name (scalar_value mxField) o), []).
Proof.
  intros H. unfold unpack_field, if_field, set_option, recognized_fields.
  cbn [List.find fst].
  repeat match goal with
  | |- context [String.eqb name ?s] =>
      destruct (String.eqb_spec name s) as [-> | ?];
      [assert (Hin : In s (map fst recognized_fields)) by (simpl; tauto);
       destruct (H Hin) as [d ->]; reflexivity
      | rewrite ?bind_ret]
  end.
  reflexivity.
Qed.

Lemma set_option_unrecognized (name : string) (v : Z) (o : options) :
  ~ In name (map fst recognized_fields) -> set_option name v o = o.
Proof.
  intros H. unfold set_option.
  destruct (List.find _ recognized_fields) as [[known set] |] eqn:Hfind; [| reflexivity].
  apply List.find_some in Hfind as [Hin Heq]. simpl in Heq.
  apply String.eqb_eq in Heq. subst known. exfalso. apply H.
  apply (List.in_map fst) in Hin. exact Hin.
Qed.

Lemma unpack_input_options_apply (m n : Z) (fields : list (string * mxArray))
    (rest : list (list (option mxArray))) (o : options) :
  Forall (fun f => In (fst f) (map fst recognized_fields) ->
                   exists d, snd f = mxDouble 1 1 [d]) fields ->
  unpack_input_options
    (mxStruct m n (map fst fields) (map (fun f => Some (snd f)) fields :: rest)) o =
  (Done (apply_fields fields o), []).
Proof.
  intros Hshape. unfold unpack_input_options. cbv zeta.
  match goal with |- for_loopM 0 ?hi ?body o = _ =>
    destruct (for_loopM_invariant
                (fun k st => st = apply_fields (take (Z.to_nat k) fields) o) 0 hi body o)
      as (o' & Hloop & Ho') end.
  - unfold mxGetNumberOfFields. lia.
  - reflexivity.
  - intros k st Hk ->. unfold mxGetNumberOfFields in Hk. rewrite length_map in Hk.
    destruct (lookup_lt_is_Some_2 fields (Z.to_nat k)) as [f Hf]; [lia |].
    unfold mxGetFieldByNumber, mxGetFieldNameByNumber.
    destruct (Z.ltb_spec k 0); [lia |]. simpl orb. cbv iota.
    change (Z.to_nat 0) with 0%nat. simpl lookup at 1.
    rewrite !list_lookup_fmap, Hf. simpl.
    eexists. split.
    + apply unpack_field_apply. rewrite Forall_forall in Hshape.
      apply Hshape. apply (list_elem_of_lookup_2 _ _ _ Hf).
    + replace (Z.to_nat (k + 1)) with (Datatypes.S (Z.to_nat k)) by lia.
      rewrite (take_S_r _ _ _ Hf). unfold apply_fields. rewrite fold_left_app. reflexivity.
  - rewrite Hloop, Ho'. unfold mxGetNumberOfFields. rewrite Nat2Z.id.
    rewrite length_map, firstn_all. reflexivity.
Qed.

(** X16.  A call whose options structure holds, under every name the
    gateway knows, a 1x1 double raises no warning and no error while it
    reads its arguments: the fields are applied in the order of the
    structure, each known name setting its own variable to the value
    converted to [int], and every other field is skipped, whatever it
    holds. *)
Theorem shaped_options_are_applied (s : string) (fields : list (string * mxArray)) :
  Forall (fun f => In (fst f) (map fst recognized_fields) ->
                   exists d, snd f = mxDouble 1 1 [d]) fields ->
  read_arguments 1 [mxCreateString s;
                    mxStruct 1 1 (map fst fields) [map (fun f => Some (snd f)) fields]] =
    (Done (s, apply_fields fields default_options), [EvGDALAllRegister]).
Proof.
  intros Hshape.
  unfold read_arguments, mxCreateString, mxGetString, mxGetN. simpl.
  destruct (Z.ltb_spec (Z.of_nat (String.length s)) (Z.of_nat (String.length s) + 1));
    [| lia].
  simpl. rewrite (unpack_input_options_apply 1 1 fields [] default_options Hshape).
  reflexivity.
Qed.

Lemma shaped_options_are_applied_witness :
  read_arguments 1 [mxCreateString "two.tif";
                    mxStruct 1 1 ["band"; "Verbose"; "xout"]
                             [[Some (mxDouble 1 1 [2%float]);
                               Some (mxCreateString "no");
                               Some (mxDouble 1 1 [100%float])]]] =
    (Done ("two.tif", set_xout 100 (set_requested_band 2 default_options)),
     [EvGDALAllRegister]).
Proof.
  apply (shaped_options_are_applied "two.tif"
           [("band", mxDouble 1 1 [2%float]); ("Verbose", mxCreateString "no");
            ("xout", mxDouble 1 1 [100%float])]).
  repeat constructor; simpl; intros H; try (eexists; reflexivity);
    exfalso; repeat (destruct H as [H | H]; [discriminate |]); exact H.
Defined.

(** X17.  Fields whose names the gateway does not know are skipped
    without a word: an options structure made of such fields only,
    whatever their values, changes no option, and raises neither a
    warning nor an error.  Names are compared as they are spelled, so a
    name in another case is such a field. *)
Theorem unrecognized_fields_are_ignored (m n : Z) (fields : list (string * mxArray))
    (rest : list (list (option mxArray))) (o : options) :
  Forall (fun f => ~ In (fst f) (map fst recognized_fields)) fields ->
  unpack_input_options
    (mxStruct m n (map fst fields) (map (fun f => Some (snd f)) fields :: rest)) o =
  (Done o, []).
Proof.
  intros Hunknown. rewrite unpack_input_options_apply.
  - f_equal. f_equal. unfold apply_fields.
    induction Hunknown as [| f fields Hf _ IH]; [reflexivity |].
    simpl. rewrite (set_option_unrecognized _ _ _ Hf). exact IH.
  - revert Hunknown. apply List.Forall_impl. intros f Hf Hin. contradiction.
Qed.

Lemma unrecognized_fields_are_ignored_witness :
  unpack_input_options
    (mxStruct 1 1 ["Band"; "xOut"; "stride"]
              [[Some (mxDouble 1 1 [2%float]); Some (mxDouble 1 1 [100%float]);
                Some (mxCreateString "none")]])
    default_options =
  (Done default_options, []).
Proof.
  apply (unrecognized_fields_are_ignored 1 1
           [("Band", mxDouble 1 1 [2%float]); ("xOut", mxDouble 1 1 [100%float]);
            ("stride", mxCreateString "none")] [] default_options).
  repeat constructor; simpl; intros H;
    repeat (destruct H as [H | H]; [discriminate |]); exact H.
Defined.

(** X18.  An options structure that has at least one field but whose
    first field holds nothing in its first element (a structure array
    with no element, or a field that was never set) ends the call in the
    error "mxGetFieldByNumber returned NULL on field 0", before GDAL is
    touched. *)
Theorem null_option_field_is_fatal (lib : Library) (s : string) (mx_options : mxArray) :
  0 < mxGetNumberOfFields mx_options ->
  mxGetFieldByNumber mx_options 0 0 = None ->
  mexFunction lib 1 [mxCreateString s; mx_options] =
    (Abort (sprintf "mxGetFieldByNumber returned NULL on field %d.\n" [ArgInt 0]), []).
Proof.
  intros Hfields Hnull. apply mexFunction_abort.
  assert (Hstruct : mxIsStruct mx_options = 1).
  { destruct mx_options; simpl in Hfields; try lia. reflexivity. }
  assert (Hunpack : unpack_input_options mx_options default_options =
            (Abort (sprintf "mxGetFieldByNumber returned NULL on field %d.\n" [ArgInt 0]), [])).
  { unfold unpack_input_options, for_loopM. cbv zeta.
    destruct (Z.to_nat (mxGetNumberOfFields mx_options - 0)) as [| count] eqn:Hcount; [lia |].
    simpl seq. simpl fold_left. change (0 + Z.of_nat 0) with 0.
    rewrite Hnull.
    match goal with |- fold_left ?step ?l _ = ?r => change (fold_left step l r = r) end.
    generalize (seq 1 count). intros l.
    induction l as [| k l IH]; [reflexivity | exact IH]. }
  unfold read_arguments, mxCreateString, mxGetString, mxGetN. simpl.
  destruct (Z.ltb_spec (Z.of_nat (String.length s)) (Z.of_nat (String.length s) + 1));
    [| lia].
  simpl. rewrite Hstruct. simpl. rewrite Hunpack. reflexivity.
Qed.

Lemma null_option_field_is_fatal_witness :
  mexFunction Sample.library 1 [mxCreateString "scan.png"; mxStruct 0 0 ["band"] []] =
    (Abort (sprintf "mxGetFieldByNumber returned NULL on field %d.\n" [ArgInt 0]), []).
Proof.
  apply (null_option_field_is_fatal Sample.library "scan.png" (mxStruct 0 0 ["band"] []));
    [simpl; lia | reflexivity].
Defined.

(** ** Files that do not open *)

(** X19.  When GDAL cannot open the file, the message "Unable to open"
    with the file name is formatted into a buffer of 500 characters.
    For a name of at most 482 characters, which fits, the call ends in
    that error, in the metadata dump as in the raster path, and after
    the reading of the arguments its only call into GDAL is the
    [GDALOpen] that failed.  For a longer name the [sprintf] writes past
    the end of the buffer. *)
Theorem open_failure_is_fatal (lib : Library) (nlhs : Z) (prhs : list mxArray)
    (gdal_filename : string) (o : options) :
  fst (read_arguments nlhs prhs) = Done (gdal_filename, o) ->
  Open lib gdal_filename = None ->
  mexFunction lib nlhs prhs =
    (if (String.length gdal_filename <=? 482)%nat
     then Abort (sprintf "Unable to open %s.\n" [ArgString gdal_filename])
     else Undefined,
     snd (read_arguments nlhs prhs) ++ [EvGDALOpen gdal_filename]).
Proof.
  intros Hargs Hopen. rewrite (mexFunction_dispatch lib nlhs prhs gdal_filename o Hargs).
  unfold populate_metadata_struct, read_raster. cbv zeta. rewrite Hopen.
  unfold sprintf_into.
  destruct (Nat.leb_spec (String.length gdal_filename) 482) as [Hshort | Hlong].
  - rewrite (proj2 (fits_open_message gdal_filename) Hshort).
    destruct (negb (gdal_dump o =? 0)); reflexivity.
  - destruct (fits 500 "Unable to open %s.\n" gdal_filename) eqn:Hfits.
    + apply fits_open_message in Hfits. lia.
    + destruct (negb (gdal_dump o =? 0)); reflexivity.
Qed.

Lemma open_failure_is_fatal_witness :
  mexFunction Sample.library 1 [mxCreateString "missing.tif"] =
    (Abort (sprintf "Unable to open %s.\n" [ArgString "missing.tif"]),
     [EvGDALAllRegister; EvGDALOpen "missing.tif"]).
Proof.
  exact (open_failure_is_fatal Sample.library 1 [mxCreateString "missing.tif"]
           "missing.tif" default_options eq_refl eq_refl).
Defined.

(** ** The whole band by default *)

Lemma filter_none {A : Type} (p : A -> bool) (l : list A) :
  Forall (fun a => p a = false) l -> List.filter p l = [].
Proof.
  induction 1 as [| a l Ha _ IH]; [reflexivity |]. simpl. rewrite Ha. exact IH.
Qed.

(** X20.  With the window options left at their initial values, a raster
    call asks GDAL once for the whole of the band it selects (the
    requested band, or the requested overview of it), into a buffer of
    the size of the band, and returns an array with as many rows as the
    band is high and as many columns as it is wide, whose element at
    [(row, col)] is the sample GDAL decoded there. *)
Theorem default_window_reads_whole_band
    (lib : Library) (gdal_filename : string) (o : options)
    (hDataset : Dataset) (hBand : RasterBand) :
  Open lib gdal_filename = Some hDataset ->
  select_band hDataset o = Some hBand ->
  window_of o = window_of default_options ->
  supported_type (RasterDataType hBand) = true ->
  0 <= BandXSize hBand <= Int.max_signed ->
  0 <= BandYSize hBand <= Int.max_signed ->
  element_size (RasterDataType hBand) * (BandXSize hBand * BandYSize hBand)
    <= Int.max_signed ->
  exists mxGDALraster,
    fst (read_raster lib gdal_filename o) = Done mxGDALraster /\
    mxGetM mxGDALraster = BandYSize hBand /\
    mxGetN mxGDALraster = BandXSize hBand /\
    List.filter is_raster_io (snd (read_raster lib gdal_filename o)) =
      [EvGDALRasterIO 0 0 (BandXSize hBand) (BandYSize hBand)
                      (BandXSize hBand) (BandYSize hBand)
                      (buffer_type (RasterDataType hBand))] /\
    forall row col, 0 <= row < BandYSize hBand -> 0 <= col < BandXSize hBand ->
      element mxGDALraster (col * BandYSize hBand + row) =
        Some (decoded hBand (resolve_window (BandXSize hBand) (BandYSize hBand) o)
                      (row * BandXSize hBand + col)).
Proof.
  intros HO HS Hwin Hsup HX HY Hsize.
  set (w := resolve_window (BandXSize hBand) (BandYSize hBand) o).
  assert (Hw : xorigin w = 0 /\ yorigin w = 0 /\
               xextend w = BandXSize hBand /\ yextend w = BandYSize hBand /\
               xout w = BandXSize hBand /\ yout w = BandYSize hBand).
  { unfold w. rewrite resolve_window_fields.
    unfold window_of in Hwin. simpl in Hwin.
    injection Hwin as Hxo Hyo Hxe Hye Hxu Hyu.
    rewrite Hxo, Hyo, Hxe, Hye, Hxu, Hyu. simpl.
    unfold Int.sub. rewrite !Z.sub_0_r.
    rewrite !Int_wrap_small by (unfold Int.in_range, Int.min_signed; lia).
    repeat split; reflexivity. }
  destruct Hw as (Hxo & Hyo & Hxe & Hye & Hxu & Hyu).
  assert (Hx : 0 <= xout w) by lia.
  assert (Hy : 0 <= yout w) by lia.
  assert (Hsize' : element_size (RasterDataType hBand) * (xout w * yout w) <= Int.max_signed).
  { rewrite Hxu, Hyu. exact Hsize. }
  exists (fetched_array hBand w).
  split; [apply (read_raster_sane lib gdal_filename o hDataset hBand HO HS Hsup Hx Hy Hsize') |].
  split; [unfold fetched_array; rewrite Hyu; destruct (_ =? _); reflexivity |].
  split; [unfold fetched_array; rewrite Hxu; destruct (_ =? _); reflexivity |].
  split.
  - rewrite (snd_read_raster_sane lib gdal_filename o hDataset hBand HO HS Hsup Hx Hy Hsize').
    fold w. rewrite Hxo, Hyo, Hxe, Hye, Hxu, Hyu.
    rewrite !List.filter_app.
    rewrite !filter_when_printf by reflexivity.
    assert (Hsummary : forall c,
              List.filter is_raster_io
                (snd (when c (print_band_summary lib hBand (RasterDataType hBand)
                                (BandXSize hBand) (BandYSize hBand) w))) = []).
    { intros c. apply filter_none.
      apply emits_when, print_band_summary_prints; reflexivity. }
    rewrite Hsummary. reflexivity.
  - intros row col Hrow Hcol. rewrite <- Hxu, <- Hyu.
    apply element_fetched_array; try lia.
    assert (0 <= xout w * yout w) by (apply Z.mul_nonneg_nonneg; assumption).
    unfold element_size in Hsize'. destruct (_ =? _); lia.
Qed.

Lemma default_window_reads_whole_band_witness :
  exists mxGDALraster,
    fst (read_raster Sample.library "two.tif"
           (set_requested_overview 0 (set_requested_band 2 default_options)))
      = Done mxGDALraster /\
    mxGetM mxGDALraster = 150 /\
    mxGetN mxGDALraster = 125 /\
    List.filter is_raster_io
      (snd (read_raster Sample.library "two.tif"
              (set_requested_overview 0 (set_requested_band 2 default_options)))) =
      [EvGDALRasterIO 0 0 125 150 125 150 GDT_Float64] /\
    forall row col, 0 <= row < 150 -> 0 <= col < 125 ->
      element mxGDALraster (col * 150 + row) =
        Some (decoded (Sample.band 125 150 GDT_Int16 (-9999)%float [])
                      (resolve_window 125 150
                         (set_requested_overview 0 (set_requested_band 2 default_options)))
                      (row * 125 + col)).
Proof.
  apply (default_window_reads_whole_band Sample.library "two.tif"
           (set_requested_overview 0 (set_requested_band 2 default_options))
           Sample.two_bands (Sample.band 125 150 GDT_Int16 (-9999)%float []));
    first [reflexivity | vm_compute; split; discriminate | vm_compute; discriminate].
Defined.

(** ** Reads that the shape checks do and do not protect *)

(** X21.  A field that holds no number (an empty array, say) is handled
    in two ways.  Under [band], [overview], [gdal_dump], [verbose],
    [xorigin] or [yorigin] the gateway reads its first number all the
    same: the read falls outside the array.  Under [xextend], [yextend],
    [xout] or [yout] the shape check comes first and ends the call in an
    error, so that nothing is read. *)
Theorem empty_field_is_read_unless_strict (name : string) (field : mxArray) (o : options) :
  mxGetPr field = [] ->
  mxGetM field * mxGetN field = 0 ->
  (In name ["band"; "overview"; "gdal_dump"; "verbose"; "xorigin"; "yorigin"] ->
   fst (unpack_field name field o) = Undefined) /\
  (In name ["xextend"; "yextend"; "xout"; "yout"] ->
   exists msg, unpack_field name field o = (Abort msg, [])).
Proof.
  intros Hpr Hshape.
  assert (Hstrict : negb (mxGetM field =? 1) || negb (mxGetN field =? 1) = true).
  { destruct (Z.eqb_spec (mxGetM field) 1) as [Hm | _]; [| reflexivity].
    destruct (Z.eqb_spec (mxGetN field) 1) as [Hn | _]; [| reflexivity].
    rewrite Hm, Hn in Hshape. discriminate. }
  split; intros Hin; unfold unpack_field, if_field.
  - repeat match goal with
    | |- context [String.eqb name ?s] =>
        destruct (String.eqb_spec name s) as [-> | ?];
        [first
           [ solve [exfalso; simpl in Hin; intuition discriminate]
           | rewrite fst_bind_undefined; [reflexivity |];
             rewrite fst_bind_undefined; [reflexivity |];
             unfold unpack_band, unpack_overview, unpack_gdal_dump, unpack_verbose, when;
             rewrite Hpr;
             repeat match goal with |- context [if ?c then _ else _] => destruct c end;
             reflexivity ]
        | rewrite ?bind_ret]
    end.
    exfalso. simpl in Hin. intuition congruence.
  - repeat match goal with
    | |- context [String.eqb name ?s] =>
        destruct (String.eqb_spec name s) as [-> | ?];
        [first
           [ solve [exfalso; simpl in Hin; intuition discriminate]
           | unfold unpack_xextend, unpack_yextend, unpack_xout, unpack_yout; cbv zeta;
             rewrite Hstrict; eexists; reflexivity ]
        | rewrite ?bind_ret]
    end.
    exfalso. simpl in Hin. intuition congruence.
Qed.

Lemma empty_field_is_read_unless_strict_witness :
  fst (unpack_field "band" (mxDouble 0 0 []) default_options) = Undefined /\
  exists msg, unpack_field "xout" (mxDouble 0 0 []) default_options = (Abort msg, []).
Proof.
  split.
  - apply (proj1 (empty_field_is_read_unless_strict "band" (mxDouble 0 0 []) default_options
                    eq_refl eq_refl)).
    left. reflexivity.
  - apply (proj2 (empty_field_is_read_unless_strict "xout" (mxDouble 0 0 []) default_options
                    eq_refl eq_refl)).
    right. right. left. reflexivity.
Defined.

(** X22.  [unpack_start_count_stride] reads the two numbers of its field
    only after it has checked that the field is 1x2: for an array that
    holds as many numbers as its size says, the status is 0 and both
    elements of [start_count_stride] are written when the field is 1x2,
    and otherwise the status is -1, one warning is raised, and the array
    is left as it was.  No read falls outside the field. *)
Theorem start_count_stride_checks_before_reading
    (field : mxArray) (start_count_stride : list Z) :
  Z.of_nat (length (mxGetPr field)) = mxGetM field * mxGetN field ->
  if (mxGetM field =? 1) && (mxGetN field =? 2)
  then exists d0 d1,
         mxGetPr field = [d0; d1] /\
         unpack_start_count_stride field start_count_stride =
           (Done (0, store (store start_count_stride 0 (Int.of_double d0))
                           1 (Int.of_double d1)), [])
  else exists msg,
         unpack_start_count_stride field start_count_stride =
           (Done (-1, start_count_stride), [EvWarning msg]).
Proof.
  intros Hsize. unfold unpack_start_count_stride. cbv zeta.
  destruct (Z.eqb_spec (mxGetM field) 1) as [Hm | Hm]; cbn [negb andb];
    [| eexists; reflexivity].
  destruct (Z.eqb_spec (mxGetN field) 2) as [Hn | Hn]; cbn [negb];
    [| eexists; reflexivity].
  rewrite Hm, Hn in Hsize.
  destruct (mxGetPr field) as [| d0 [| d1 [| d2 rest]]]; simpl in Hsize; try lia.
  exists d0, d1. split; reflexivity.
Qed.

Lemma start_count_stride_checks_before_reading_witness :
  exists d0 d1,
    mxGetPr (mxDouble 1 2 [10%float; 20%float]) = [d0; d1] /\
    unpack_start_count_stride (mxDouble 1 2 [10%float; 20%float]) [0; 0] =
      (Done (0, store (store [0; 0] 0 (Int.of_double d0)) 1 (Int.of_double d1)), []).
Proof.
  apply (start_count_stride_checks_before_reading (mxDouble 1 2 [10%float; 20%float]) [0; 0]).
  reflexivity.
Defined.

(** ** The window that is fetched *)

(** X23.  For every window whose size in bytes is an [int] (the file
    opens, the band exists, its type is one of the seven read, the output
    sizes are not negative, and the element size times [xout * yout] is
    at most [INT_MAX]), the array handed to MATLAB has dimensions
    [(yout, xout)], and its element at the column-major position
    [col * yout + row] is the sample GDAL decoded at the row-major
    position [row * xout + col], for every [row] in [[0, yout)] and [col]
    in [[0, xout)]. *)
Theorem fetch_transposes_row_major_to_column_major
    (lib : Library) (gdal_filename : string) (o : options)
    (hDataset : Dataset) (hBand : RasterBand) :
  Open lib gdal_filename = Some hDataset ->
  select_band hDataset o = Some hBand ->
  supported_type (RasterDataType hBand) = true ->
  0 <= xout (resolve_window (BandXSize hBand) (BandYSize hBand) o) ->
  0 <= yout (resolve_window (BandXSize hBand) (BandYSize hBand) o) ->
  element_size (RasterDataType hBand) *
    (xout (resolve_window (BandXSize hBand) (BandYSize hBand) o) *
     yout (resolve_window (BandXSize hBand) (BandYSize hBand) o)) <= Int.max_signed ->
  exists mxGDALraster,
    fst (read_raster lib gdal_filename o) = Done mxGDALraster /\
    let w := resolve_window (BandXSize hBand) (BandYSize hBand) o in
    mxGetM mxGDALraster = yout w /\
    mxGetN mxGDALraster = xout w /\
    forall row col, 0 <= row < yout w -> 0 <= col < xout w ->
      element mxGDALraster (col * yout w + row) =
        Some (decoded hBand w (row * xout w + col)).
Proof.
  intros HO HS Hsup Hx Hy Hsize.
  set (w := resolve_window (BandXSize hBand) (BandYSize hBand) o) in *.
  exists (fetched_array hBand w). split.
  - apply (read_raster_sane lib gdal_filename o hDataset hBand HO HS Hsup Hx Hy Hsize).
  - cbv zeta. split; [| split].
    + unfold fetched_array. destruct (_ =? _); reflexivity.
    + unfold fetched_array. destruct (_ =? _); reflexivity.
    + intros row col Hrow Hcol. apply element_fetched_array; try assumption.
      assert (0 <= xout w * yout w) by (apply Z.mul_nonneg_nonneg; assumption).
      unfold element_size in Hsize. clearbody w. destruct (_ =? _); lia.
Qed.

(** The 3 by 2 byte band of the sample, read with the default options. *)
Lemma fetch_transposes_row_major_to_column_major_witness :
  exists mxGDALraster,
    fst (read_raster Sample.library "scan.png" default_options) = Done mxGDALraster /\
    mxGetM mxGDALraster = 2 /\
    mxGetN mxGDALraster = 3 /\
    forall row col, 0 <= row < 2 -> 0 <= col < 3 ->
      element mxGDALraster (col * 2 + row) =
        Some (decoded (Sample.band 3 2 GDT_Byte 0%float [])
                      (resolve_window 3 2 default_options) (row * 3 + col)).
Proof.
  apply (fetch_transposes_row_major_to_column_major Sample.library "scan.png"
           default_options Sample.scan (Sample.band 3 2 GDT_Byte 0%float []));
    [reflexivity | reflexivity | reflexivity | vm_compute; discriminate ..].
Defined.

(** ** The order of the georeferencing sources *)

(** X24.  For a file name that fits the buffer of 5000 characters it is
    copied to with [.xxx] appended (at most 4995 characters),
    [record_geotransform] consults, in this order, the transform stored
    in the data set, the world file with the extension replaced by
    [wld], the world file with [wld] appended to the full name, and, for
    a library of version 1210 or later, GDAL's own guess; it stops at the
    first that succeeds and returns its transform with status 0; when all
    fail it returns status -1, which is a result and not an error: for a
    name whose warning fits its buffer of 500 characters (at most 410
    characters) the dump still returns its structure, with
    [GeoTransform] unset. *)
Theorem georeference_fallback_order
    (lib : Library) (gdal_filename : string) (hDataset : Dataset) :
  (String.length gdal_filename <= 4995)%nat ->
  snd (record_geotransform lib gdal_filename hDataset) =
    snd (first_success (georeference_strategies lib gdal_filename hDataset)) /\
  match fst (first_success (georeference_strategies lib gdal_filename hDataset)) with
  | Some transform =>
      fst (record_geotransform lib gdal_filename hDataset) = Done (0, transform)
  | None =>
      exists adfGeoTransform,
        fst (record_geotransform lib gdal_filename hDataset) = Done (-1, adfGeoTransform)
  end /\
  (Open lib gdal_filename = Some hDataset ->
   (String.length gdal_filename <= 410)%nat ->
   fst (first_success (georeference_strategies lib gdal_filename hDataset)) = None ->
   exists metadata_struct,
     fst (populate_metadata_struct lib gdal_filename) = Done metadata_struct /\
     mxGetField metadata_struct 0 "GeoTransform" = None).
Proof.
  intros Hname.
  destruct (record_geotransform_first_success lib gdal_filename hDataset Hname)
    as [Hcalls Hfound].
  split; [exact Hcalls | split; [exact Hfound |]].
  intros HO Hshort Hnone. rewrite Hnone in Hfound. destruct Hfound as [adf Hadf].
  destruct (populate_metadata_struct_done lib gdal_filename hDataset HO Hshort)
    as (md & bs & Hmd & _ & _ & _ & _ & Hgeo).
  exists md. split; [exact Hmd |].
  apply (Hgeo (-1) adf Hadf). discriminate.
Qed.

(** The sample scan has no georeferencing anywhere: its dump succeeds and
    leaves [GeoTransform] unset. *)
Lemma georeference_fallback_order_witness :
  exists metadata_struct,
    fst (populate_metadata_struct Sample.library "scan.png") = Done metadata_struct /\
    mxGetField metadata_struct 0 "GeoTransform" = None.
Proof.
  apply (proj2 (proj2 (georeference_fallback_order Sample.library "scan.png" Sample.scan
                         ltac:(simpl; lia))));
    first [reflexivity | simpl; lia].
Defined.
